(** * Training orchestration of recognition/45813788_Siamese/train.py

    A shallow embedding of [siamese_train] and [classifier_train].

    Python floats are IEEE binary64 numbers and are embedded as Rocq's
    primitive floats, so [<], [+], [/], [float('inf')] and [np.nan] keep
    their exact meaning.  The deep-learning and metrics libraries (torch,
    pytorch_metric_learning, sklearn) and the sibling modules [modules] and
    [utils] are collaborators: they are taken as an interface ([Collab]),
    and the calls the training code makes to them are recorded in a trace.

    Conventions of the embedding:
    - a statement is a function from the world to an outcome, which is a
      return or a raised exception, each with the world it leaves;
    - module objects live in a store and are passed by reference, as the
      [siamese] argument of [classifier_train] is;
    - [epochs] is a natural number ([range] of a negative int is empty, as
      [range(0)] is), and counts and lengths stay below 2^53, where the
      conversion of an int to a float is exact;
    - paths are joined as [posixpath.join] does, and [torch.save] on a
      path writes that file;
    - a collaborator returns; only [roc_auc_score] and
      [classification_report] are given the possibility to raise, since
      the code has a handler for them. *)

From Stdlib Require Import ZArith List Bool Lia Floats Ascii String.
From stdpp Require Import base option list gmap strings pretty.
Import ListNotations.

Set Warnings "-inexact-float".

(** ** Python floats *)

Module PyFloat.

Definition lt (a b : float) : bool := PrimFloat.ltb a b.   (* a < b *)
Definition gt (a b : float) : bool := PrimFloat.ltb b a.   (* a > b *)
Definition ge (a b : float) : bool := PrimFloat.leb b a.   (* a >= b *)
Definition inf : float := PrimFloat.infinity.              (* float('inf') *)
Definition nan : float := PrimFloat.nan.                   (* np.nan *)
Definition is_nan (a : float) : bool := PrimFloat.is_nan a.

(** [float(n)] for a non-negative int; exact below 2^53, which every
    count and length of this program is. *)
Definition of_nat (n : nat) : float :=
  PrimFloat.of_uint63 (Uint63.of_Z (Z.of_nat n)).

(** [label.float()] on a 0/1 integer label. *)
Definition of_Z (z : Z) : float :=
  if (z <? 0)%Z then PrimFloat.opp (PrimFloat.of_uint63 (Uint63.of_Z (- z)))
  else PrimFloat.of_uint63 (Uint63.of_Z z).

(** The order of the non-NaN binary64 values, read off their decoded
    form: a class (-inf, negative, zero, positive, +inf) and, inside the
    finite classes, exponent then mantissa. *)
Definition key (x : spec_float) : Z * Z * Z :=
  match x with
  | S754_nan => (0, 0, 0)%Z
  | S754_infinity true => (-2, 0, 0)%Z
  | S754_infinity false => (2, 0, 0)%Z
  | S754_zero _ => (0, 0, 0)%Z
  | S754_finite true m e => (-1, - e, - Z.pos m)%Z
  | S754_finite false m e => (1, e, Z.pos m)%Z
  end.

Definition lex_lt (a b : Z * Z * Z) : Prop :=
  let '(a1, a2, a3) := a in
  let '(b1, b2, b3) := b in
  (a1 < b1 \/ (a1 = b1 /\ (a2 < b2 \/ (a2 = b2 /\ a3 < b3))))%Z.

Definition not_nan (x : spec_float) : Prop := x <> S754_nan.

Lemma SFltb_key (x y : spec_float) :
  SFltb x y = true <-> not_nan x /\ not_nan y /\ lex_lt (key x) (key y).
Proof.
  unfold SFltb, not_nan.
  destruct x as [sx|sx| |sx mx ex], y as [sy|sy| |sy my ey];
    try destruct sx; try destruct sy; cbn;
    try (split; [discriminate | intros (?&?&?); try congruence; lia]);
    try (split; [intros _; repeat split; try discriminate; lia | reflexivity]).
  - destruct (Z.compare_spec ex ey) as [E|E|E];
      [ subst; change (Pos.compare_cont Eq mx my) with (Pos.compare mx my);
        destruct (Pos.compare_spec mx my) as [F|F|F]; cbn | | ];
      (split; [try discriminate; intros _; repeat split; try discriminate; lia
              | try reflexivity; intros (_&_&?); lia]).
  - destruct (Z.compare_spec ex ey) as [E|E|E];
      [ subst; change (Pos.compare_cont Eq mx my) with (Pos.compare mx my);
        destruct (Pos.compare_spec mx my) as [F|F|F]; cbn | | ];
      (split; [try discriminate; intros _; repeat split; try discriminate; lia
              | try reflexivity; intros (_&_&?); lia]).
Qed.

Lemma is_nan_spec (a : float) : is_nan a = true <-> Prim2SF a = S754_nan.
Proof.
  unfold is_nan, PrimFloat.is_nan. rewrite FloatAxioms.eqb_spec. unfold SFeqb.
  destruct (Prim2SF a) as [s|s| |s m e]; try destruct s; cbn;
    try (split; congruence).
  - change (Pos.compare_cont Eq m m) with (Pos.compare m m).
    rewrite Z.compare_refl, Pos.compare_refl. cbn.
    split; congruence.
  - change (Pos.compare_cont Eq m m) with (Pos.compare m m).
    rewrite Z.compare_refl, Pos.compare_refl. cbn.
    split; congruence.
Qed.

Lemma is_nan_false (a : float) : is_nan a = false <-> not_nan (Prim2SF a).
Proof.
  unfold not_nan. rewrite <- is_nan_spec. destruct (is_nan a); split; congruence.
Qed.

Lemma lt_key (a b : float) :
  lt a b = true <->
  is_nan a = false /\ is_nan b = false /\ lex_lt (key (Prim2SF a)) (key (Prim2SF b)).
Proof. unfold lt. rewrite ltb_spec, SFltb_key, !is_nan_false. reflexivity. Qed.

Lemma lt_irrefl (a : float) : lt a a = false.
Proof.
  destruct (lt a a) eqn:E; [|reflexivity].
  apply lt_key in E as (_&_&E). destruct (key (Prim2SF a)) as [[? ?] ?]. cbn in E. lia.
Qed.

Lemma lt_trans (a b c : float) : lt a b = true -> lt b c = true -> lt a c = true.
Proof.
  rewrite !lt_key. intros (Ha&_&H1) (_&Hc&H2). repeat split; try assumption.
  destruct (key (Prim2SF a)) as [[? ?] ?], (key (Prim2SF b)) as [[? ?] ?],
    (key (Prim2SF c)) as [[? ?] ?]. cbn in *. lia.
Qed.

Lemma lt_nan_r (a b : float) : is_nan b = true -> lt a b = false.
Proof.
  intros Hb. destruct (lt a b) eqn:E; [|reflexivity].
  apply lt_key in E as (_&E&_). congruence.
Qed.

Lemma lt_nan_l (a b : float) : is_nan a = true -> lt a b = false.
Proof.
  intros Ha. destruct (lt a b) eqn:E; [|reflexivity].
  apply lt_key in E as (E&_&_). congruence.
Qed.

Lemma lt_not_nan (a b : float) : lt a b = true -> is_nan a = false /\ is_nan b = false.
Proof. rewrite lt_key. tauto. Qed.

(** Among numbers, [a < b] failing means [b <= a]; so a number below
    something that is not below [c] is below [c]. *)
Lemma lt_le_trans (a b c : float) :
  lt a b = true -> is_nan c = false -> lt c b = false -> lt a c = true.
Proof.
  intros Hab Hc Hcb. pose proof Hab as Hab'. apply lt_key in Hab' as (Ha&Hb&H1).
  apply lt_key. repeat split; try assumption.
  assert (H2 : ~ lex_lt (key (Prim2SF c)) (key (Prim2SF b))).
  { intros H. assert (lt c b = true) by (apply lt_key; tauto). congruence. }
  destruct (key (Prim2SF a)) as [[? ?] ?], (key (Prim2SF b)) as [[? ?] ?],
    (key (Prim2SF c)) as [[? ?] ?]. cbn in *. lia.
Qed.

Lemma le_lt_trans (a b c : float) :
  is_nan a = false -> lt b a = false -> lt b c = true -> lt a c = true.
Proof.
  intros Ha Hba Hbc. pose proof Hbc as Hbc'. apply lt_key in Hbc' as (Hb&Hc&H1).
  apply lt_key. repeat split; try assumption.
  assert (H2 : ~ lex_lt (key (Prim2SF b)) (key (Prim2SF a))).
  { intros H. assert (lt b a = true) by (apply lt_key; tauto). congruence. }
  destruct (key (Prim2SF a)) as [[? ?] ?], (key (Prim2SF b)) as [[? ?] ?],
    (key (Prim2SF c)) as [[? ?] ?]. cbn in *. lia.
Qed.

End PyFloat.

(** ** Python and library values *)

(** The exceptions the training code can meet.  [OtherError] stands for
    any failure of a collaborator that the code does not catch. *)
Inductive exn := ZeroDivisionError | ValueError | OtherError.

Inductive Exc (A : Type) := Ok (a : A) | Err (e : exn).
Arguments Ok {A} a.
Arguments Err {A} e.

(** [a / n] for a float [a] and an int [n >= 0]. *)
Definition float_div_int (a : float) (n : nat) : Exc float :=
  match n with
  | O => Err ZeroDivisionError
  | _ => Ok (PrimFloat.div a (PyFloat.of_nat n))
  end.

(** [a / b] for two ints [a, b >= 0] (true division). *)
Definition int_truediv (a b : nat) : Exc float :=
  float_div_int (PyFloat.of_nat a) b.

(** [os.path.join(a, b)] of posixpath. *)
Fixpoint ends_with_slash (s : string) : bool :=
  match s with
  | EmptyString => false
  | String c EmptyString => if Ascii.eqb c "/"%char then true else false
  | String _ s' => ends_with_slash s'
  end.

Definition os_path_join (a b : string) : string :=
  if String.prefix "/" b then b
  else if (String.eqb a "" || ends_with_slash a)%bool then a +:+ b
  else a +:+ "/" +:+ b.

Inductive Device := Cpu | Cuda.

(** The two network classes of [modules]. *)
Inductive Arch := SiameseNN | Classifier.

(** The collaborators: tensors and networks of torch, the losses, Adam and
    the plateau scheduler, sklearn's metrics, and float formatting.  None of
    them is part of train.py; the training code is embedded over any
    implementation of them. *)
Class Collab := {
  Params : Type;       (* a state_dict *)
  Tensor : Type;
  Grads : Type;        (* what loss.backward() leaves for the optimizer *)
  OptState : Type;     (* Adam's running moments *)
  SchedState : Type;   (* ReduceLROnPlateau's counters *)
  cuda_is_available : bool;
  init_params : Arch -> Params;
  (* a module called in eval mode reads its parameters; in train mode it
     may also update its buffers (batch-norm statistics) *)
  forward_eval : Arch -> Params -> Tensor -> Tensor;
  forward_train : Arch -> Params -> Tensor -> Tensor * Params;
  squeeze : Tensor -> Tensor;
  sigmoid : Tensor -> Tensor;
  numpy : Tensor -> list float;
  tensor : list float -> Tensor;
  cat : list Tensor -> Tensor;
  contrastive_loss : Tensor -> list Z -> Tensor;
  bce_with_logits : Tensor -> Tensor -> list float -> Tensor;
  item : Tensor -> float;
  backward : Tensor -> Grads;
  adam_init : OptState;
  adam_step : float -> float -> OptState -> Grads -> Params -> Params * OptState;
  plateau_init : float -> nat -> float -> SchedState;
  plateau_step : SchedState -> float -> float -> SchedState * float;
  roc_auc_score : list float -> list float -> Exc float;
  classification_report : list float -> list Z -> Z -> Exc string;
  fmt4 : float -> string;        (* f"{x:.4f}" *)
  str_float : float -> string;   (* f"{x}" *)
}.

Section Model.
Context `{C : Collab}.

(** An [nn.Module] object: its class, its parameters, its train/eval flag
    and the device it lives on. *)
Record Module_ := mkModule {
  m_arch : Arch;
  m_params : Params;
  m_training : bool;
  m_device : Device;
}.

(** A data loader: the dataset behind it, what [len] answers, and the
    batches (image tensor, labels) that iterating it yields in a given
    epoch. *)
Record DataLoader := mkLoader {
  dl_dataset : list (Tensor * Z);
  dl_len : nat;
  dl_batches : nat -> list (Tensor * list Z);
}.

(** [torch.optim.Adam(m.parameters(), lr, weight_decay)]: one parameter
    group over the parameters of the module object [opt_target]. *)
Record Optimizer := mkOptimizer {
  opt_target : nat;
  opt_lr : float;
  opt_weight_decay : float;
  opt_state : OptState;
}.

(** Calls of [utils]. *)
Inductive PlotCall :=
| VisualiseEmbedding (embeddings : Tensor) (labels : list Z) (epoch : nat) (dir : string)
| PlotLoss (train val : list float)
| PlotAccuracy (train val : list float)
| PlotAuc (train val : list float).

(** What the training code does to its collaborators, in order. *)
Inductive Event :=
| EvSave (path : string) (p : Params)            (* torch.save(state_dict, path) *)
| EvMode (r : nat) (training : bool)             (* m.train() / m.eval() *)
| EvForward (r : nat) (training grad : bool)     (* m(x): mode of m, grad context *)
| EvCriterion (pos_weight : option Tensor)       (* criterion(output, labels) *)
| EvItem (v : float)                             (* loss.item() *)
| EvOptimStep (r : nat)                          (* optimizer.step() on r's parameters *)
| EvPlot (c : PlotCall).

(** The world the two functions run in: the module objects (by reference),
    the checkpoint files (by path), standard output, and the call trace. *)
Record World := mkWorld {
  w_mods : list Module_;
  w_fs : gmap string Params;
  w_stdout : list string;
  w_trace : list Event;
}.

(** A statement either returns or raises; both leave a world behind. *)
Inductive Outcome (A : Type) :=
| Returned (a : A) (w : World)
| Raised (e : exn) (w : World).
Arguments Returned {A} a w.
Arguments Raised {A} e w.

Definition M (A : Type) : Type := World -> Outcome A.

Definition ret {A} (a : A) : M A := fun w => Returned a w.

Definition bind {A B} (m : M A) (k : A -> M B) : M B :=
  fun w => match m w with
           | Returned a w' => k a w'
           | Raised e w' => Raised e w'
           end.

Definition raise {A} (e : exn) : M A := fun w => Raised e w.

Definition lift {A} (x : Exc A) : M A :=
  match x with Ok a => ret a | Err e => raise e end.

(** [try: body  except ValueError: handler] *)
Definition try_except_ValueError {A} (body handler : M A) : M A :=
  fun w => match body w with
           | Raised ValueError w' => handler w'
           | o => o
           end.

#[global] Instance M_ret : MRet M := @ret.
#[global] Instance M_bind : MBind M := fun A B k m => bind m k.

Definition final_world {A} (o : Outcome A) : World :=
  match o with Returned _ w => w | Raised _ w => w end.

(** [for b in l: acc = f(acc, b)] *)
Fixpoint foldM {A B} (f : A -> B -> M A) (a : A) (l : list B) : M A :=
  match l with
  | [] => ret a
  | b :: l' => a' ← f a b; foldM f a' l'
  end.

(** [for i in range(start, start + n): st = body(i, st)] *)
Fixpoint for_range {A} (body : nat -> A -> M A) (start n : nat) (st : A) : M A :=
  match n with
  | O => ret st
  | S n' => st' ← body start st; for_range body (S start) n' st'
  end.

(** *** Primitive statements *)

Definition add_stdout (s : string) (w : World) : World :=
  mkWorld (w_mods w) (w_fs w) (w_stdout w ++ [s]) (w_trace w).

Definition add_event (e : Event) (w : World) : World :=
  mkWorld (w_mods w) (w_fs w) (w_stdout w) (w_trace w ++ [e]).

Definition put_mod (r : nat) (m : Module_) (w : World) : World :=
  mkWorld (<[r := m]> (w_mods w)) (w_fs w) (w_stdout w) (w_trace w).

Definition alloc_mod (m : Module_) (w : World) : World :=
  mkWorld (w_mods w ++ [m]) (w_fs w) (w_stdout w) (w_trace w).

Definition put_file (path : string) (p : Params) (w : World) : World :=
  mkWorld (w_mods w) (<[path := p]> (w_fs w)) (w_stdout w) (w_trace w).

Definition print (s : string) : M unit :=
  fun w => Returned tt (add_stdout s w).

Definition emit (e : Event) : M unit :=
  fun w => Returned tt (add_event e w).

Definition get_mod (r : nat) : M Module_ :=
  fun w => match w_mods w !! r with
           | Some m => Returned m w
           | None => Raised OtherError w
           end.

Definition set_mod (r : nat) (m : Module_) : M unit :=
  fun w => Returned tt (put_mod r m w).

(** [SiameseNN()] / [Classifier()]: a new object, in train mode, on the cpu. *)
Definition new_module (a : Arch) : M nat :=
  fun w => Returned (length (w_mods w))
             (alloc_mod (mkModule a (init_params a) true Cpu) w).

(** [torch.device('cuda' if torch.cuda.is_available() else 'cpu')] *)
Definition torch_device : Device := if cuda_is_available then Cuda else Cpu.

(** [m.to(device)] *)
Definition mod_to (r : nat) (d : Device) : M unit :=
  m ← get_mod r;
  set_mod r (mkModule (m_arch m) (m_params m) (m_training m) d).

(** [m.train()] and [m.eval()] *)
Definition mod_set_training (r : nat) (b : bool) : M unit :=
  m ← get_mod r;
  set_mod r (mkModule (m_arch m) (m_params m) b (m_device m)) ;;
  emit (EvMode r b).

Definition mod_train (r : nat) : M unit := mod_set_training r true.
Definition mod_eval (r : nat) : M unit := mod_set_training r false.

(** [m(x)], with gradient tracking on ([grad = true]) or inside
    [torch.no_grad()]. *)
Definition mod_call (r : nat) (grad : bool) (x : Tensor) : M Tensor :=
  m ← get_mod r;
  emit (EvForward r (m_training m) grad) ;;
  if m_training m then
    let '(y, p') := forward_train (m_arch m) (m_params m) x in
    set_mod r (mkModule (m_arch m) p' (m_training m) (m_device m)) ;;
    ret y
  else ret (forward_eval (m_arch m) (m_params m) x).

(** [m.state_dict()] *)
Definition state_dict (r : nat) : M Params :=
  m ← get_mod r; ret (m_params m).

(** [torch.save(p, path)], into a directory that is there: train.py creates
    none and takes [save_dir] as it finds it. *)
Definition torch_save (p : Params) (path : string) : M unit :=
  fun w => Returned tt (add_event (EvSave path p) (put_file path p w)).

(** [loss.backward(); optimizer.step()]: Adam moves the parameters of the
    optimizer's module, and of no other. *)
Definition optimizer_step (opt : Optimizer) (loss : Tensor) : M Optimizer :=
  m ← get_mod (opt_target opt);
  let '(p', s') := adam_step (opt_lr opt) (opt_weight_decay opt) (opt_state opt)
                             (backward loss) (m_params m) in
  set_mod (opt_target opt) (mkModule (m_arch m) p' (m_training m) (m_device m)) ;;
  emit (EvOptimStep (opt_target opt)) ;;
  ret (mkOptimizer (opt_target opt) (opt_lr opt) (opt_weight_decay opt) s').

(** [loss.item()] *)
Definition loss_item (loss : Tensor) : M float :=
  emit (EvItem (item loss)) ;; ret (item loss).

(** The f-strings of the per-epoch summary. *)
Definition epoch_line (epoch epochs : nat) (avg_train_loss avg_val_loss : float) : string :=
  "Epoch [" +:+ pretty (epoch + 1) +:+ "/" +:+ pretty epochs
  +:+ "] - Train Loss: " +:+ fmt4 avg_train_loss
  +:+ " - Val Loss: " +:+ fmt4 avg_val_loss.

Definition accuracy_line (train_accuracy val_accuracy : float) : string :=
  "Train Accuracy: " +:+ fmt4 train_accuracy +:+ " - Val Accuracy: " +:+ fmt4 val_accuracy.

Definition auroc_line (train_auroc val_auroc : float) : string :=
  "Train AUROC: " +:+ fmt4 train_auroc +:+ " - Val AUROC: " +:+ fmt4 val_auroc.

Definition lr_line (opt : Optimizer) : string :=
  "Learning rate for param group 0: " +:+ str_float (opt_lr opt).

(** [for idx, param_group in enumerate(optimizer.param_groups): print(...)] *)
Definition print_learning_rates (opt : Optimizer) : M unit :=
  print (lr_line opt).

(** A call of a function of [utils]: the call is recorded; what the
    function draws, prints or writes is not part of train.py. *)
Definition plot (c : PlotCall) : M unit := emit (EvPlot c).

(** *** Reading the trace *)

(** The checkpoint writes of a trace, in order. *)
Fixpoint saves (tr : list Event) : list (string * Params) :=
  match tr with
  | [] => []
  | EvSave path p :: tr' => (path, p) :: saves tr'
  | _ :: tr' => saves tr'
  end.

(** The values read by [loss.item()], in order. *)
Fixpoint items (tr : list Event) : list float :=
  match tr with
  | [] => []
  | EvItem v :: tr' => v :: items tr'
  | _ :: tr' => items tr'
  end.

(** [acc = 0.0; for v in vs: acc += v] *)
Definition running_sum (vs : list float) : float :=
  fold_left PrimFloat.add vs 0%float.

(** ** siamese_train *)

(** The variables of [siamese_train] that its epoch loop updates. *)
Record SiameseLocals := mkSiameseLocals {
  s_optimizer : Optimizer;
  s_scheduler : SchedState;
  s_best_loss : float;
  s_train_losses : list float;
  s_val_losses : list float;
}.

Definition siamese_best_name : string := "siamese_resnet18_best.pth".
Definition siamese_final_name : string := "siamese_resnet18.pth".
Definition classifier_best_name : string := "classifier_best.pth".
Definition classifier_final_name : string := "classifier.pth".

Definition train_report_header : string := "Training Classification Report:".
Definition val_report_header : string := "Validation Classification Report:".
Definition auroc_improved : string := "Validation Auroc improved. Saving model.".
Definition auroc_not_improved : string := "No improvement in validation Auroc.".

(** Body of the training loop (train.py lines 46-57). *)
Definition siamese_train_batch (model : nat)
    (acc : float * Optimizer) (batch : Tensor * list Z) : M (float * Optimizer) :=
  let '(epoch_loss, optimizer) := acc in
  let '(images, labels) := batch in
  (* optimizer.zero_grad() *)
  embeddings ← mod_call model true images;
  let loss := contrastive_loss embeddings labels in
  emit (EvCriterion None);;
  (* loss.backward(); optimizer.step() *)
  optimizer ← optimizer_step optimizer loss;
  (* epoch_loss += loss.item() *)
  v ← loss_item loss;
  mret (PrimFloat.add epoch_loss v, optimizer).

(** Body of the validation loop (lines 68-80), inside [torch.no_grad()]. *)
Definition siamese_val_batch (model : nat)
    (acc : float * list Tensor * list Z) (batch : Tensor * list Z)
    : M (float * list Tensor * list Z) :=
  let '(val_loss, all_embeddings, all_labels) := acc in
  let '(images, labels) := batch in
  embeddings ← mod_call model false images;
  let loss := contrastive_loss embeddings labels in
  emit (EvCriterion None);;
  (* val_loss += loss.item() *)
  v ← loss_item loss;
  (* all_embeddings.append(embeddings.cpu()); all_labels.extend(labels...) *)
  mret (PrimFloat.add val_loss v, all_embeddings ++ [embeddings], all_labels ++ labels).

(** The checkpoint decision of an epoch (lines 93-100). *)
Definition siamese_checkpoint (save_dir : string) (model : nat)
    (avg_val_loss best_loss : float) : M float :=
  if PyFloat.lt avg_val_loss best_loss then
    p ← state_dict model;
    torch_save p (os_path_join save_dir siamese_best_name);;
    print "Validation loss decreased. Saving model.";;
    mret avg_val_loss
  else
    print "No improvement in validation loss.";;
    mret best_loss.

(** One iteration of [for epoch in range(epochs)] (lines 42-105). *)
Definition siamese_epoch (current_dir save_dir : string) (model : nat)
    (train_loader val_loader : DataLoader) (epochs : nat) (plots : bool)
    (epoch : nat) (st : SiameseLocals) : M SiameseLocals :=
  mod_train model;;
  '(epoch_loss, optimizer) ←
    foldM (siamese_train_batch model) (0%float, s_optimizer st)
          (dl_batches train_loader epoch);
  avg_train_loss ← lift (float_div_int epoch_loss (dl_len train_loader));
  let train_losses := s_train_losses st ++ [avg_train_loss] in
  mod_eval model;;
  '(val_loss, all_embeddings, all_labels) ←
    foldM (siamese_val_batch model) (0%float, [], [])
          (dl_batches val_loader epoch);
  avg_val_loss ← lift (float_div_int val_loss (dl_len val_loader));
  let val_losses := s_val_losses st ++ [avg_val_loss] in
  print (epoch_line epoch epochs avg_train_loss avg_val_loss);;
  let '(scheduler, lr') := plateau_step (s_scheduler st) avg_val_loss (opt_lr optimizer) in
  let optimizer := mkOptimizer (opt_target optimizer) lr'
                     (opt_weight_decay optimizer) (opt_state optimizer) in
  print_learning_rates optimizer;;
  best_loss ← siamese_checkpoint save_dir model avg_val_loss (s_best_loss st);
  (if plots
   then plot (VisualiseEmbedding (cat all_embeddings) all_labels (epoch + 1) current_dir)
   else mret tt);;
  mret (mkSiameseLocals optimizer scheduler best_loss train_losses val_losses).

(** The state of the locals when the loop is entered (lines 31-39). *)
Definition siamese_init (model : nat) (lr : float) : SiameseLocals :=
  mkSiameseLocals (mkOptimizer model lr 1e-5%float adam_init)
                  (plateau_init 0.1%float 3 0.01%float)
                  PyFloat.inf [] [].

(** The epoch loop of [siamese_train], from epoch [start] for [n] epochs. *)
Definition siamese_loop (current_dir save_dir : string) (model : nat)
    (train_loader val_loader : DataLoader) (epochs : nat) (plots : bool)
    (start n : nat) (st : SiameseLocals) : M SiameseLocals :=
  for_range (siamese_epoch current_dir save_dir model train_loader val_loader epochs plots)
            start n st.

(** What follows the loop (lines 108-115). *)
Definition siamese_finish (save_dir : string) (model : nat) (plots : bool)
    (st : SiameseLocals) : M unit :=
  p ← state_dict model;
  torch_save p (os_path_join save_dir siamese_final_name);;
  print "Training complete. Models saved.";;
  if plots then plot (PlotLoss (s_train_losses st) (s_val_losses st)) else mret tt.

(** What precedes the loop (lines 18-23): the model object is created. *)
Definition siamese_setup : M nat :=
  print "Training Siamese Network";;
  model ← new_module SiameseNN;
  mod_to model torch_device;;
  mret model.

Definition siamese_train (current_dir : string) (train_loader val_loader : DataLoader)
    (images : Tensor) (epochs : nat) (lr : float) (plots : bool) : M unit :=
  let save_dir := os_path_join current_dir "models" in
  model ← siamese_setup;
  st ← siamese_loop current_dir save_dir model train_loader val_loader epochs plots
         0 epochs (siamese_init model lr);
  siamese_finish save_dir model plots st.

(** ** classifier_train *)

Record ClassifierLocals := mkClassifierLocals {
  c_optimizer : Optimizer;
  c_best_auroc : float;
  c_train_losses : list float;
  c_val_losses : list float;
  c_train_accuracies : list float;
  c_val_accuracies : list float;
  c_train_aurocs : list float;
  c_val_aurocs : list float;
}.

(** What a pass over a loader accumulates (lines 164-168, 215-220). *)
Record PassAcc := mkPassAcc {
  a_loss : float;
  a_correct : nat;
  a_total : nat;
  a_labels : list float;
  a_probs : list float;
}.

Definition pass_init : PassAcc := mkPassAcc 0%float 0 0 [] [].

(** [(probs >= 0.5).float()] *)
Definition threshold (probs : list float) : list float :=
  map (fun p => if PyFloat.ge p 0.5%float then 1%float else 0%float) probs.

(** [(preds == labels).sum().item()] *)
Definition count_equal (preds labels : list float) : nat :=
  length (List.filter (fun pl => PrimFloat.eqb (fst pl) (snd pl)) (combine preds labels)).

(** [[1 if p >= 0.5 else 0 for p in probs]] *)
Definition binarise (probs : list float) : list Z :=
  map (fun p => if PyFloat.ge p 0.5%float then 1%Z else 0%Z) probs.

Definition accumulate (acc : PassAcc) (v : float) (output : Tensor) (labels : list float)
    : PassAcc :=
  let probs := sigmoid output in
  let preds := threshold (numpy probs) in
  mkPassAcc (PrimFloat.add (a_loss acc) v)
            (a_correct acc + count_equal preds labels)
            (a_total acc + length labels)
            (a_labels acc ++ labels)
            (a_probs acc ++ numpy probs).

(** Body of the training loop (lines 170-192).  Shapes are not modelled:
    the batch is one on which the criterion accepts the squeezed output, as
    it does for a batch of more than one sample. *)
Definition classifier_train_batch (siamese classifier : nat) (pos_weight : Tensor)
    (acc : PassAcc * Optimizer) (batch : Tensor * list Z) : M (PassAcc * Optimizer) :=
  let '(acc, optimizer) := acc in
  let '(images, labels) := batch in
  let labels := map PyFloat.of_Z labels in
  (* with torch.no_grad(): embeddings = siamese(images) *)
  embeddings ← mod_call siamese false images;
  (* optimizer.zero_grad(); output = classifier(embeddings).squeeze() *)
  logits ← mod_call classifier true embeddings;
  let output := squeeze logits in
  let loss := bce_with_logits pos_weight output labels in
  emit (EvCriterion (Some pos_weight));;
  (* loss.backward(); optimizer.step() *)
  optimizer ← optimizer_step optimizer loss;
  (* epoch_loss += loss.item(), then the counts and the collected lists *)
  v ← loss_item loss;
  mret (accumulate acc v output labels, optimizer).

(** Body of the validation loop (lines 223-243), inside [torch.no_grad()],
    on a batch of the same kind. *)
Definition classifier_val_batch (siamese classifier : nat) (pos_weight : Tensor)
    (acc : PassAcc) (batch : Tensor * list Z) : M PassAcc :=
  let '(images, labels) := batch in
  let labels := map PyFloat.of_Z labels in
  embeddings ← mod_call siamese false images;
  logits ← mod_call classifier false embeddings;
  let output := squeeze logits in
  let loss := bce_with_logits pos_weight output labels in
  emit (EvCriterion (Some pos_weight));;
  v ← loss_item loss;
  mret (accumulate acc v output labels).

(** Lines 200-208 and 252-259: the AUROC of a split and, after it, its
    classification report, both inside one [try] whose [except ValueError]
    gives [np.nan]. *)
Definition auroc_and_report (header : string) (labels probs : list float) : M float :=
  try_except_ValueError
    (auroc ← lift (roc_auc_score labels probs);
     let binary := binarise probs in
     print header;;
     report ← lift (classification_report labels binary 0);
     print report;;
     mret auroc)
    (mret PyFloat.nan).

(** The checkpoint decision of an epoch (lines 275-282). *)
Definition classifier_checkpoint (save_dir : string) (classifier : nat)
    (val_auroc best_auroc : float) : M float :=
  if PyFloat.gt val_auroc best_auroc then
    p ← state_dict classifier;
    torch_save p (os_path_join save_dir classifier_best_name);;
    print auroc_improved;;
    mret val_auroc
  else
    print auroc_not_improved;;
    mret best_auroc.

(** One iteration of [for epoch in range(epochs)] (lines 162-282). *)
Definition classifier_epoch (save_dir : string) (siamese classifier : nat)
    (pos_weight : Tensor) (train_loader val_loader : DataLoader) (epochs : nat)
    (epoch : nat) (st : ClassifierLocals) : M ClassifierLocals :=
  mod_train classifier;;
  '(tr, optimizer) ←
    foldM (classifier_train_batch siamese classifier pos_weight)
          (pass_init, c_optimizer st) (dl_batches train_loader epoch);
  avg_train_loss ← lift (float_div_int (a_loss tr) (dl_len train_loader));
  let train_losses := c_train_losses st ++ [avg_train_loss] in
  train_accuracy ← lift (int_truediv (a_correct tr) (a_total tr));
  let train_accuracies := c_train_accuracies st ++ [train_accuracy] in
  train_auroc ← auroc_and_report train_report_header
                  (a_labels tr) (a_probs tr);
  let train_aurocs := c_train_aurocs st ++ [train_auroc] in
  mod_eval classifier;;
  va ← foldM (classifier_val_batch siamese classifier pos_weight)
          pass_init (dl_batches val_loader epoch);
  avg_val_loss ← lift (float_div_int (a_loss va) (dl_len val_loader));
  let val_losses := c_val_losses st ++ [avg_val_loss] in
  val_accuracy ← lift (int_truediv (a_correct va) (a_total va));
  let val_accuracies := c_val_accuracies st ++ [val_accuracy] in
  val_auroc ← auroc_and_report val_report_header
                (a_labels va) (a_probs va);
  let val_aurocs := c_val_aurocs st ++ [val_auroc] in
  print (epoch_line epoch epochs avg_train_loss avg_val_loss);;
  print (accuracy_line train_accuracy val_accuracy);;
  print (auroc_line train_auroc val_auroc);;
  print_learning_rates optimizer;;
  best_auroc ← classifier_checkpoint save_dir classifier val_auroc (c_best_auroc st);
  mret (mkClassifierLocals optimizer best_auroc train_losses val_losses
          train_accuracies val_accuracies train_aurocs val_aurocs).

(** Lines 139-145: the class counts over [train_loader.dataset] and their
    quotient. *)
Definition dataset_labels (train_loader : DataLoader) : list Z :=
  map snd (dl_dataset train_loader).

Definition benign_count (train_loader : DataLoader) : nat :=
  count_occ Z.eq_dec (dataset_labels train_loader) 0%Z.

Definition malignant_count (train_loader : DataLoader) : nat :=
  count_occ Z.eq_dec (dataset_labels train_loader) 1%Z.

Definition compute_pos_weight (train_loader : DataLoader) : M Tensor :=
  q ← lift (int_truediv (benign_count train_loader) (malignant_count train_loader));
  mret (tensor [q]).

(** Lines 120-133: the passed-in [siamese] is moved and put in eval mode,
    the classifier is created, and Adam is given the classifier's
    parameters. *)
Definition classifier_setup (siamese : nat) : M (nat * Optimizer) :=
  print "Training classifier";;
  mod_to siamese torch_device;;
  mod_eval siamese;;
  classifier ← new_module Classifier;
  mod_to classifier torch_device;;
  mod_train classifier;;
  mret (classifier, mkOptimizer classifier 1e-4%float 1e-5%float adam_init).

Definition classifier_init (optimizer : Optimizer) : ClassifierLocals :=
  mkClassifierLocals optimizer 0%float [] [] [] [] [] [].

Definition classifier_loop (save_dir : string) (siamese classifier : nat)
    (pos_weight : Tensor) (train_loader val_loader : DataLoader) (epochs : nat)
    (start n : nat) (st : ClassifierLocals) : M ClassifierLocals :=
  for_range (classifier_epoch save_dir siamese classifier pos_weight
               train_loader val_loader epochs) start n st.

(** What follows the loop (lines 285-294). *)
Definition classifier_finish (save_dir : string) (classifier : nat) (plots : bool)
    (st : ClassifierLocals) : M unit :=
  p ← state_dict classifier;
  torch_save p (os_path_join save_dir classifier_final_name);;
  print "Classifier Training complete. Models saved.";;
  if plots then
    plot (PlotLoss (c_train_losses st) (c_val_losses st));;
    plot (PlotAccuracy (c_train_accuracies st) (c_val_accuracies st));;
    plot (PlotAuc (c_train_aurocs st) (c_val_aurocs st))
  else mret tt.

Definition classifier_train (current_dir : string) (train_loader val_loader : DataLoader)
    (images : Tensor) (siamese : nat) (epochs : nat) (plots : bool) : M unit :=
  let save_dir := os_path_join current_dir "models" in
  '(classifier, optimizer) ← classifier_setup siamese;
  pos_weight ← compute_pos_weight train_loader;
  st ← classifier_loop save_dir siamese classifier pos_weight train_loader val_loader
         epochs 0 epochs (classifier_init optimizer);
  classifier_finish save_dir classifier plots st.

(** ** Specification vocabulary *)

(** [wp m Q E w]: run from [w], statement [m] returns a value and a world
    satisfying [Q], or raises an exception and leaves a world satisfying
    [E]. *)
Definition wp {A} (m : M A) (Q : A -> World -> Prop) (E : exn -> World -> Prop)
    (w : World) : Prop :=
  match m w with
  | Returned a w' => Q a w'
  | Raised e w' => E e w'
  end.

(** No checkpoint is written between [w] and [w']. *)
Definition quiet (w w' : World) : Prop :=
  w_fs w' = w_fs w /\ saves (w_trace w') = saves (w_trace w) /\
  length (w_mods w') = length (w_mods w).

(** What a pass over [n] batches leaves behind: no checkpoint and no
    output, and [n] values read by [loss.item()] whose running sum, from
    [acc0], is [acc]. *)
Definition pass_post (w : World) (n : nat) (acc0 acc : float) (w' : World) : Prop :=
  quiet w w' /\ w_stdout w' = w_stdout w /\
  exists ls, length ls = n /\ items (w_trace w') = items (w_trace w) ++ ls /\
             acc = fold_left PrimFloat.add ls acc0.

(** [r] refers to a module object of [w]. *)
Definition valid (r : nat) (w : World) : Prop := r < length (w_mods w).

(** What one epoch of [siamese_train] does, from locals [st] and world [w]
    to [st'] and [w']: the values read by [loss.item()] in its two passes,
    the two means appended to the histories, and the checkpoint decision. *)
Definition siamese_epoch_post (save_dir : string) (model : nat)
    (train_loader val_loader : DataLoader) (epoch : nat)
    (st : SiameseLocals) (w : World) (st' : SiameseLocals) (w' : World) : Prop :=
  let best_path := os_path_join save_dir siamese_best_name in
  exists ls_tr ls_va t v,
    length ls_tr = length (dl_batches train_loader epoch) /\
    length ls_va = length (dl_batches val_loader epoch) /\
    items (w_trace w') = items (w_trace w) ++ ls_tr ++ ls_va /\
    float_div_int (running_sum ls_tr) (dl_len train_loader) = Ok t /\
    float_div_int (running_sum ls_va) (dl_len val_loader) = Ok v /\
    s_train_losses st' = s_train_losses st ++ [t] /\
    s_val_losses st' = s_val_losses st ++ [v] /\
    length (w_mods w') = length (w_mods w) /\
    if PyFloat.lt v (s_best_loss st)
    then s_best_loss st' = v /\
         exists m, w_mods w' !! model = Some m /\
           saves (w_trace w') = saves (w_trace w) ++ [(best_path, m_params m)] /\
           w_fs w' = <[best_path := m_params m]> (w_fs w)
    else s_best_loss st' = s_best_loss st /\
         saves (w_trace w') = saves (w_trace w) /\
         w_fs w' = w_fs w.

(** The labels an epoch collects from the batches of a pass
    ([labels.extend(labels.cpu().numpy())] after [.float()]). *)
Definition epoch_labels (bs : list (Tensor * list Z)) : list float :=
  concat (map (fun b => map PyFloat.of_Z b.2) bs).

(** The collected labels are all of one class. *)
Definition single_class (labels : list float) : bool :=
  match labels with
  | [] => false
  | l :: ls => forallb (PrimFloat.eqb l) ls
  end.

(** The three things the [try] around [roc_auc_score] and
    [classification_report] can do: what it prints, the AUROC it leaves,
    and the exception that escapes it, if any. *)
Definition report_lines (header : string) (labels probs : list float) : list string :=
  match roc_auc_score labels probs with
  | Ok _ => header :: match classification_report labels (binarise probs) 0 with
                      | Ok report => [report]
                      | Err _ => []
                      end
  | Err _ => []
  end.

Definition auroc_value (labels probs : list float) : float :=
  match roc_auc_score labels probs with
  | Ok a => match classification_report labels (binarise probs) 0 with
            | Ok _ => a
            | Err _ => PyFloat.nan
            end
  | Err _ => PyFloat.nan
  end.

Definition auroc_escape (labels probs : list float) : option exn :=
  match roc_auc_score labels probs with
  | Ok _ => match classification_report labels (binarise probs) 0 with
            | Ok _ | Err ValueError => None
            | Err e => Some e
            end
  | Err ValueError => None
  | Err e => Some e
  end.

(** What a pass of [classifier_train] over the batches [done] leaves. *)
Definition cls_pass_post (w : World) (done : list (Tensor * list Z)) (acc : PassAcc)
    (w' : World) : Prop :=
  pass_post w (length done) 0%float (a_loss acc) w' /\
  a_labels acc = epoch_labels done /\
  a_total acc = length (a_labels acc).

(** What one epoch of [classifier_train] does, from locals [st] and world
    [w] to [st'] and [w']. *)
Definition classifier_epoch_post (save_dir : string) (classifier : nat)
    (train_loader val_loader : DataLoader) (epochs epoch : nat)
    (st : ClassifierLocals) (w : World) (st' : ClassifierLocals) (w' : World) : Prop :=
  let best_path := os_path_join save_dir classifier_best_name in
  exists (tr va : PassAcc) ls_tr ls_va t v acc_t acc_v,
    let train_auroc := auroc_value (a_labels tr) (a_probs tr) in
    let val_auroc := auroc_value (a_labels va) (a_probs va) in
    length ls_tr = length (dl_batches train_loader epoch) /\
    length ls_va = length (dl_batches val_loader epoch) /\
    items (w_trace w') = items (w_trace w) ++ ls_tr ++ ls_va /\
    a_loss tr = running_sum ls_tr /\ a_loss va = running_sum ls_va /\
    a_labels tr = epoch_labels (dl_batches train_loader epoch) /\
    a_labels va = epoch_labels (dl_batches val_loader epoch) /\
    float_div_int (a_loss tr) (dl_len train_loader) = Ok t /\
    float_div_int (a_loss va) (dl_len val_loader) = Ok v /\
    int_truediv (a_correct tr) (a_total tr) = Ok acc_t /\
    int_truediv (a_correct va) (a_total va) = Ok acc_v /\
    auroc_escape (a_labels tr) (a_probs tr) = None /\
    auroc_escape (a_labels va) (a_probs va) = None /\
    c_train_losses st' = c_train_losses st ++ [t] /\
    c_val_losses st' = c_val_losses st ++ [v] /\
    c_train_accuracies st' = c_train_accuracies st ++ [acc_t] /\
    c_val_accuracies st' = c_val_accuracies st ++ [acc_v] /\
    c_train_aurocs st' = c_train_aurocs st ++ [train_auroc] /\
    c_val_aurocs st' = c_val_aurocs st ++ [val_auroc] /\
    w_stdout w' = w_stdout w
      ++ report_lines train_report_header (a_labels tr) (a_probs tr)
      ++ report_lines val_report_header (a_labels va) (a_probs va)
      ++ [epoch_line epoch epochs t v; accuracy_line acc_t acc_v;
          auroc_line train_auroc val_auroc; lr_line (c_optimizer st');
          if PyFloat.gt val_auroc (c_best_auroc st)
          then auroc_improved else auroc_not_improved] /\
    length (w_mods w') = length (w_mods w) /\
    if PyFloat.gt val_auroc (c_best_auroc st)
    then c_best_auroc st' = val_auroc /\
         exists m, w_mods w' !! classifier = Some m /\
           saves (w_trace w') = saves (w_trace w) ++ [(best_path, m_params m)] /\
           w_fs w' = <[best_path := m_params m]> (w_fs w)
    else c_best_auroc st' = c_best_auroc st /\
         saves (w_trace w') = saves (w_trace w) /\
         w_fs w' = w_fs w.

(** How an epoch of [classifier_train] can fail. *)
Definition classifier_epoch_exn (siamese classifier : nat)
    (train_loader val_loader : DataLoader) (epoch : nat) (w : World) (e : exn) : Prop :=
  (e = OtherError /\ (~ valid siamese w \/ ~ valid classifier w)) \/
  (e = ZeroDivisionError /\
     (dl_len train_loader = 0 \/ dl_len val_loader = 0 \/
      epoch_labels (dl_batches train_loader epoch) = [] \/
      epoch_labels (dl_batches val_loader epoch) = [])) \/
  (exists labels probs, auroc_escape labels probs = Some e).

(** What a whole epoch loop leaves: the module objects are the same in
    number, and every checkpoint written is written to [best_path]. *)
Definition loop_post (best_path : string) (w w' : World) : Prop :=
  length (w_mods w') = length (w_mods w) /\
  exists ps : list Params,
    saves (w_trace w') = saves (w_trace w) ++ map (pair best_path) ps.

(** What classifier_train may do to its collaborators: call [siamese]
    only in eval mode and without gradients, never switch it to train
    mode, step the optimizer only on the classifier's parameters, and call
    the criterion only with the positive-class weight [pw]. *)
Definition cls_event_ok (siamese classifier : nat) (pw : Tensor) (e : Event) : Prop :=
  match e with
  | EvForward r training grad => r = siamese -> training = false /\ grad = false
  | EvMode r training => r = siamese -> training = false
  | EvOptimStep r => r = classifier
  | EvCriterion o => o = Some pw
  | _ => True
  end.

(** The state classifier_train keeps [siamese] in: the module object [ms]
    stays what it is, and everything done since the trace [tr0] is allowed
    by [cls_event_ok]. *)
Definition cls_safe (siamese classifier : nat) (pw : Tensor) (ms : Module_)
    (tr0 : list Event) (w : World) : Prop :=
  w_mods w !! siamese = Some ms /\
  exists seg, w_trace w = tr0 ++ seg /\ Forall (cls_event_ok siamese classifier pw) seg.

(** [record] is the best value of [history] under the strict order
    [better], starting from [init]: it is [init] or one of the values seen,
    no value seen is better than it, nor is [init], and it is a number. *)
Definition best_of (better : float -> float -> bool) (init : float)
    (history : list float) (record : float) : Prop :=
  (record = init \/ In record history) /\
  (forall u, In u history -> better u record = false) /\
  better init record = false /\
  PyFloat.is_nan record = false.

(** What it takes of [better] to keep a record: a strict order on the
    numbers, false on NaN. *)
Record strict_order (better : float -> float -> bool) : Prop := {
  so_irrefl : forall x, better x x = false;
  so_trans : forall x y z, better x y = true -> better y z = true -> better x z = true;
  so_number : forall x y, better x y = true -> PyFloat.is_nan x = false;
  so_total : forall x y z, better x y = true -> PyFloat.is_nan z = false ->
                           better z y = false -> better x z = true;
}.

(** ** Vocabulary for the whole effect of an epoch *)

(** Names for the whole of what the passes, the epochs and the two
    functions do to the world, where a property needs more than one aspect
    of it. *)

(** The outcome is a return. *)
Definition returned {A} (o : Outcome A) : bool :=
  match o with Returned _ _ => true | Raised _ _ => false end.

(** The calls of [utils] in a trace, in order. *)
Fixpoint plot_calls (tr : list Event) : list PlotCall :=
  match tr with
  | [] => []
  | EvPlot c :: tr' => c :: plot_calls tr'
  | _ :: tr' => plot_calls tr'
  end.

(** The modules whose parameters [optimizer.step()] moved, in order. *)
Fixpoint optim_steps (tr : list Event) : list nat :=
  match tr with
  | [] => []
  | EvOptimStep r :: tr' => r :: optim_steps tr'
  | _ :: tr' => optim_steps tr'
  end.

(** What the training pass of [siamese_train] does per batch, given the
    values [loss.item()] returns: a forward call in train mode with
    gradients, the criterion, an optimizer step, the read of the loss. *)
Definition siamese_train_events (model : nat) (ls : list float) : list Event :=
  flat_map (fun v => [EvForward model true true; EvCriterion None;
                      EvOptimStep model; EvItem v]) ls.

(** What its validation pass does per batch: a forward call in eval mode
    without gradients, the criterion, the read of the loss. *)
Definition siamese_val_events (model : nat) (ls : list float) : list Event :=
  flat_map (fun v => [EvForward model false false; EvCriterion None; EvItem v]) ls.

(** The same for [classifier_train]. *)
Definition classifier_train_events (siamese classifier : nat) (pw : Tensor)
    (ls : list float) : list Event :=
  flat_map (fun v => [EvForward siamese false false; EvForward classifier true true;
                      EvCriterion (Some pw); EvOptimStep classifier; EvItem v]) ls.

Definition classifier_val_events (siamese classifier : nat) (pw : Tensor)
    (ls : list float) : list Event :=
  flat_map (fun v => [EvForward siamese false false; EvForward classifier false false;
                      EvCriterion (Some pw); EvItem v]) ls.

(** [all_labels] after a validation pass over the batches [bs]. *)
Definition batch_labels (bs : list (Tensor * list Z)) : list Z := concat (map snd bs).

(** [correct] after a pass over the batches [bs] whose probabilities were
    [pbs], batch by batch: the thresholded probabilities that equal their
    label, summed over the batches. *)
Definition correct_count (pbs : list (list float)) (bs : list (Tensor * list Z)) : nat :=
  list_sum (zip_with (fun pb (b : Tensor * list Z) =>
                        count_equal (threshold pb) (map PyFloat.of_Z b.2)) pbs bs).

(** The counts of a pass over [bs] are in step with the probabilities it
    collected: [correct] is [correct_count] of these, batch by batch, and
    is at most [total]. *)
Definition counted (acc : PassAcc) (bs : list (Tensor * list Z)) : Prop :=
  a_correct acc <= a_total acc /\
  exists pbs, length pbs = length bs /\ a_probs acc = concat pbs /\
              a_correct acc = correct_count pbs bs.

(** A module with other parameters and another mode. *)
Definition with_state (m : Module_) (p : Params) (training : bool) : Module_ :=
  mkModule (m_arch m) p training (m_device m).

(** The calls of one epoch, in order: the mode switch and the training
    pass, the mode switch and the validation pass, the checkpoint if one
    is written, the embedding plot if plots are asked for. *)
Definition siamese_epoch_events (current_dir save_dir : string) (model : nat)
    (plots : bool) (epoch : nat) (labels : list Z) (ls_tr ls_va : list float)
    (saved : option Params) (embs : Tensor) : list Event :=
  [EvMode model true] ++ siamese_train_events model ls_tr ++
  [EvMode model false] ++ siamese_val_events model ls_va ++
  match saved with
  | Some p => [EvSave (os_path_join save_dir siamese_best_name) p]
  | None => []
  end ++
  (if plots then [EvPlot (VisualiseEmbedding embs labels (epoch + 1) current_dir)]
   else []).

(** [scheduler.step(v)] for each of the values [vs] in turn, from the
    scheduler state [sched] and the learning rate [lr]. *)
Definition schedule (sched : SchedState) (lr : float) (vs : list float)
    : SchedState * float :=
  fold_left (fun sl v => plateau_step sl.1 v sl.2) vs (sched, lr).

(** The calls of [visualise_embedding] of consecutive epochs from [epoch]
    on, given the tensors they are passed. *)
Fixpoint embedding_plots (current_dir : string) (val : DataLoader) (epoch : nat)
    (es : list Tensor) : list PlotCall :=
  match es with
  | [] => []
  | e :: es' =>
      VisualiseEmbedding e (batch_labels (dl_batches val epoch)) (epoch + 1) current_dir
      :: embedding_plots current_dir val (S epoch) es'
  end.

(** The number of batches a loader yields over [n] epochs from [start]. *)
Definition batches_of (l : DataLoader) (start n : nat) : nat :=
  list_sum (map (fun i => length (dl_batches l i)) (seq start n)).

(** What [k] epochs of [siamese_train] from epoch [start] leave, from
    locals [st] and a world [w] where [model] is the module [m]. *)
Definition siamese_loop_post (current_dir save_dir : string) (model : nat)
    (trl val : DataLoader) (plots : bool) (start k : nat) (m : Module_)
    (st : SiameseLocals) (w : World) (st' : SiameseLocals) (w' : World) : Prop :=
  exists tl vl body es m',
    length tl = k /\ length vl = k /\ length body = 3 * k /\ length es = k /\
    s_train_losses st' = s_train_losses st ++ tl /\
    s_val_losses st' = s_val_losses st ++ vl /\
    (s_scheduler st', opt_lr (s_optimizer st')) =
      schedule (s_scheduler st) (opt_lr (s_optimizer st)) vl /\
    opt_target (s_optimizer st') = model /\
    opt_weight_decay (s_optimizer st') = opt_weight_decay (s_optimizer st) /\
    w_mods w' = <[model := m']> (w_mods w) /\
    m_arch m' = m_arch m /\ m_device m' = m_device m /\
    m_training m' = match k with 0 => m_training m | S _ => false end /\
    (forall path, path <> os_path_join save_dir siamese_best_name ->
                  w_fs w' !! path = w_fs w !! path) /\
    w_stdout w' = w_stdout w ++ body /\
    plot_calls (w_trace w') =
      plot_calls (w_trace w) ++
      (if plots then embedding_plots current_dir val start es else []) /\
    optim_steps (w_trace w') =
      optim_steps (w_trace w) ++ replicate (batches_of trl start k) model.

(** What a call of [siamese_train] leaves of the world [w] it is made in. *)
Definition siamese_train_post (current_dir : string) (trl val : DataLoader)
    (epochs : nat) (plots : bool) (w w' : World) : Prop :=
  let model := length (w_mods w) in
  let save_dir := os_path_join current_dir "models" in
  exists p tl vl body es,
    length tl = epochs /\ length vl = epochs /\ length body = 3 * epochs /\
    length es = epochs /\
    w_mods w' = w_mods w ++
                [mkModule SiameseNN p match epochs with 0 => true | S _ => false end
                          torch_device] /\
    w_fs w' !! os_path_join save_dir siamese_final_name = Some p /\
    (forall path, path <> os_path_join save_dir siamese_best_name ->
                  path <> os_path_join save_dir siamese_final_name ->
                  w_fs w' !! path = w_fs w !! path) /\
    w_stdout w' = w_stdout w ++ ["Training Siamese Network"] ++ body ++
                  ["Training complete. Models saved."] /\
    plot_calls (w_trace w') =
      plot_calls (w_trace w) ++
      (if plots then embedding_plots current_dir val 0 es ++ [PlotLoss tl vl] else []) /\
    optim_steps (w_trace w') =
      optim_steps (w_trace w) ++ replicate (batches_of trl 0 epochs) model.

(** The calls of one epoch, in order. *)
Definition classifier_epoch_events (save_dir : string) (siamese classifier : nat)
    (pw : Tensor) (ls_tr ls_va : list float) (saved : option Params) : list Event :=
  [EvMode classifier true] ++ classifier_train_events siamese classifier pw ls_tr ++
  [EvMode classifier false] ++ classifier_val_events siamese classifier pw ls_va ++
  match saved with
  | Some p => [EvSave (os_path_join save_dir classifier_best_name) p]
  | None => []
  end.

(** What an epoch of [classifier_train] prints last: the learning rate of
    the optimizer [opt], then the checkpoint decision. *)
Definition ends_with_lr (opt : Optimizer) (chunk : list string) : Prop :=
  exists pre decision,
    chunk = pre ++ [lr_line opt; decision] /\
    (decision = auroc_improved \/ decision = auroc_not_improved).

(** What [k] epochs of [classifier_train] from epoch [start] leave, from
    locals [st] and a world [w] where [classifier] is the module [mc]. *)
Definition classifier_loop_post (save_dir : string) (classifier : nat)
    (trl : DataLoader) (start k : nat) (mc : Module_)
    (st : ClassifierLocals) (w : World) (st' : ClassifierLocals) (w' : World) : Prop :=
  exists m' chunks s,
    c_optimizer st' = mkOptimizer classifier (opt_lr (c_optimizer st))
                                  (opt_weight_decay (c_optimizer st)) s /\
    length (c_train_losses st') = length (c_train_losses st) + k /\
    length (c_val_losses st') = length (c_val_losses st) + k /\
    length (c_train_accuracies st') = length (c_train_accuracies st) + k /\
    length (c_val_accuracies st') = length (c_val_accuracies st) + k /\
    length (c_train_aurocs st') = length (c_train_aurocs st) + k /\
    length (c_val_aurocs st') = length (c_val_aurocs st) + k /\
    w_mods w' = <[classifier := m']> (w_mods w) /\
    m_arch m' = m_arch mc /\ m_device m' = m_device mc /\
    m_training m' = match k with 0 => m_training mc | S _ => false end /\
    (forall path, path <> os_path_join save_dir classifier_best_name ->
                  w_fs w' !! path = w_fs w !! path) /\
    length chunks = k /\ Forall (ends_with_lr (c_optimizer st)) chunks /\
    w_stdout w' = w_stdout w ++ concat chunks /\
    plot_calls (w_trace w') = plot_calls (w_trace w) /\
    optim_steps (w_trace w') =
      optim_steps (w_trace w) ++ replicate (batches_of trl start k) classifier.

(** What the loop leaves when it is left by an exception. *)
Definition classifier_loop_exn (save_dir : string) (w : World) (e : exn) (w' : World)
    : Prop :=
  e <> ValueError /\
  (forall path, path <> os_path_join save_dir classifier_best_name ->
                w_fs w' !! path = w_fs w !! path) /\
  plot_calls (w_trace w') = plot_calls (w_trace w).

(** What a returning call of [classifier_train] leaves of the world [w] it
    is made in, where [siamese] is the module [ms]. *)
Definition classifier_train_post (current_dir : string) (trl : DataLoader)
    (siamese epochs : nat) (plots : bool) (ms : Module_) (w w' : World) : Prop :=
  let classifier := length (w_mods w) in
  let save_dir := os_path_join current_dir "models" in
  exists p chunks tl vl ta va tu vu,
    length tl = epochs /\ length vl = epochs /\ length ta = epochs /\
    length va = epochs /\ length tu = epochs /\ length vu = epochs /\
    w_mods w' =
      <[siamese := mkModule (m_arch ms) (m_params ms) false torch_device]> (w_mods w) ++
      [mkModule Classifier p match epochs with 0 => true | S _ => false end
                torch_device] /\
    w_fs w' !! os_path_join save_dir classifier_final_name = Some p /\
    (forall path, path <> os_path_join save_dir classifier_best_name ->
                  path <> os_path_join save_dir classifier_final_name ->
                  w_fs w' !! path = w_fs w !! path) /\
    length chunks = epochs /\
    Forall (ends_with_lr (mkOptimizer classifier 1e-4%float 1e-5%float adam_init))
           chunks /\
    w_stdout w' = w_stdout w ++ ["Training classifier"] ++ concat chunks ++
                  ["Classifier Training complete. Models saved."] /\
    plot_calls (w_trace w') =
      plot_calls (w_trace w) ++
      (if plots then [PlotLoss tl vl; PlotAccuracy ta va; PlotAuc tu vu] else []) /\
    optim_steps (w_trace w') =
      optim_steps (w_trace w) ++ replicate (batches_of trl 0 epochs) classifier.

(** What it leaves when it raises. *)
Definition classifier_train_exn (current_dir : string) (w : World) (e : exn)
    (w' : World) : Prop :=
  e <> ValueError /\
  (forall path,
     path <> os_path_join (os_path_join current_dir "models") classifier_best_name ->
     w_fs w' !! path = w_fs w !! path) /\
  plot_calls (w_trace w') = plot_calls (w_trace w).

(** How [siamese_train] fails, and what it has done by then. *)
Definition siamese_train_exn (trl val : DataLoader) (epochs : nat) (w : World)
    (e : exn) (w' : World) : Prop :=
  e = ZeroDivisionError /\ epochs <> 0 /\ (dl_len trl = 0 \/ dl_len val = 0) /\
  w_fs w' = w_fs w /\ w_stdout w' = w_stdout w ++ ["Training Siamese Network"].

End Model.

Arguments Returned {C A} a w.
Arguments Raised {C A} e w.

(** * A stand-in for the collaborators

    Enough of torch and sklearn to run the two functions on small inputs:
    tensors are lists of floats, a network returns its input, a loss is the
    first entry of what it is given, Adam counts its steps in the
    parameters, and the AUROC is the share of (positive, negative) pairs
    that the scores order correctly. *)

Definition stub_auroc (labels probs : list float) : Exc float :=
  if single_class labels then Err ValueError
  else
    let scored := combine labels probs in
    let pos := map snd (List.filter (fun lp => PrimFloat.eqb lp.1 1%float) scored) in
    let neg := map snd (List.filter (fun lp => PrimFloat.eqb lp.1 0%float) scored) in
    let score p q :=
      if PrimFloat.ltb q p then 1%float
      else if PrimFloat.eqb q p then 0.5%float else 0%float in
    let total :=
      fold_left (fun acc p => fold_left (fun acc q => PrimFloat.add acc (score p q)) neg acc)
                pos 0%float in
    Ok (PrimFloat.div total (PyFloat.of_nat (length pos * length neg))).

Definition stub : Collab := {|
  Params := nat;
  Tensor := list float;
  Grads := unit;
  OptState := nat;
  SchedState := unit;
  cuda_is_available := false;
  init_params := fun _ => 0;
  forward_eval := fun _ _ x => x;
  forward_train := fun _ p x => (x, p);
  squeeze := fun x => x;
  sigmoid := fun x => x;
  numpy := fun x => x;
  tensor := fun x => x;
  cat := fun l => List.concat l;
  contrastive_loss := fun e _ => e;
  bce_with_logits := fun _ o _ => o;
  item := fun t => hd 0%float t;
  backward := fun _ => tt;
  adam_init := 0;
  adam_step := fun _ _ s _ p => (S p, S s);
  plateau_init := fun _ _ _ => tt;
  plateau_step := fun s _ lr => (s, lr);
  roc_auc_score := stub_auroc;
  classification_report := fun _ _ _ => Ok "precision recall f1-score support";
  fmt4 := fun _ => "0.0000";
  str_float := fun _ => "0.0001";
|}.

Definition stub_world : @World stub := @mkWorld stub [] ∅ [] [].

(** Stage A: two training batches of loss 0.8 and 0.4; validation losses
    0.5, 0.6 and 0.45 over three epochs. *)
Definition stub_train_loader : @DataLoader stub :=
  @mkLoader stub [] 2 (fun _ => [([0.8%float], [0%Z]); ([0.4%float], [1%Z])]).

Definition stub_val_loader : @DataLoader stub :=
  @mkLoader stub [] 1
    (fun epoch => [([match epoch with
                     | 0 => 0.5%float
                     | 1 => 0.6%float
                     | _ => 0.45%float
                     end], [0%Z])]).

Definition stub_save_dir : string := os_path_join "out" "models".

(** The locals and the world of [siamese_train] after [k] epochs. *)
Definition stub_siamese_run (k : nat) : @Outcome stub (@SiameseLocals stub) :=
  @siamese_loop stub "out" stub_save_dir 0 stub_train_loader stub_val_loader 3 false
    0 k (@siamese_init stub 0 1e-4%float)
    (final_world (@siamese_setup stub stub_world)).

Definition stub_siamese_locals (k : nat) : @SiameseLocals stub :=
  match stub_siamese_run k with
  | Returned st _ => st
  | Raised _ _ => @siamese_init stub 0 1e-4%float
  end.

Definition stub_siamese_world (k : nat) : @World stub :=
  final_world (stub_siamese_run k).

(** Stage B: a training set with labels [1,1,0,0,0]; the scores of a
    batch are its "images".  The validation batch of the first epoch holds
    one class only, that of the later epochs both. *)
Definition stub_cls_train : @DataLoader stub :=
  @mkLoader stub
    [([0.9%float], 1%Z); ([0.8%float], 1%Z); ([0.1%float], 0%Z);
     ([0.2%float], 0%Z); ([0.3%float], 0%Z)]
    2 (fun _ => [([0.9; 0.8; 0.1]%float, [1; 1; 0]%Z); ([0.2; 0.3]%float, [0; 0]%Z)]).

Definition stub_cls_val : @DataLoader stub :=
  @mkLoader stub [] 1
    (fun epoch => match epoch with
                  | 0 => [([0.9; 0.6]%float, [1; 1]%Z)]
                  | _ => [([0.9; 0.2; 0.6; 0.3]%float, [1; 0; 1; 0]%Z)]
                  end).

(** A training set without a malignant sample. *)
Definition stub_no_malignant : @DataLoader stub :=
  @mkLoader stub [([0.1%float], 0%Z); ([0.2%float], 0%Z)] 1
    (fun _ => [([0.1; 0.2]%float, [0; 0]%Z)]).

(** A world holding a trained embedding model, as object 0. *)
Definition stub_siamese_module : @Module_ stub := @mkModule stub SiameseNN 7 true Cpu.

Definition stub_cls_world : @World stub := @mkWorld stub [stub_siamese_module] ∅ [] [].

Definition stub_cls_optimizer : @Optimizer stub :=
  @mkOptimizer stub 1 1e-4%float 1e-5%float 0.

(** The world [classifier_train] enters its loop with. *)
Definition stub_cls_world_1 : @World stub :=
  final_world (@classifier_setup stub 0 stub_cls_world).

Definition stub_cls_run (k : nat) : @Outcome stub (@ClassifierLocals stub) :=
  @classifier_loop stub stub_save_dir 0 1 [1.5%float] stub_cls_train stub_cls_val 3
    0 k (@classifier_init stub stub_cls_optimizer) stub_cls_world_1.

Definition stub_cls_locals (k : nat) : @ClassifierLocals stub :=
  match stub_cls_run k with
  | Returned st _ => st
  | Raised _ _ => @classifier_init stub stub_cls_optimizer
  end.

Definition stub_cls_state (k : nat) : @World stub := final_world (stub_cls_run k).

(** A loader without batches; the world [siamese_train] enters its loop
    with, and the same with the model in eval mode. *)
Definition stub_empty_loader : @DataLoader stub := @mkLoader stub [] 0 (fun _ => []).

Definition stub_model_world : @World stub :=
  @mkWorld stub [@mkModule stub SiameseNN 0 true Cpu] ∅ [] [].

Definition stub_model_eval_world : @World stub :=
  @mkWorld stub [@mkModule stub SiameseNN 0 false Cpu] ∅ [] [].

(** A world holding the embedding model in eval mode as object 0 and a
    classifier as object 1, in train mode and in eval mode. *)
Definition stub_pair_world : @World stub :=
  @mkWorld stub [@mkModule stub SiameseNN 7 false Cpu; @mkModule stub Classifier 0 true Cpu]
           ∅ [] [].

Definition stub_pair_eval_world : @World stub :=
  @mkWorld stub [@mkModule stub SiameseNN 7 false Cpu; @mkModule stub Classifier 0 false Cpu]
           ∅ [] [].

(** * Proofs *)

Section Proofs.
Context `{C : Collab}.

Implicit Types (w : World) (r : nat) (m : Module_).

(** ** Rules for [wp] *)

Lemma wp_ret {A} (a : A) Q E w : Q a w -> wp (mret a) Q E w.
Proof. intros H. exact H. Qed.

Lemma wp_bind {A B} (m : M A) (k : A -> M B) Q E w :
  wp m (fun a w' => wp (k a) Q E w') E w -> wp (m ≫= k) Q E w.
Proof.
  unfold wp, mbind, M_bind, bind. destruct (m w) as [a w'|e w']; intros H; exact H.
Qed.

Lemma wp_mono {A} (m : M A) (Q Q' : A -> World -> Prop) (E E' : exn -> World -> Prop) w :
  wp m Q E w ->
  (forall a w', Q a w' -> Q' a w') -> (forall e w', E e w' -> E' e w') ->
  wp m Q' E' w.
Proof. unfold wp. destruct (m w); intros H HQ HE; auto. Qed.

Lemma wp_returned {A} (m : M A) Q E w a w' :
  wp m Q E w -> m w = Returned a w' -> Q a w'.
Proof. unfold wp. intros H Hm. rewrite Hm in H. exact H. Qed.

Lemma wp_raised {A} (m : M A) Q E w e w' :
  wp m Q E w -> m w = Raised e w' -> E e w'.
Proof. unfold wp. intros H Hm. rewrite Hm in H. exact H. Qed.

Lemma wp_print (s : string) Q E w : Q tt (add_stdout s w) -> wp (print s) Q E w.
Proof. intros H. exact H. Qed.

Lemma wp_emit (e : Event) Q E w : Q tt (add_event e w) -> wp (emit e) Q E w.
Proof. intros H. exact H. Qed.

Lemma wp_set_mod r m Q E w : Q tt (put_mod r m w) -> wp (set_mod r m) Q E w.
Proof. intros H. exact H. Qed.

Lemma wp_get_mod r Q E w :
  (forall m, w_mods w !! r = Some m -> Q m w) ->
  (w_mods w !! r = None -> E OtherError w) ->
  wp (get_mod r) Q E w.
Proof.
  unfold wp, get_mod. intros HQ HE. destruct (w_mods w !! r); auto.
Qed.

Lemma wp_lift {A} (x : Exc A) Q E w :
  match x with Ok a => Q a w | Err e => E e w end -> wp (lift x) Q E w.
Proof. destruct x; intros H; exact H. Qed.

Lemma wp_try {A} (body handler : M A) Q E w :
  wp body Q (fun e w' => match e with
                         | ValueError => wp handler Q E w'
                         | _ => E e w'
                         end) w ->
  wp (try_except_ValueError body handler) Q E w.
Proof.
  unfold wp, try_except_ValueError. destruct (body w) as [a w'|[] w']; intros H; exact H.
Qed.

Lemma wp_foldM {A B} (f : A -> B -> M A) (I : list B -> A -> World -> Prop) E l :
  (forall done a b w, I done a w -> wp (f a b) (I (done ++ [b])) E w) ->
  forall done a w, I done a w -> wp (foldM f a l) (I (done ++ l)) E w.
Proof.
  intros Hf. induction l as [|b l IH]; intros done a w HI; cbn [foldM].
  - apply wp_ret. rewrite app_nil_r. exact HI.
  - apply wp_bind. eapply wp_mono; [apply (Hf done a b w HI) | | auto].
    intros a' w' HI'. cbn beta.
    replace (done ++ b :: l) with ((done ++ [b]) ++ l) by (rewrite <- app_assoc; reflexivity).
    apply IH. exact HI'.
Qed.

Lemma wp_for_range {A} (body : nat -> A -> M A) (I : nat -> A -> World -> Prop) E n :
  forall start,
  (forall i a w, start <= i < start + n -> I i a w -> wp (body i a) (I (S i)) E w) ->
  forall a w, I start a w -> wp (for_range body start n a) (I (start + n)) E w.
Proof.
  induction n as [|n IH]; intros start Hb a w HI; cbn [for_range].
  - apply wp_ret. rewrite Nat.add_0_r. exact HI.
  - apply wp_bind. eapply wp_mono; [apply (Hb start a w); [lia | exact HI] | | auto].
    intros a' w' HI'. cbn beta.
    replace (start + S n) with (S start + n) by lia.
    apply IH; [|exact HI']. intros i a0 w0 Hi. apply Hb. lia.
Qed.

(** The loop up to epoch [k + 1] is the loop up to epoch [k] followed by
    epoch [k]. *)
Lemma for_range_snoc {A} (body : nat -> A -> M A) n start (a : A) w :
  for_range body start (S n) a w =
  (st ← for_range body start n a; body (start + n) st) w.
Proof.
  revert start a w. induction n as [|n IH]; intros start a w.
  - cbn [for_range]. unfold mbind, M_bind, bind, ret. rewrite Nat.add_0_r.
    destruct (body start a w); reflexivity.
  - specialize (IH (S start)).
    cbn [for_range] in *. unfold mbind, M_bind, bind in *.
    destruct (body start a w) as [a' w'|e w']; [|reflexivity].
    rewrite IH. replace (S start + n) with (start + S n) by lia. reflexivity.
Qed.


(** ** Rules for the library calls *)

Lemma wp_new_module (a : Arch) Q E w :
  Q (length (w_mods w)) (alloc_mod (mkModule a (init_params a) true Cpu) w) ->
  wp (new_module a) Q E w.
Proof. intros H. exact H. Qed.

Lemma wp_torch_save (p : Params) (path : string) Q E w :
  Q tt (add_event (EvSave path p) (put_file path p w)) -> wp (torch_save p path) Q E w.
Proof. intros H. exact H. Qed.

Lemma wp_mod_to r (d : Device) Q E w :
  (forall m, w_mods w !! r = Some m ->
     Q tt (put_mod r (mkModule (m_arch m) (m_params m) (m_training m) d) w)) ->
  (w_mods w !! r = None -> E OtherError w) ->
  wp (mod_to r d) Q E w.
Proof.
  intros HQ HE. unfold mod_to. apply wp_bind, wp_get_mod; [|exact HE].
  intros m Hm. apply wp_set_mod, HQ, Hm.
Qed.

Lemma wp_mod_set_training r (b : bool) Q E w :
  (forall m, w_mods w !! r = Some m ->
     Q tt (add_event (EvMode r b)
             (put_mod r (mkModule (m_arch m) (m_params m) b (m_device m)) w))) ->
  (w_mods w !! r = None -> E OtherError w) ->
  wp (mod_set_training r b) Q E w.
Proof.
  intros HQ HE. unfold mod_set_training. apply wp_bind, wp_get_mod; [|exact HE].
  intros m Hm. apply wp_bind, wp_set_mod, wp_emit, HQ, Hm.
Qed.

Lemma wp_mod_call r (grad : bool) (x : Tensor) Q E w :
  (forall m, w_mods w !! r = Some m ->
     let w1 := add_event (EvForward r (m_training m) grad) w in
     if m_training m
     then Q (forward_train (m_arch m) (m_params m) x).1
            (put_mod r (mkModule (m_arch m) (forward_train (m_arch m) (m_params m) x).2
                                 (m_training m) (m_device m)) w1)
     else Q (forward_eval (m_arch m) (m_params m) x) w1) ->
  (w_mods w !! r = None -> E OtherError w) ->
  wp (mod_call r grad x) Q E w.
Proof.
  intros HQ HE. unfold mod_call. apply wp_bind, wp_get_mod; [|exact HE].
  intros m Hm. specialize (HQ m Hm). cbn zeta in HQ.
  apply wp_bind, wp_emit. destruct (m_training m).
  - destruct (forward_train (m_arch m) (m_params m) x) as [y p'].
    apply wp_bind, wp_set_mod. exact HQ.
  - exact HQ.
Qed.

Lemma wp_state_dict r Q E w :
  (forall m, w_mods w !! r = Some m -> Q (m_params m) w) ->
  (w_mods w !! r = None -> E OtherError w) ->
  wp (state_dict r) Q E w.
Proof.
  intros HQ HE. unfold state_dict. apply wp_bind, wp_get_mod; [|exact HE].
  intros m Hm. apply HQ, Hm.
Qed.

Lemma wp_optimizer_step (opt : Optimizer) (loss : Tensor) Q E w :
  (forall m, w_mods w !! opt_target opt = Some m ->
     let ps := adam_step (opt_lr opt) (opt_weight_decay opt) (opt_state opt)
                         (backward loss) (m_params m) in
     Q (mkOptimizer (opt_target opt) (opt_lr opt) (opt_weight_decay opt) ps.2)
       (add_event (EvOptimStep (opt_target opt))
          (put_mod (opt_target opt)
             (mkModule (m_arch m) ps.1 (m_training m) (m_device m)) w))) ->
  (w_mods w !! opt_target opt = None -> E OtherError w) ->
  wp (optimizer_step opt loss) Q E w.
Proof.
  intros HQ HE. unfold optimizer_step. apply wp_bind, wp_get_mod; [|exact HE].
  intros m Hm. specialize (HQ m Hm). cbn zeta in HQ.
  destruct (adam_step _ _ _ _ _) as [p' s'].
  apply wp_bind, wp_set_mod, wp_bind, wp_emit. exact HQ.
Qed.

Lemma wp_loss_item (loss : Tensor) Q E w :
  Q (item loss) (add_event (EvItem (item loss)) w) -> wp (loss_item loss) Q E w.
Proof. intros H. exact H. Qed.

(** One statement at a time. *)
Ltac wp_step :=
  lazymatch goal with
  | |- wp (mbind _ _) _ _ _ => apply wp_bind
  | |- wp (mret _) _ _ _ => apply wp_ret
  | |- wp (ret _) _ _ _ => apply wp_ret
  | |- wp (print _) _ _ _ => apply wp_print
  | |- wp (print_learning_rates _) _ _ _ => apply wp_print
  | |- wp (emit _) _ _ _ => apply wp_emit
  | |- wp (plot _) _ _ _ => apply wp_emit
  | |- wp (loss_item _) _ _ _ => apply wp_loss_item
  | |- wp (torch_save _ _) _ _ _ => apply wp_torch_save
  | |- wp (new_module _) _ _ _ => apply wp_new_module
  | |- wp (lift _) _ _ _ => apply wp_lift
  | |- wp (mod_call _ _ _) _ _ _ =>
      let m := fresh "m" in
      apply wp_mod_call; [intros m ?; cbn zeta; destruct (m_training m) eqn:? | intros ?]
  | |- wp (optimizer_step _ _) _ _ _ =>
      apply wp_optimizer_step; [intros ? ?; cbn zeta | intros ?]
  | |- wp (state_dict _) _ _ _ => apply wp_state_dict; [intros ? ? | intros ?]
  | |- wp (mod_to _ _) _ _ _ => apply wp_mod_to; [intros ? ? | intros ?]
  | |- wp (mod_train _) _ _ _ => apply wp_mod_set_training; [intros ? ? | intros ?]
  | |- wp (mod_eval _) _ _ _ => apply wp_mod_set_training; [intros ? ? | intros ?]
  | |- wp (mod_set_training _ _) _ _ _ =>
      apply wp_mod_set_training; [intros ? ? | intros ?]
  end.

Ltac wsimpl :=
  cbn [w_mods w_fs w_stdout w_trace add_stdout add_event put_mod alloc_mod put_file
       fst snd] in *.

(** ** Reading a trace *)

Lemma saves_app (a b : list Event) : saves (a ++ b) = saves a ++ saves b.
Proof.
  induction a as [|e a IH]; [reflexivity|]. destruct e; cbn; rewrite IH; reflexivity.
Qed.

Lemma items_app (a b : list Event) : items (a ++ b) = items a ++ items b.
Proof.
  induction a as [|e a IH]; [reflexivity|]. destruct e; cbn; rewrite IH; reflexivity.
Qed.

Lemma quiet_refl w : quiet w w.
Proof. repeat split. Qed.

(** A world update that is neither a checkpoint nor an allocation. *)
Lemma quiet_event w w' (e : Event) :
  quiet w w' -> saves [e] = [] -> quiet w (add_event e w').
Proof.
  unfold quiet. intros (?&?&?) He. wsimpl. rewrite saves_app, He, app_nil_r. auto.
Qed.

Lemma quiet_put_mod w w' r m : quiet w w' -> quiet w (put_mod r m w').
Proof.
  unfold quiet. intros (?&?&?). wsimpl. rewrite length_insert. auto.
Qed.

Lemma pass_post_refl w acc : pass_post w 0 acc acc w.
Proof.
  split; [apply quiet_refl|]. split; [reflexivity|].
  exists []. rewrite app_nil_r. repeat split.
Qed.

Lemma pass_post_put_mod w n acc0 acc w' r m :
  pass_post w n acc0 acc w' -> pass_post w n acc0 acc (put_mod r m w').
Proof. intros (?&?&?). split; [apply quiet_put_mod; assumption|]. split; assumption. Qed.

Lemma pass_post_event w n acc0 acc w' (e : Event) :
  pass_post w n acc0 acc w' -> saves [e] = [] -> items [e] = [] ->
  pass_post w n acc0 acc (add_event e w').
Proof.
  intros (?&?&ls&?&Hi&?) Hs He. split; [apply quiet_event; assumption|].
  split; [assumption|]. exists ls. wsimpl. rewrite items_app, He, app_nil_r. auto.
Qed.

Lemma pass_post_item w n acc0 acc w' (v : float) :
  pass_post w n acc0 acc w' ->
  pass_post w (S n) acc0 (PrimFloat.add acc v) (add_event (EvItem v) w').
Proof.
  intros (?&?&ls&Hn&Hi&Hacc). split; [apply quiet_event; [assumption|reflexivity]|].
  split; [assumption|]. exists (ls ++ [v]). wsimpl.
  rewrite items_app, Hi, <- app_assoc, length_app, fold_left_app, Hacc. cbn.
  repeat split. lia.
Qed.


(** ** The passes of siamese_train *)

Ltac pass_close :=
  repeat first
    [ assumption
    | apply pass_post_item
    | apply pass_post_put_mod
    | apply pass_post_event; [ | reflexivity | reflexivity ] ].

(** A failed lookup means the reference was never valid. *)
Lemma lookup_None_invalid w0 (l : list Module_) r :
  length l = length (w_mods w0) -> l !! r = None -> ~ valid r w0.
Proof. unfold valid. intros Hl Hn. apply lookup_ge_None in Hn. lia. Qed.

Lemma pass_post_length w0 n acc0 acc w :
  pass_post w0 n acc0 acc w -> length (w_mods w) = length (w_mods w0).
Proof. intros ((_&_&H)&_). exact H. Qed.

Ltac invalid_close HI :=
  split; [reflexivity|];
  match goal with
  | Hn : _ !! _ = None |- _ =>
      wsimpl; eapply lookup_None_invalid; [|exact Hn];
      rewrite ?length_insert; exact (pass_post_length _ _ _ _ _ HI)
  end.

Lemma siamese_train_batch_spec (model : nat) w0 n acc0 acc (b : Tensor * list Z) w :
  pass_post w0 n acc0 acc.1 w -> opt_target acc.2 = model ->
  wp (siamese_train_batch model acc b)
     (fun acc' w' => pass_post w0 (S n) acc0 acc'.1 w' /\ opt_target acc'.2 = model)
     (fun e w' => e = OtherError /\ ~ valid model w0) w.
Proof.
  intros HI Ht. destruct acc as [epoch_loss optimizer], b as [images labels].
  unfold siamese_train_batch. cbn [fst snd] in *.
  repeat wp_step; cbn [fst snd opt_target];
    try (split; [|exact Ht]); pass_close; rewrite ?Ht in *; invalid_close HI.
Qed.

Lemma siamese_train_pass_spec (model : nat) (opt : Optimizer) bs w :
  opt_target opt = model ->
  wp (foldM (siamese_train_batch model) (0%float, opt) bs)
     (fun acc w' => pass_post w (length bs) 0%float acc.1 w' /\ opt_target acc.2 = model)
     (fun e w' => e = OtherError /\ ~ valid model w) w.
Proof.
  intros Ht.
  refine (wp_foldM (siamese_train_batch model)
            (fun done acc w' => pass_post w (length done) 0%float acc.1 w' /\
                                opt_target acc.2 = model)
            _ bs _ [] (0%float, opt) w _).
  - intros done a b w1 [HI Ha]. cbn beta. rewrite length_app, Nat.add_1_r.
    apply siamese_train_batch_spec; assumption.
  - split; [apply pass_post_refl | exact Ht].
Qed.

Lemma siamese_val_batch_spec (model : nat) w0 n acc0 acc (b : Tensor * list Z) w :
  pass_post w0 n acc0 acc.1.1 w ->
  wp (siamese_val_batch model acc b)
     (fun acc' w' => pass_post w0 (S n) acc0 acc'.1.1 w')
     (fun e w' => e = OtherError /\ ~ valid model w0) w.
Proof.
  intros HI. destruct acc as [[val_loss all_embeddings] all_labels], b as [images labels].
  unfold siamese_val_batch. cbn [fst] in HI.
  repeat wp_step; cbn [fst]; pass_close; invalid_close HI.
Qed.

Lemma siamese_val_pass_spec (model : nat) bs w :
  wp (foldM (siamese_val_batch model) (0%float, [], []) bs)
     (fun acc w' => pass_post w (length bs) 0%float acc.1.1 w')
     (fun e w' => e = OtherError /\ ~ valid model w) w.
Proof.
  refine (wp_foldM (siamese_val_batch model)
            (fun done acc w' => pass_post w (length done) 0%float acc.1.1 w')
            _ bs _ [] (0%float, [], []) w _).
  - intros done a b w1 HI. cbn beta. rewrite length_app, Nat.add_1_r.
    apply siamese_val_batch_spec, HI.
  - apply pass_post_refl.
Qed.

(** ** An epoch of siamese_train *)

Lemma siamese_checkpoint_spec (save_dir : string) (model : nat) (v best : float) w :
  let best_path := os_path_join save_dir siamese_best_name in
  wp (siamese_checkpoint save_dir model v best)
     (fun best' w' =>
        w_mods w' = w_mods w /\ items (w_trace w') = items (w_trace w) /\
        if PyFloat.lt v best
        then best' = v /\
             exists m, w_mods w !! model = Some m /\
               saves (w_trace w') = saves (w_trace w) ++ [(best_path, m_params m)] /\
               w_fs w' = <[best_path := m_params m]> (w_fs w)
        else best' = best /\ saves (w_trace w') = saves (w_trace w) /\ w_fs w' = w_fs w)
     (fun e w' => e = OtherError /\ ~ valid model w) w.
Proof.
  intros best_path. unfold siamese_checkpoint. destruct (PyFloat.lt v best).
  - repeat wp_step.
    + wsimpl. rewrite saves_app, items_app. cbn [saves items]. rewrite app_nil_r.
      repeat split. eauto.
    + split; [reflexivity|]. eapply lookup_None_invalid; [reflexivity|eassumption].
  - repeat wp_step. wsimpl. repeat split.
Qed.

Lemma float_div_int_cases (a : float) (n : nat) :
  (n = 0 /\ float_div_int a n = Err ZeroDivisionError) \/
  (n <> 0 /\ float_div_int a n = Ok (PrimFloat.div a (PyFloat.of_nat n))).
Proof. destruct n; [left|right]; split; auto. Qed.

Lemma pass_post_after_mode w r (b : bool) m n acc0 acc w' :
  pass_post (add_event (EvMode r b) (put_mod r m w)) n acc0 acc w' ->
  pass_post w n acc0 acc w'.
Proof.
  unfold pass_post, quiet. wsimpl. rewrite saves_app, items_app, length_insert.
  cbn [saves items]. rewrite !app_nil_r. auto.
Qed.

Lemma siamese_epoch_spec (current_dir save_dir : string) (model : nat)
    (trl val : DataLoader) (epochs : nat) (plots : bool) (epoch : nat)
    (st : SiameseLocals) w :
  opt_target (s_optimizer st) = model ->
  wp (siamese_epoch current_dir save_dir model trl val epochs plots epoch st)
     (fun st' w' => siamese_epoch_post save_dir model trl val epoch st w st' w' /\
                    opt_target (s_optimizer st') = model)
     (fun e w' => e = OtherError /\ ~ valid model w \/
                  e = ZeroDivisionError /\ (dl_len trl = 0 \/ dl_len val = 0)) w.
Proof.
  intros Ht. unfold siamese_epoch.
  wp_step. wp_step; [|left; split; [reflexivity|]; eapply lookup_None_invalid; [reflexivity|eassumption]].
  wp_step.
  eapply wp_mono; [apply siamese_train_pass_spec, Ht | | ].
  2:{ intros e w' [-> Hv]. left. split; [reflexivity|]. revert Hv. unfold valid. wsimpl.
      rewrite length_insert. auto. }
  intros [epoch_loss optimizer] w1 [Hp1 Ht1]. cbn [fst snd] in Hp1, Ht1.
  apply pass_post_after_mode in Hp1.
  wp_step.
  destruct (float_div_int_cases epoch_loss (dl_len trl)) as [[Hz Hd]|[Hnz Hd]];
    rewrite Hd; wp_step; [right; split; [reflexivity|left; exact Hz]|].
  wp_step. wp_step.
  2:{ left. split; [reflexivity|]. eapply lookup_None_invalid; [|eassumption].
      eapply pass_post_length, Hp1. }
  wp_step.
  eapply wp_mono; [apply siamese_val_pass_spec | | ].
  2:{ intros e w' [-> Hv]. left. split; [reflexivity|]. revert Hv. unfold valid. wsimpl.
      rewrite length_insert, (pass_post_length _ _ _ _ _ Hp1). auto. }
  intros [[val_loss all_embeddings] all_labels] w2 Hp2. cbn [fst snd] in Hp2.
  apply pass_post_after_mode in Hp2.
  wp_step.
  destruct (float_div_int_cases val_loss (dl_len val)) as [[Hz' Hd']|[Hnz' Hd']];
    rewrite Hd'; wp_step; [right; split; [reflexivity|right; exact Hz']|].
  wp_step. wp_step.
  destruct (plateau_step _ _ _) as [scheduler lr'].
  wp_step. wp_step. wp_step.
  eapply wp_mono; [apply siamese_checkpoint_spec | | ].
  2:{ intros e w' [-> Hv]. left. split; [reflexivity|]. revert Hv. unfold valid. wsimpl.
      rewrite (pass_post_length _ _ _ _ _ Hp2), (pass_post_length _ _ _ _ _ Hp1). auto. }
  intros best' w3 (Hm3 & Hi3 & Hc). wsimpl.
  destruct Hp1 as ((Hf1 & Hs1 & Hl1) & _ & ls_tr & Hn1 & Hi1 & He1).
  destruct Hp2 as ((Hf2 & Hs2 & Hl2) & _ & ls_va & Hn2 & Hi2 & He2).
  assert (Hfin : forall w', w_mods w' = w_mods w3 -> w_fs w' = w_fs w3 ->
            saves (w_trace w') = saves (w_trace w3) ->
            items (w_trace w') = items (w_trace w3) ->
            siamese_epoch_post save_dir model trl val epoch st w
              (mkSiameseLocals
                 (mkOptimizer (opt_target optimizer) lr' (opt_weight_decay optimizer)
                    (opt_state optimizer))
                 scheduler best'
                 (s_train_losses st ++ [PrimFloat.div epoch_loss (PyFloat.of_nat (dl_len trl))])
                 (s_val_losses st ++ [PrimFloat.div val_loss (PyFloat.of_nat (dl_len val))]))
              w').
  { intros w' Hm' Hf' Hs' Hi'. unfold siamese_epoch_post.
    exists ls_tr, ls_va, (PrimFloat.div epoch_loss (PyFloat.of_nat (dl_len trl))),
      (PrimFloat.div val_loss (PyFloat.of_nat (dl_len val))).
    cbn [s_train_losses s_val_losses s_best_loss].
    unfold running_sum. rewrite <- He1, <- He2.
    rewrite Hi', Hi3, Hi2, Hi1, <- app_assoc, Hm', Hm3, Hl2, Hl1, Hs', Hf'.
    repeat (split; [first [assumption | reflexivity]|]).
    destruct (PyFloat.lt _ _).
    - destruct Hc as (-> & m' & Hm2 & Hs3 & Hf3). split; [reflexivity|].
      exists m'. rewrite Hs3, Hf3, Hs2, Hs1, Hf2, Hf1. auto.
    - destruct Hc as (-> & Hs3 & Hf3). rewrite Hs3, Hf3, Hs2, Hs1, Hf2, Hf1. auto. }
  wp_step. destruct plots; repeat wp_step; (split; [|exact Ht1]); apply Hfin; wsimpl;
    rewrite ?saves_app, ?items_app; cbn [saves items]; rewrite ?app_nil_r; reflexivity.
Qed.

(** ** The best-value record *)

Lemma lt_strict_order : strict_order PyFloat.lt.
Proof.
  split.
  - apply PyFloat.lt_irrefl.
  - apply PyFloat.lt_trans.
  - intros x y H. apply (PyFloat.lt_not_nan _ _ H).
  - intros x y z. apply PyFloat.lt_le_trans.
Qed.

Lemma gt_strict_order : strict_order PyFloat.gt.
Proof.
  unfold PyFloat.gt. split.
  - apply PyFloat.lt_irrefl.
  - intros x y z H1 H2. eapply PyFloat.lt_trans; eassumption.
  - intros x y H. apply (PyFloat.lt_not_nan _ _ H).
  - intros x y z H1 H2 H3. eapply PyFloat.le_lt_trans; eassumption.
Qed.

Lemma best_of_init (better : float -> float -> bool) (init : float) :
  strict_order better -> PyFloat.is_nan init = false -> best_of better init [] init.
Proof.
  intros Hso Hn. split; [left; reflexivity|]. split; [intros u []|].
  split; [apply (so_irrefl _ Hso)|exact Hn].
Qed.

Lemma best_of_step (better : float -> float -> bool) (init : float) h b v :
  strict_order better ->
  best_of better init h b ->
  best_of better init (h ++ [v]) (if better v b then v else b).
Proof.
  intros Hso (Hin & Hle & Hinit & Hn). destruct (better v b) eqn:Hvb; repeat split.
  - right. apply in_or_app. right. left. reflexivity.
  - intros u Hu. apply in_app_or in Hu as [Hu|[<-|[]]]; [|apply (so_irrefl _ Hso)].
    destruct (better u v) eqn:Huv; [|reflexivity].
    rewrite <- (Hle u Hu). symmetry. eapply (so_trans _ Hso); eassumption.
  - destruct (better init v) eqn:Hiv; [|reflexivity].
    rewrite <- Hinit. symmetry. eapply (so_trans _ Hso); eassumption.
  - eapply (so_number _ Hso), Hvb.
  - destruct Hin as [->|Hin]; [left; reflexivity|right; apply in_or_app; left; exact Hin].
  - intros u Hu. apply in_app_or in Hu as [Hu|[<-|[]]]; [apply Hle, Hu|exact Hvb].
  - exact Hinit.
  - exact Hn.
Qed.

(** Beating the record is beating the initial value and every number
    seen so far. *)
Lemma best_of_better_iff (better : float -> float -> bool) (init : float) h b v :
  strict_order better -> PyFloat.is_nan init = false ->
  best_of better init h b ->
  better v b = true <->
  better v init = true /\
  (forall u, In u h -> PyFloat.is_nan u = false -> better v u = true).
Proof.
  intros Hso Hni (Hin & Hle & Hinit & Hn). split.
  - intros Hvb. split.
    + eapply (so_total _ Hso); eassumption.
    + intros u Hu Hnu. eapply (so_total _ Hso); [exact Hvb|exact Hnu|apply Hle, Hu].
  - intros [Hvi Hall]. destruct Hin as [->|Hin]; [exact Hvi|apply Hall; assumption].
Qed.

Lemma siamese_loop_invariant (current_dir save_dir : string) (model : nat)
    (trl val : DataLoader) (epochs : nat) (plots : bool) (lr : float) k w0 st w :
  siamese_loop current_dir save_dir model trl val epochs plots 0 k
    (siamese_init model lr) w0 = Returned st w ->
  opt_target (s_optimizer st) = model /\
  length (s_val_losses st) = k /\
  best_of PyFloat.lt PyFloat.inf (s_val_losses st) (s_best_loss st).
Proof.
  revert st w. induction k as [|k IH]; intros st w Hrun.
  - cbn in Hrun. injection Hrun as <- <-. cbn [siamese_init s_optimizer opt_target
      s_val_losses s_best_loss length]. split; [reflexivity|]. split; [reflexivity|].
    apply best_of_init; [apply lt_strict_order|reflexivity].
  - unfold siamese_loop in Hrun. rewrite for_range_snoc in Hrun.
    unfold mbind, M_bind, bind in Hrun.
    destruct (for_range _ 0 k _ w0) as [st1 w1|e w1] eqn:Hk; [|discriminate].
    destruct (IH st1 w1 Hk) as (Ht & Hlen & Hbest).
    pose proof (wp_returned _ _ _ _ _ _
                  (siamese_epoch_spec current_dir save_dir model trl val epochs plots
                     (0 + k) st1 w1 Ht) Hrun) as [Hpost Ht'].
    destruct Hpost as (ls_tr & ls_va & t & v & _ & _ & _ & _ & _ & _ & Hv & _ & Hc).
    split; [exact Ht'|]. rewrite Hv, length_app, Hlen. split; [cbn; lia|].
    pose proof (best_of_step PyFloat.lt PyFloat.inf _ _ v lt_strict_order Hbest) as Hstep.
    destruct (PyFloat.lt v (s_best_loss st1)).
    + destruct Hc as (-> & _). exact Hstep.
    + destruct Hc as (-> & _). exact Hstep.
Qed.

(** C1. In every epoch of siamese_train the best checkpoint
    siamese_resnet18_best.pth is written, with the model's current
    parameters, exactly when the epoch's mean validation loss is strictly
    below the best-loss record.  The record starts at +infinity and is the
    best validation loss of the prior epochs (it is +infinity or one of
    their losses, and none of them is below it), so being below it is being
    below +infinity and below every prior epoch's loss that is a number.
    On a write the record becomes the epoch's loss; otherwise no checkpoint
    is written, the files are unchanged and so is the record. *)
Theorem siamese_best_checkpoint_policy (current_dir : string)
    (trl val : DataLoader) (epochs : nat) (plots : bool) (lr : float)
    (model k : nat) w0 st w st' w' :
  let save_dir := os_path_join current_dir "models" in
  let best_path := os_path_join save_dir siamese_best_name in
  siamese_loop current_dir save_dir model trl val epochs plots 0 k
    (siamese_init model lr) w0 = Returned st w ->
  siamese_epoch current_dir save_dir model trl val epochs plots k st w
    = Returned st' w' ->
  best_of PyFloat.lt PyFloat.inf (s_val_losses st) (s_best_loss st) /\
  length (s_val_losses st) = k /\
  exists v, s_val_losses st' = s_val_losses st ++ [v] /\
    (PyFloat.lt v (s_best_loss st) = true <->
     PyFloat.lt v PyFloat.inf = true /\
     forall u, In u (s_val_losses st) -> PyFloat.is_nan u = false ->
               PyFloat.lt v u = true) /\
    if PyFloat.lt v (s_best_loss st)
    then s_best_loss st' = v /\
         exists m, w_mods w' !! model = Some m /\
           saves (w_trace w') = saves (w_trace w) ++ [(best_path, m_params m)] /\
           w_fs w' = <[best_path := m_params m]> (w_fs w)
    else s_best_loss st' = s_best_loss st /\
         saves (w_trace w') = saves (w_trace w) /\
         w_fs w' = w_fs w.
Proof.
  intros save_dir best_path Hrun Hep.
  destruct (siamese_loop_invariant _ _ _ _ _ _ _ _ _ _ _ _ Hrun) as (Ht & Hlen & Hbest).
  pose proof (wp_returned _ _ _ _ _ _
                (siamese_epoch_spec current_dir save_dir model trl val epochs plots
                   k st w Ht) Hep) as [Hpost _].
  destruct Hpost as (ls_tr & ls_va & t & v & _ & _ & _ & _ & _ & _ & Hv & _ & Hc).
  split; [exact Hbest|]. split; [exact Hlen|]. exists v. split; [exact Hv|].
  split; [|exact Hc].
  apply best_of_better_iff; [apply lt_strict_order|reflexivity|exact Hbest].
Qed.

(** ** The passes of classifier_train *)

Lemma epoch_labels_snoc (done : list (Tensor * list Z)) images labels :
  epoch_labels (done ++ [(images, labels)]) = epoch_labels done ++ map PyFloat.of_Z labels.
Proof.
  unfold epoch_labels. rewrite map_app, concat_app. cbn. rewrite app_nil_r. reflexivity.
Qed.

Lemma cls_pass_post_step w0 done acc w v output images (labels : list Z) :
  cls_pass_post w0 done acc w ->
  cls_pass_post w0 (done ++ [(images, labels)])
    (accumulate acc v output (map PyFloat.of_Z labels)) (add_event (EvItem v) w).
Proof.
  intros (Hp & Hl & Ht). unfold cls_pass_post, accumulate. cbn [a_loss a_labels a_total].
  rewrite length_app, Nat.add_1_r, epoch_labels_snoc, Ht, length_app, Hl.
  split; [apply pass_post_item, Hp|]. split; reflexivity.
Qed.

Lemma cls_pass_post_put_mod w0 done acc w r m :
  cls_pass_post w0 done acc w -> cls_pass_post w0 done acc (put_mod r m w).
Proof. intros (?&?&?). split; [apply pass_post_put_mod; assumption|]. split; assumption. Qed.

Lemma cls_pass_post_event w0 done acc w (e : Event) :
  cls_pass_post w0 done acc w -> saves [e] = [] -> items [e] = [] ->
  cls_pass_post w0 done acc (add_event e w).
Proof.
  intros (?&?&?) ? ?. split; [apply pass_post_event; assumption|]. split; assumption.
Qed.

Lemma cls_pass_post_length w0 done acc w :
  cls_pass_post w0 done acc w -> length (w_mods w) = length (w_mods w0).
Proof. intros (H&_). exact (pass_post_length _ _ _ _ _ H). Qed.

Ltac cls_invalid HI :=
  split; [reflexivity|];
  match goal with
  | Hn : _ !! ?r = None |- _ \/ _ =>
      wsimpl;
      first [ left; eapply lookup_None_invalid; [|exact Hn]
            | right; eapply lookup_None_invalid; [|exact Hn] ];
      rewrite ?length_insert; exact (cls_pass_post_length _ _ _ _ HI)
  end.

Ltac cls_close :=
  repeat first
    [ assumption
    | apply cls_pass_post_step
    | apply cls_pass_post_put_mod
    | apply cls_pass_post_event; [ | reflexivity | reflexivity ] ].

Lemma classifier_train_batch_spec (siamese classifier : nat) (pw : Tensor) w0 done acc
    (b : Tensor * list Z) w :
  cls_pass_post w0 done acc.1 w -> opt_target acc.2 = classifier ->
  wp (classifier_train_batch siamese classifier pw acc b)
     (fun acc' w' => cls_pass_post w0 (done ++ [b]) acc'.1 w' /\
                     opt_target acc'.2 = classifier)
     (fun e w' => e = OtherError /\ (~ valid siamese w0 \/ ~ valid classifier w0)) w.
Proof.
  intros HI Ht. destruct acc as [acc optimizer], b as [images labels].
  unfold classifier_train_batch. cbn [fst snd] in *.
  repeat wp_step; cbn [fst snd opt_target];
    try (split; [|exact Ht]); cls_close; rewrite ?Ht in *; cls_invalid HI.
Qed.

Lemma classifier_train_pass_spec (siamese classifier : nat) (pw : Tensor)
    (opt : Optimizer) bs w :
  opt_target opt = classifier ->
  wp (foldM (classifier_train_batch siamese classifier pw) (pass_init, opt) bs)
     (fun acc w' => cls_pass_post w bs acc.1 w' /\ opt_target acc.2 = classifier)
     (fun e w' => e = OtherError /\ (~ valid siamese w \/ ~ valid classifier w)) w.
Proof.
  intros Ht.
  refine (wp_foldM (classifier_train_batch siamese classifier pw)
            (fun done acc w' => cls_pass_post w done acc.1 w' /\
                                opt_target acc.2 = classifier)
            _ bs _ [] (pass_init, opt) w _).
  - intros done a b w1 [HI Ha]. cbn beta.
    apply classifier_train_batch_spec; assumption.
  - split; [|exact Ht]. split; [apply pass_post_refl|]. split; reflexivity.
Qed.

Lemma classifier_val_batch_spec (siamese classifier : nat) (pw : Tensor) w0 done acc
    (b : Tensor * list Z) w :
  cls_pass_post w0 done acc w ->
  wp (classifier_val_batch siamese classifier pw acc b)
     (fun acc' w' => cls_pass_post w0 (done ++ [b]) acc' w')
     (fun e w' => e = OtherError /\ (~ valid siamese w0 \/ ~ valid classifier w0)) w.
Proof.
  intros HI. destruct b as [images labels].
  unfold classifier_val_batch.
  repeat wp_step; cls_close; cls_invalid HI.
Qed.

Lemma classifier_val_pass_spec (siamese classifier : nat) (pw : Tensor) bs w :
  wp (foldM (classifier_val_batch siamese classifier pw) pass_init bs)
     (fun acc w' => cls_pass_post w bs acc w')
     (fun e w' => e = OtherError /\ (~ valid siamese w \/ ~ valid classifier w)) w.
Proof.
  refine (wp_foldM (classifier_val_batch siamese classifier pw)
            (fun done acc w' => cls_pass_post w done acc w')
            _ bs _ [] pass_init w _).
  - intros done a b w1 HI. cbn beta. apply classifier_val_batch_spec, HI.
  - split; [apply pass_post_refl|]. split; reflexivity.
Qed.

(** ** An epoch of classifier_train *)

(** The [try] block never lets a [ValueError] out: it prints
    [report_lines], leaves [auroc_value], and raises only what
    [auroc_escape] names. *)
Lemma auroc_and_report_spec (header : string) (labels probs : list float) w :
  wp (auroc_and_report header labels probs)
     (fun a w' => auroc_escape labels probs = None /\
                  a = auroc_value labels probs /\
                  w_mods w' = w_mods w /\ w_fs w' = w_fs w /\ w_trace w' = w_trace w /\
                  w_stdout w' = w_stdout w ++ report_lines header labels probs)
     (fun e w' => auroc_escape labels probs = Some e /\
                  w_mods w' = w_mods w /\ w_fs w' = w_fs w /\ w_trace w' = w_trace w) w.
Proof.
  unfold auroc_and_report, auroc_escape, auroc_value, report_lines.
  apply wp_try. wp_step. wp_step.
  destruct (roc_auc_score labels probs) as [a|[]];
    [wp_step; wp_step; wp_step; wp_step;
     destruct (classification_report labels (binarise probs) 0) as [rep|[]]
    | | |];
    repeat wp_step; wsimpl; rewrite <- ?app_assoc, ?app_nil_r; repeat split.
Qed.

Lemma classifier_checkpoint_spec (save_dir : string) (classifier : nat) (a best : float) w :
  let best_path := os_path_join save_dir classifier_best_name in
  wp (classifier_checkpoint save_dir classifier a best)
     (fun best' w' =>
        w_mods w' = w_mods w /\ items (w_trace w') = items (w_trace w) /\
        w_stdout w' = w_stdout w ++
          [if PyFloat.gt a best then auroc_improved else auroc_not_improved] /\
        if PyFloat.gt a best
        then best' = a /\
             exists m, w_mods w !! classifier = Some m /\
               saves (w_trace w') = saves (w_trace w) ++ [(best_path, m_params m)] /\
               w_fs w' = <[best_path := m_params m]> (w_fs w)
        else best' = best /\ saves (w_trace w') = saves (w_trace w) /\ w_fs w' = w_fs w)
     (fun e w' => e = OtherError /\ ~ valid classifier w) w.
Proof.
  intros best_path. unfold classifier_checkpoint. destruct (PyFloat.gt a best).
  - repeat wp_step.
    + wsimpl. rewrite saves_app, items_app. cbn [saves items]. rewrite app_nil_r.
      repeat split. eauto.
    + split; [reflexivity|]. eapply lookup_None_invalid; [reflexivity|eassumption].
  - repeat wp_step. wsimpl. repeat split.
Qed.

Lemma int_truediv_cases (a b : nat) :
  (b = 0 /\ int_truediv a b = Err ZeroDivisionError) \/
  (b <> 0 /\ int_truediv a b =
             Ok (PrimFloat.div (PyFloat.of_nat a) (PyFloat.of_nat b))).
Proof. apply float_div_int_cases. Qed.

Lemma cls_pass_post_after_mode w r (b : bool) m done acc w' :
  cls_pass_post (add_event (EvMode r b) (put_mod r m w)) done acc w' ->
  cls_pass_post w done acc w'.
Proof. intros (H&?&?). split; [eapply pass_post_after_mode, H|]. split; assumption. Qed.

Lemma classifier_epoch_spec (save_dir : string) (siamese classifier : nat) (pw : Tensor)
    (trl val : DataLoader) (epochs epoch : nat) (st : ClassifierLocals) w :
  opt_target (c_optimizer st) = classifier ->
  wp (classifier_epoch save_dir siamese classifier pw trl val epochs epoch st)
     (fun st' w' =>
        classifier_epoch_post save_dir classifier trl val epochs epoch st w st' w' /\
        opt_target (c_optimizer st') = classifier)
     (fun e w' => classifier_epoch_exn siamese classifier trl val epoch w e) w.
Proof.
  intros Ht. unfold classifier_epoch, classifier_epoch_exn.
  wp_step. wp_step;
    [|left; split; [reflexivity|right]; eapply lookup_None_invalid;
      [reflexivity|eassumption]].
  wp_step.
  eapply wp_mono; [apply (classifier_train_pass_spec siamese), Ht | | ].
  2:{ intros e w' [-> Hv]. left. split; [reflexivity|]. revert Hv. unfold valid. wsimpl.
      rewrite length_insert. auto. }
  intros [tr optimizer] w1 [Hp1 Ht1]. cbn [fst snd] in Hp1, Ht1.
  apply cls_pass_post_after_mode in Hp1.
  pose proof (cls_pass_post_length _ _ _ _ Hp1) as Hlen1.
  destruct Hp1 as (Hp1 & Hlab1 & Htot1).
  wp_step.
  destruct (float_div_int_cases (a_loss tr) (dl_len trl)) as [[Hz Hd]|[Hnz Hd]];
    rewrite Hd; wp_step; [right; left; split; [reflexivity|left; exact Hz]|].
  wp_step.
  destruct (int_truediv_cases (a_correct tr) (a_total tr)) as [[Hz2 Hd2]|[Hnz2 Hd2]];
    rewrite Hd2; wp_step.
  { right; left; split; [reflexivity|]. right; right; left.
    rewrite <- Hlab1. apply length_zero_iff_nil. congruence. }
  wp_step.
  eapply wp_mono; [apply auroc_and_report_spec | | ].
  2:{ intros e w' [He _]. right; right. do 2 eexists. exact He. }
  intros train_auroc w2 (Hesc1 & -> & Hm2 & Hf2 & Htr2 & Hout2). cbn beta.
  wp_step. wp_step.
  2:{ left. split; [reflexivity|right]. eapply lookup_None_invalid; [|eassumption].
      congruence. }
  wp_step.
  eapply wp_mono; [apply (classifier_val_pass_spec siamese) | | ].
  2:{ intros e w' [-> Hv]. left. split; [reflexivity|]. revert Hv. unfold valid. wsimpl.
      rewrite length_insert, Hm2, Hlen1. auto. }
  intros va w3 Hp3. apply cls_pass_post_after_mode in Hp3.
  pose proof (cls_pass_post_length _ _ _ _ Hp3) as Hlen3.
  destruct Hp3 as (Hp3 & Hlab3 & Htot3).
  wp_step.
  destruct (float_div_int_cases (a_loss va) (dl_len val)) as [[Hz' Hd']|[Hnz' Hd']];
    rewrite Hd'; wp_step; [right; left; split; [reflexivity|right; left; exact Hz']|].
  wp_step.
  destruct (int_truediv_cases (a_correct va) (a_total va)) as [[Hz3 Hd3]|[Hnz3 Hd3]];
    rewrite Hd3; wp_step.
  { right; left; split; [reflexivity|]. right; right; right.
    rewrite <- Hlab3. apply length_zero_iff_nil. congruence. }
  wp_step.
  eapply wp_mono; [apply auroc_and_report_spec | | ].
  2:{ intros e w' [He _]. right; right. do 2 eexists. exact He. }
  intros val_auroc w4 (Hesc2 & -> & Hm4 & Hf4 & Htr4 & Hout4). cbn beta.
  do 9 wp_step.
  eapply wp_mono; [apply classifier_checkpoint_spec | | ].
  2:{ intros e w' [-> Hv]. left. split; [reflexivity|right]. revert Hv. unfold valid.
      wsimpl. rewrite Hm4, Hlen3, Hm2, Hlen1. auto. }
  intros best' w5 (Hm5 & Hi5 & Hout5 & Hc). wsimpl.
  wp_step. split; [|exact Ht1].
  destruct Hp1 as ((Hf1 & Hs1 & Hl1) & Ho1 & ls_tr & Hn1 & Hi1 & He1).
  destruct Hp3 as ((Hf3 & Hs3 & Hl3) & Ho3 & ls_va & Hn3 & Hi3 & He3).
  unfold classifier_epoch_post.
  exists tr, va, ls_tr, ls_va, (PrimFloat.div (a_loss tr) (PyFloat.of_nat (dl_len trl))),
    (PrimFloat.div (a_loss va) (PyFloat.of_nat (dl_len val))),
    (PrimFloat.div (PyFloat.of_nat (a_correct tr)) (PyFloat.of_nat (a_total tr))),
    (PrimFloat.div (PyFloat.of_nat (a_correct va)) (PyFloat.of_nat (a_total va))).
  cbn [c_train_losses c_val_losses c_train_accuracies c_val_accuracies c_train_aurocs
       c_val_aurocs c_best_auroc c_optimizer].
  cbn zeta. unfold running_sum.
  rewrite Hi5, Htr4, Hi3, Htr2, Hi1, <- app_assoc.
  rewrite Hm5, Hm4, Hl3, Hm2, Hl1.
  rewrite Hout5, Hout4, Ho3, Hout2, Ho1, <- !app_assoc. cbn [app].
  repeat (split; [first [assumption | reflexivity]|]).
  destruct (PyFloat.gt _ _).
  - destruct Hc as (-> & m' & Hm' & Hs5 & Hf5). split; [reflexivity|].
    exists m'. rewrite Hs5, Hf5, Htr4, Hs3, Htr2, Hs1, Hf4, Hf3, Hf2, Hf1.
    rewrite Hm4 in Hm'. auto.
  - destruct Hc as (-> & Hs5 & Hf5).
    rewrite Hs5, Hf5, Htr4, Hs3, Htr2, Hs1, Hf4, Hf3, Hf2, Hf1. auto.
Qed.

Lemma classifier_loop_invariant (save_dir : string) (siamese classifier : nat)
    (pw : Tensor) (trl val : DataLoader) (epochs : nat) (opt : Optimizer) k w0 st w :
  opt_target opt = classifier ->
  classifier_loop save_dir siamese classifier pw trl val epochs 0 k
    (classifier_init opt) w0 = Returned st w ->
  opt_target (c_optimizer st) = classifier /\
  length (c_train_aurocs st) = k /\
  length (c_val_aurocs st) = k /\
  best_of PyFloat.gt 0%float (c_val_aurocs st) (c_best_auroc st).
Proof.
  intros Ht0. revert st w. induction k as [|k IH]; intros st w Hrun.
  - cbn in Hrun. injection Hrun as <- <-.
    cbn [classifier_init c_optimizer c_val_aurocs c_train_aurocs c_best_auroc length].
    repeat (split; [first [exact Ht0|reflexivity]|]).
    apply best_of_init; [apply gt_strict_order|reflexivity].
  - unfold classifier_loop in Hrun. rewrite for_range_snoc in Hrun.
    unfold mbind, M_bind, bind in Hrun.
    destruct (for_range _ 0 k _ w0) as [st1 w1|e w1] eqn:Hk; [|discriminate].
    destruct (IH st1 w1 Hk) as (Ht & Hlent & Hlen & Hbest).
    pose proof (wp_returned _ _ _ _ _ _
                  (classifier_epoch_spec save_dir siamese classifier pw trl val epochs
                     (0 + k) st1 w1 Ht) Hrun) as [Hpost Ht'].
    destruct Hpost as (tr & va & ls_tr & ls_va & t & v & acc_t & acc_v & Hpost).
    cbn zeta in Hpost.
    destruct Hpost as (_&_&_&_&_&_&_&_&_&_&_&_&_&_&_&_&_& Hta & Hva &_&_& Hc).
    split; [exact Ht'|]. rewrite Hta, Hva, !length_app, Hlent, Hlen.
    split; [cbn; lia|]. split; [cbn; lia|].
    pose proof (best_of_step PyFloat.gt 0%float _ _ (auroc_value (a_labels va) (a_probs va))
                  gt_strict_order Hbest) as Hstep.
    destruct (PyFloat.gt _ (c_best_auroc st1)).
    + destruct Hc as (-> & _). exact Hstep.
    + destruct Hc as (-> & _). exact Hstep.
Qed.

(** C2, as the code has it.  In every epoch of classifier_train the best
    checkpoint classifier_best.pth is written, with the classifier's
    current parameters, exactly when the epoch's validation AUROC is
    strictly above the best-AUROC record, that is, above 0.0 and above every
    previous epoch's validation AUROC that is a number; a previous epoch
    whose AUROC is NaN is not compared against.  On a write the record
    becomes the epoch's AUROC; otherwise nothing is written and the record
    stays. *)
Theorem classifier_best_checkpoint_policy (current_dir : string)
    (trl val : DataLoader) (epochs : nat) (pw : Tensor) (opt : Optimizer)
    (siamese classifier k : nat) w0 st w st' w' :
  let save_dir := os_path_join current_dir "models" in
  let best_path := os_path_join save_dir classifier_best_name in
  opt_target opt = classifier ->
  classifier_loop save_dir siamese classifier pw trl val epochs 0 k
    (classifier_init opt) w0 = Returned st w ->
  classifier_epoch save_dir siamese classifier pw trl val epochs k st w
    = Returned st' w' ->
  best_of PyFloat.gt 0%float (c_val_aurocs st) (c_best_auroc st) /\
  length (c_val_aurocs st) = k /\
  exists a, c_val_aurocs st' = c_val_aurocs st ++ [a] /\
    (PyFloat.gt a (c_best_auroc st) = true <->
     PyFloat.gt a 0%float = true /\
     forall u, In u (c_val_aurocs st) -> PyFloat.is_nan u = false ->
               PyFloat.gt a u = true) /\
    if PyFloat.gt a (c_best_auroc st)
    then c_best_auroc st' = a /\
         exists m, w_mods w' !! classifier = Some m /\
           saves (w_trace w') = saves (w_trace w) ++ [(best_path, m_params m)] /\
           w_fs w' = <[best_path := m_params m]> (w_fs w)
    else c_best_auroc st' = c_best_auroc st /\
         saves (w_trace w') = saves (w_trace w) /\
         w_fs w' = w_fs w.
Proof.
  intros save_dir best_path Ht0 Hrun Hep.
  destruct (classifier_loop_invariant _ _ _ _ _ _ _ _ _ _ _ _ Ht0 Hrun)
    as (Ht & _ & Hlen & Hbest).
  pose proof (wp_returned _ _ _ _ _ _
                (classifier_epoch_spec save_dir siamese classifier pw trl val epochs
                   k st w Ht) Hep) as [Hpost _].
  destruct Hpost as (tr & va & ls_tr & ls_va & t & v & acc_t & acc_v & Hpost).
  cbn zeta in Hpost.
  destruct Hpost as (_&_&_&_&_&_&_&_&_&_&_&_&_&_&_&_&_&_& Hva &_&_& Hc).
  split; [exact Hbest|]. split; [exact Hlen|].
  exists (auroc_value (a_labels va) (a_probs va)). split; [exact Hva|].
  split; [|exact Hc].
  apply best_of_better_iff; [apply gt_strict_order|reflexivity|exact Hbest].
Qed.

(** C9. An epoch of classifier_train whose validation AUROC is NaN writes
    no checkpoint and leaves the best-AUROC record as it was, a number; so
    the next epoch's AUROC is compared against the record from before the
    NaN epoch, and is saved exactly when it is above that. *)
Theorem nan_auroc_never_best (save_dir : string) (trl val : DataLoader) (epochs : nat)
    (pw : Tensor) (siamese classifier k : nat) st w st' w' a :
  opt_target (c_optimizer st) = classifier ->
  classifier_epoch save_dir siamese classifier pw trl val epochs k st w
    = Returned st' w' ->
  c_val_aurocs st' = c_val_aurocs st ++ [a] ->
  PyFloat.is_nan a = true ->
  PyFloat.gt a (c_best_auroc st) = false /\
  c_best_auroc st' = c_best_auroc st /\
  saves (w_trace w') = saves (w_trace w) /\
  w_fs w' = w_fs w /\
  forall st'' w'',
    classifier_epoch save_dir siamese classifier pw trl val epochs (S k) st' w'
      = Returned st'' w'' ->
    exists b, c_val_aurocs st'' = c_val_aurocs st' ++ [b] /\
      if PyFloat.gt b (c_best_auroc st)
      then c_best_auroc st'' = b /\
           exists p, saves (w_trace w'') =
                     saves (w_trace w') ++ [(os_path_join save_dir classifier_best_name, p)]
      else c_best_auroc st'' = c_best_auroc st /\
           saves (w_trace w'') = saves (w_trace w').
Proof.
  intros Ht Hep Ha Hnan.
  pose proof (wp_returned _ _ _ _ _ _
                (classifier_epoch_spec save_dir siamese classifier pw trl val epochs
                   k st w Ht) Hep) as [Hpost Ht'].
  destruct Hpost as (tr & va & ls_tr & ls_va & t & v & acc_t & acc_v & Hpost).
  cbn zeta in Hpost.
  destruct Hpost as (_&_&_&_&_&_&_&_&_&_&_&_&_&_&_&_&_&_& Hva &_&_& Hc).
  rewrite Ha in Hva. apply app_inj_tail in Hva as [_ ->].
  assert (Hgt : PyFloat.gt (auroc_value (a_labels va) (a_probs va)) (c_best_auroc st) = false)
    by (apply PyFloat.lt_nan_r, Hnan).
  rewrite Hgt in Hc. destruct Hc as (Hb & Hs & Hf).
  repeat (split; [assumption|]).
  intros st'' w'' Hep'.
  pose proof (wp_returned _ _ _ _ _ _
                (classifier_epoch_spec save_dir siamese classifier pw trl val epochs
                   (S k) st' w' Ht') Hep') as [Hpost' _].
  destruct Hpost' as (tr' & va' & ls_tr' & ls_va' & t' & v' & acc_t' & acc_v' & Hpost').
  cbn zeta in Hpost'.
  destruct Hpost' as (_&_&_&_&_&_&_&_&_&_&_&_&_&_&_&_&_&_& Hva' &_&_& Hc').
  exists (auroc_value (a_labels va') (a_probs va')). split; [exact Hva'|].
  rewrite Hb in Hc'.
  destruct (PyFloat.gt (auroc_value (a_labels va') (a_probs va')) (c_best_auroc st)).
  - destruct Hc' as (-> & m & _ & Hs' & _). split; [reflexivity|]. eauto.
  - destruct Hc' as (-> & Hs' & _). auto.
Qed.

(** ** The epoch loops *)

Lemma loop_post_refl (best_path : string) w : loop_post best_path w w.
Proof. split; [reflexivity|]. exists []. cbn. rewrite app_nil_r. reflexivity. Qed.

Lemma loop_post_step (best_path : string) w w1 w2 :
  loop_post best_path w w1 ->
  length (w_mods w2) = length (w_mods w1) ->
  (saves (w_trace w2) = saves (w_trace w1) \/
   exists p, saves (w_trace w2) = saves (w_trace w1) ++ [(best_path, p)]) ->
  loop_post best_path w w2.
Proof.
  intros (Hl & ps & Hs) Hl2 [Hs2|[p Hs2]]; (split; [congruence|]).
  - exists ps. congruence.
  - exists (ps ++ [p]). rewrite Hs2, Hs, map_app, app_assoc. reflexivity.
Qed.

Lemma siamese_loop_spec (current_dir save_dir : string) (model : nat)
    (trl val : DataLoader) (epochs : nat) (plots : bool) n start
    (st : SiameseLocals) w :
  opt_target (s_optimizer st) = model ->
  wp (siamese_loop current_dir save_dir model trl val epochs plots start n st)
     (fun st' w' => loop_post (os_path_join save_dir siamese_best_name) w w')
     (fun e w' => e = OtherError /\ ~ valid model w \/
                  e = ZeroDivisionError /\ (dl_len trl = 0 \/ dl_len val = 0)) w.
Proof.
  intros Ht. unfold siamese_loop.
  eapply wp_mono;
    [ apply (wp_for_range _
               (fun i st' w' => opt_target (s_optimizer st') = model /\
                  loop_post (os_path_join save_dir siamese_best_name) w w')
               (fun e w' => e = OtherError /\ ~ valid model w \/
                  e = ZeroDivisionError /\ (dl_len trl = 0 \/ dl_len val = 0)) n start)
    | intros st' w' [_ H]; exact H | auto ].
  - intros i st1 w1 _ [Ht1 Hl1].
    eapply wp_mono; [apply siamese_epoch_spec, Ht1 | | ].
    + intros st2 w2 [Hpost Ht2]. split; [exact Ht2|].
      destruct Hpost as (ls_tr & ls_va & t & v & _ & _ & _ & _ & _ & _ & _ & Hlen & Hc).
      apply (loop_post_step _ _ _ _ Hl1 Hlen).
      destruct (PyFloat.lt v (s_best_loss st1)).
      * destruct Hc as (_ & m & _ & Hs & _). right. eauto.
      * destruct Hc as (_ & Hs & _). left. exact Hs.
    + intros e w2 [[-> Hv]|H]; [left|right; exact H]. split; [reflexivity|].
      unfold valid in *. destruct Hl1 as [Hl1 _]. rewrite <- Hl1. exact Hv.
  - split; [exact Ht|apply loop_post_refl].
Qed.

Lemma classifier_loop_spec (save_dir : string) (siamese classifier : nat) (pw : Tensor)
    (trl val : DataLoader) (epochs : nat) n start (st : ClassifierLocals) w :
  opt_target (c_optimizer st) = classifier ->
  wp (classifier_loop save_dir siamese classifier pw trl val epochs start n st)
     (fun st' w' => loop_post (os_path_join save_dir classifier_best_name) w w')
     (fun e w' => exists epoch, start <= epoch < start + n /\
                    classifier_epoch_exn siamese classifier trl val epoch w e) w.
Proof.
  intros Ht. unfold classifier_loop.
  eapply wp_mono;
    [ apply (wp_for_range _
               (fun i st' w' => opt_target (c_optimizer st') = classifier /\
                  loop_post (os_path_join save_dir classifier_best_name) w w')
               (fun e w' => exists epoch, start <= epoch < start + n /\
                    classifier_epoch_exn siamese classifier trl val epoch w e) n start)
    | intros st' w' [_ H]; exact H | auto ].
  - intros i st1 w1 Hi [Ht1 Hl1].
    eapply wp_mono; [apply (classifier_epoch_spec save_dir siamese), Ht1 | | ].
    + intros st2 w2 [Hpost Ht2]. split; [exact Ht2|].
      destruct Hpost as (tr & va & ls_tr & ls_va & t & v & acc_t & acc_v & Hpost).
      cbn zeta in Hpost.
      destruct Hpost as (_&_&_&_&_&_&_&_&_&_&_&_&_&_&_&_&_&_&_&_& Hlen & Hc).
      apply (loop_post_step _ _ _ _ Hl1 Hlen).
      destruct (PyFloat.gt _ (c_best_auroc st1)).
      * destruct Hc as (_ & m & _ & Hs & _). right. eauto.
      * destruct Hc as (_ & Hs & _). left. exact Hs.
    + intros e w2 He. exists i. split; [exact Hi|].
      destruct Hl1 as [Hl1 _]. unfold classifier_epoch_exn, valid in *.
      rewrite <- Hl1. exact He.
  - split; [exact Ht|apply loop_post_refl].
Qed.

(** ** Before and after the loops *)

Lemma siamese_setup_spec w :
  wp siamese_setup
     (fun model w' =>
        model = length (w_mods w) /\ valid model w' /\
        w_mods w' = w_mods w ++ [mkModule SiameseNN (init_params SiameseNN) true torch_device] /\
        w_fs w' = w_fs w /\ w_trace w' = w_trace w /\
        w_stdout w' = w_stdout w ++ ["Training Siamese Network"])
     (fun _ _ => False) w.
Proof.
  unfold siamese_setup. repeat wp_step; wsimpl.
  - match goal with H : _ !! _ = Some _ |- _ =>
      rewrite list_lookup_middle in H by reflexivity; injection H as <- end.
    cbn [m_arch m_params m_training].
    unfold valid. wsimpl. rewrite length_insert, length_app. cbn [length].
    repeat split; [lia|].
    rewrite insert_app_r_alt by lia. rewrite Nat.sub_diag. reflexivity.
  - match goal with H : _ !! _ = None |- _ =>
      rewrite list_lookup_middle in H by reflexivity; discriminate H end.
Qed.

Lemma siamese_finish_spec (save_dir : string) (model : nat) (plots : bool)
    (st : SiameseLocals) w :
  wp (siamese_finish save_dir model plots st)
     (fun _ w' =>
        exists m, w_mods w !! model = Some m /\ w_mods w' = w_mods w /\
          w_fs w' = <[os_path_join save_dir siamese_final_name := m_params m]> (w_fs w) /\
          saves (w_trace w') =
            saves (w_trace w) ++ [(os_path_join save_dir siamese_final_name, m_params m)])
     (fun e w' => ~ valid model w) w.
Proof.
  unfold siamese_finish. wp_step. wp_step.
  - destruct plots; repeat wp_step; wsimpl; eexists; (split; [eassumption|]);
      rewrite ?saves_app; cbn [saves]; rewrite ?app_nil_r; repeat split.
  - eapply lookup_None_invalid; [reflexivity|eassumption].
Qed.

Lemma classifier_finish_spec (save_dir : string) (classifier : nat) (plots : bool)
    (st : ClassifierLocals) w :
  wp (classifier_finish save_dir classifier plots st)
     (fun _ w' =>
        exists m, w_mods w !! classifier = Some m /\ w_mods w' = w_mods w /\
          w_fs w' = <[os_path_join save_dir classifier_final_name := m_params m]> (w_fs w) /\
          saves (w_trace w') =
            saves (w_trace w) ++ [(os_path_join save_dir classifier_final_name, m_params m)])
     (fun e w' => ~ valid classifier w) w.
Proof.
  unfold classifier_finish. wp_step. wp_step.
  - destruct plots; repeat wp_step; wsimpl; eexists; (split; [eassumption|]);
      rewrite ?saves_app; cbn [saves]; rewrite ?app_nil_r; repeat split.
  - eapply lookup_None_invalid; [reflexivity|eassumption].
Qed.

(** The classifier is a new object; the passed-in [siamese] keeps its
    class and parameters and ends up in eval mode on the chosen device. *)
Lemma classifier_setup_spec (siamese : nat) w :
  wp (classifier_setup siamese)
     (fun co w' =>
        co.1 = length (w_mods w) /\ opt_target co.2 = co.1 /\
        valid siamese w /\
        length (w_mods w') = S (length (w_mods w)) /\
        (exists ms, w_mods w !! siamese = Some ms /\
           w_mods w' !! siamese =
             Some (mkModule (m_arch ms) (m_params ms) false torch_device)) /\
        w_fs w' = w_fs w /\
        w_trace w' = w_trace w ++ [EvMode siamese false; EvMode co.1 true] /\
        w_stdout w' = w_stdout w ++ ["Training classifier"])
     (fun e w' => e = OtherError /\ ~ valid siamese w /\
                  w_fs w' = w_fs w /\ w_trace w' = w_trace w /\
                  w_stdout w' = w_stdout w ++ ["Training classifier"]) w.
Proof.
  unfold classifier_setup.
  wp_step. wp_step. wp_step. wp_step.
  2:{ wsimpl. split; [reflexivity|]. split; [|auto].
      eapply lookup_None_invalid; [reflexivity|eassumption]. }
  rename H into Hs.
  assert (Hv : siamese < length (w_mods w)) by (eapply lookup_lt_Some, Hs).
  wp_step. wp_step.
  2:{ wsimpl. rewrite list_lookup_insert_eq in H by exact Hv. discriminate H. }
  wsimpl. rewrite list_lookup_insert_eq in H by exact Hv. injection H as <-.
  cbn [m_arch m_params m_training m_device].
  wp_step. wp_step. wsimpl. rewrite length_insert. wp_step. wp_step.
  2:{ wsimpl. rewrite list_lookup_middle in H by (rewrite !length_insert; reflexivity).
      discriminate H. }
  wsimpl. rewrite list_lookup_middle in H by (rewrite !length_insert; reflexivity).
  injection H as <-. cbn [m_arch m_params m_training m_device].
  wp_step. wp_step.
  2:{ wsimpl. apply lookup_ge_None in H.
      rewrite length_insert, length_app, !length_insert in H. cbn in H. lia. }
  wp_step. wsimpl. cbn [fst snd opt_target].
  rewrite !length_insert, length_app, !length_insert. cbn [length].
  repeat split; try reflexivity; try exact Hv; try lia.
  - exists m. split; [exact Hs|].
    rewrite !list_lookup_insert_ne by (rewrite ?length_app, ?length_insert; cbn; lia).
    rewrite lookup_app_l by (rewrite !length_insert; exact Hv).
    rewrite list_lookup_insert_eq by (rewrite length_insert; exact Hv). reflexivity.
  - rewrite <- !app_assoc. reflexivity.
Qed.

Lemma compute_pos_weight_spec (trl : DataLoader) w :
  wp (compute_pos_weight trl)
     (fun pw w' => w' = w /\ malignant_count trl <> 0 /\
        pw = tensor [PrimFloat.div (PyFloat.of_nat (benign_count trl))
                                   (PyFloat.of_nat (malignant_count trl))])
     (fun e w' => w' = w /\ e = ZeroDivisionError /\ malignant_count trl = 0) w.
Proof.
  unfold compute_pos_weight. wp_step. wp_step.
  destruct (int_truediv_cases (benign_count trl) (malignant_count trl))
    as [[Hz Hd]|[Hnz Hd]]; rewrite Hd.
  - auto.
  - wp_step. auto.
Qed.

(** ** Checkpoint paths *)

Lemma append_cons (c : ascii) (a b : string) : String c a +:+ b = String c (a +:+ b).
Proof. reflexivity. Qed.

Lemma append_assoc (a b c : string) : (a +:+ b) +:+ c = a +:+ (b +:+ c).
Proof.
  induction a as [|x a IH]; [reflexivity|]. rewrite !append_cons, IH. reflexivity.
Qed.

Lemma ends_with_slash_app (a b : string) :
  b <> "" -> ends_with_slash (a +:+ b) = ends_with_slash b.
Proof.
  intros Hb. induction a as [|c a IH]; [reflexivity|].
  rewrite <- IH, append_cons.
  destruct (a +:+ b) eqn:E; [|reflexivity].
  destruct a; [change b with ("" +:+ b) in Hb; congruence|discriminate E].
Qed.

(** Under a base directory that is not empty and does not end in a slash,
    a checkpoint named [name] is the file [<base>/models/<name>]. *)
Lemma checkpoint_path (current_dir name : string) :
  current_dir <> "" -> ends_with_slash current_dir = false ->
  String.prefix "/" name = false ->
  os_path_join (os_path_join current_dir "models") name
  = current_dir +:+ "/models/" +:+ name.
Proof.
  intros Hne Hsl Hname.
  assert (H1 : os_path_join current_dir "models" = current_dir +:+ "/models").
  { unfold os_path_join. change (String.prefix "/" "models") with false.
    rewrite Hsl. destruct current_dir as [|c d]; [congruence|]. reflexivity. }
  rewrite H1. unfold os_path_join. rewrite Hname.
  rewrite ends_with_slash_app by discriminate.
  change (ends_with_slash "/models") with false.
  destruct current_dir as [|c d]; [congruence|].
  rewrite (append_cons c d "/models"). cbn [String.eqb orb].
  rewrite <- (append_cons c d "/models"), append_assoc. reflexivity.
Qed.

(** C3. Once its epoch loop has finished, siamese_train returns after
    writing the model's parameters, as they are at the end of the last
    epoch, to siamese_resnet18.pth, and classifier_train after writing the
    classifier's to classifier.pth: always, whatever the loop saved.  Every
    checkpoint the loop itself wrote went to siamese_resnet18_best.pth,
    respectively classifier_best.pth.  All four files are joined onto
    [os.path.join(current_dir, 'models')], which for a base directory that
    is not empty and has no trailing slash is [<base>/models/<name>]. *)
Theorem final_checkpoints_unconditional (current_dir : string) (trl val : DataLoader)
    (images : Tensor) (epochs : nat) (plots : bool) :
  let save_dir := os_path_join current_dir "models" in
  (forall (lr : float) w0 model w1 st w2,
     siamese_setup w0 = Returned model w1 ->
     siamese_loop current_dir save_dir model trl val epochs plots 0 epochs
       (siamese_init model lr) w1 = Returned st w2 ->
     exists w3 m,
       siamese_train current_dir trl val images epochs lr plots w0 = Returned tt w3 /\
       w_mods w2 !! model = Some m /\ w_mods w3 = w_mods w2 /\
       w_fs w3 !! os_path_join save_dir siamese_final_name = Some (m_params m) /\
       (exists ps, saves (w_trace w3) =
          saves (w_trace w0)
          ++ map (pair (os_path_join save_dir siamese_best_name)) ps
          ++ [(os_path_join save_dir siamese_final_name, m_params m)])) /\
  (forall (siamese : nat) w0 classifier opt w1 pw st w2,
     classifier_setup siamese w0 = Returned (classifier, opt) w1 ->
     compute_pos_weight trl w1 = Returned pw w1 ->
     classifier_loop save_dir siamese classifier pw trl val epochs 0 epochs
       (classifier_init opt) w1 = Returned st w2 ->
     exists w3 m,
       classifier_train current_dir trl val images siamese epochs plots w0
         = Returned tt w3 /\
       w_mods w2 !! classifier = Some m /\ w_mods w3 = w_mods w2 /\
       w_fs w3 !! os_path_join save_dir classifier_final_name = Some (m_params m) /\
       (exists ps, saves (w_trace w3) =
          saves (w_trace w0)
          ++ map (pair (os_path_join save_dir classifier_best_name)) ps
          ++ [(os_path_join save_dir classifier_final_name, m_params m)])) /\
  (current_dir <> "" -> ends_with_slash current_dir = false ->
   os_path_join save_dir siamese_best_name
     = current_dir +:+ "/models/siamese_resnet18_best.pth" /\
   os_path_join save_dir siamese_final_name
     = current_dir +:+ "/models/siamese_resnet18.pth" /\
   os_path_join save_dir classifier_best_name
     = current_dir +:+ "/models/classifier_best.pth" /\
   os_path_join save_dir classifier_final_name
     = current_dir +:+ "/models/classifier.pth").
Proof.
  intros save_dir. split; [|split].
  - intros lr w0 model w1 st w2 Hsetup Hloop.
    pose proof (wp_returned _ _ _ _ _ _ (siamese_setup_spec w0) Hsetup)
      as (_ & Hv1 & _ & _ & Htr1 & _).
    pose proof (wp_returned _ _ _ _ _ _
                  (siamese_loop_spec current_dir save_dir model trl val epochs plots
                     epochs 0 (siamese_init model lr) w1 eq_refl) Hloop)
      as (Hlen & ps & Hs).
    pose proof (siamese_finish_spec save_dir model plots st w2) as Hfin.
    unfold wp in Hfin.
    destruct (siamese_finish save_dir model plots st w2) as [[] w3|e w3] eqn:Hf.
    + destruct Hfin as (m & Hm & Hm3 & Hf3 & Hs3). exists w3, m.
      split; [|split; [exact Hm|split; [exact Hm3|split]]].
      * unfold siamese_train, mbind, M_bind, bind. fold save_dir.
        rewrite Hsetup, Hloop. exact Hf.
      * rewrite Hf3. apply lookup_insert_eq.
      * exists ps. rewrite Hs3, Hs, Htr1, <- app_assoc. reflexivity.
    + exfalso. apply Hfin. unfold valid in *. rewrite Hlen. exact Hv1.
  - intros siamese w0 classifier opt w1 pw st w2 Hsetup Hpw Hloop.
    pose proof (wp_returned _ _ _ _ _ _ (classifier_setup_spec siamese w0) Hsetup)
      as (Hc & Ht & _ & Hl1 & _ & _ & Htr1 & _).
    cbn [fst snd] in Hc, Ht, Htr1.
    pose proof (wp_returned _ _ _ _ _ _
                  (classifier_loop_spec save_dir siamese classifier pw trl val epochs
                     epochs 0 (classifier_init opt) w1 Ht) Hloop)
      as (Hlen & ps & Hs).
    pose proof (classifier_finish_spec save_dir classifier plots st w2) as Hfin.
    unfold wp in Hfin.
    destruct (classifier_finish save_dir classifier plots st w2) as [[] w3|e w3] eqn:Hf.
    + destruct Hfin as (m & Hm & Hm3 & Hf3 & Hs3). exists w3, m.
      split; [|split; [exact Hm|split; [exact Hm3|split]]].
      * unfold classifier_train, mbind, M_bind, bind. fold save_dir.
        rewrite Hsetup, Hpw, Hloop. exact Hf.
      * rewrite Hf3. apply lookup_insert_eq.
      * exists ps. rewrite Hs3, Hs, Htr1, saves_app. cbn [saves].
        rewrite app_nil_r, <- app_assoc. reflexivity.
    + exfalso. apply Hfin. unfold valid. rewrite Hlen, Hl1, Hc. lia.
  - intros Hne Hsl. unfold save_dir.
    rewrite !checkpoint_path by (assumption || reflexivity).
    repeat split.
Qed.

(** ** The frozen embedding model *)

Section Safe.
Variables (siamese classifier : nat) (pw : Tensor) (ms : Module_) (tr0 : list Event).
Hypothesis Hne : siamese <> classifier.
Hypothesis Heval : m_training ms = false.

Let safe := cls_safe siamese classifier pw ms tr0.
Let stable {A} (m : M A) w := wp m (fun _ w' => safe w') (fun _ w' => safe w') w.

Lemma safe_event w (e : Event) :
  safe w -> cls_event_ok siamese classifier pw e -> safe (add_event e w).
Proof.
  intros (Hm & seg & Htr & Hall) He. split; [exact Hm|].
  exists (seg ++ [e]). wsimpl. rewrite Htr, app_assoc. split; [reflexivity|].
  apply Forall_app. split; [exact Hall|]. constructor; [exact He|constructor].
Qed.

Lemma safe_put_mod w r m : safe w -> r <> siamese -> safe (put_mod r m w).
Proof.
  intros (Hm & Hseg) Hr. split; [|exact Hseg]. wsimpl.
  rewrite list_lookup_insert_ne by exact Hr. exact Hm.
Qed.

Lemma safe_stdout w s : safe w -> safe (add_stdout s w).
Proof. intros H. exact H. Qed.

Lemma safe_put_file w path p : safe w -> safe (put_file path p w).
Proof. intros H. exact H. Qed.

Lemma stable_call_siamese (x : Tensor) w :
  safe w ->
  wp (mod_call siamese false x) (fun _ w' => safe w') (fun _ w' => safe w') w.
Proof.
  intros Hs. pose proof Hs as (Hm & _). apply wp_mod_call.
  - intros m Hm'. rewrite Hm in Hm'. injection Hm' as <-. cbn zeta. rewrite Heval.
    apply safe_event; [exact Hs|]. intros _. split; reflexivity.
  - intros Hn. exact Hs.
Qed.

Lemma stable_call_classifier (grad : bool) (x : Tensor) w :
  safe w -> stable (mod_call classifier grad x) w.
Proof.
  intros Hs. apply wp_mod_call.
  - intros m Hm. cbn zeta.
    assert (He : safe (add_event (EvForward classifier (m_training m) grad) w))
      by (apply safe_event; [exact Hs|]; intros ->; congruence).
    destruct (m_training m); [apply safe_put_mod; auto|exact He].
  - intros _. exact Hs.
Qed.

Lemma stable_optimizer_step (opt : Optimizer) (loss : Tensor) w :
  safe w -> opt_target opt = classifier ->
  wp (optimizer_step opt loss)
     (fun opt' w' => safe w' /\ opt_target opt' = classifier)
     (fun _ w' => safe w') w.
Proof.
  intros Hs Ht. apply wp_optimizer_step.
  - intros m Hm. cbn zeta. split; [|exact Ht]. rewrite Ht.
    apply safe_event; [apply safe_put_mod; auto|reflexivity].
  - intros _. exact Hs.
Qed.

Lemma stable_set_training (b : bool) w :
  safe w -> stable (mod_set_training classifier b) w.
Proof.
  intros Hs. apply wp_mod_set_training.
  - intros m Hm. apply safe_event; [apply safe_put_mod; auto|].
    intros ->. congruence.
  - intros _. exact Hs.
Qed.

Lemma stable_train_batch (acc : PassAcc * Optimizer) (b : Tensor * list Z) w :
  safe w -> opt_target acc.2 = classifier ->
  wp (classifier_train_batch siamese classifier pw acc b)
     (fun acc' w' => safe w' /\ opt_target acc'.2 = classifier)
     (fun _ w' => safe w') w.
Proof.
  intros Hs Ht. destruct acc as [acc optimizer], b as [images labels].
  unfold classifier_train_batch. cbn [snd] in Ht.
  apply wp_bind. eapply wp_mono; [apply stable_call_siamese, Hs| |auto].
  intros embeddings w1 H1. cbn beta.
  apply wp_bind. eapply wp_mono; [apply stable_call_classifier, H1| |auto].
  intros logits w2 H2. cbn beta.
  apply wp_bind, wp_emit.
  apply wp_bind. eapply wp_mono;
    [apply stable_optimizer_step; [apply safe_event; [exact H2|reflexivity]|exact Ht]
    | |auto].
  intros optimizer' w3 [H3 Ht3]. cbn beta.
  apply wp_bind, wp_loss_item, wp_ret. split; [|exact Ht3].
  apply safe_event; [exact H3|exact I].
Qed.

Lemma stable_val_batch (acc : PassAcc) (b : Tensor * list Z) w :
  safe w -> stable (classifier_val_batch siamese classifier pw acc b) w.
Proof.
  intros Hs. destruct b as [images labels]. unfold classifier_val_batch.
  apply wp_bind. eapply wp_mono; [apply stable_call_siamese, Hs| |auto].
  intros embeddings w1 H1. cbn beta.
  apply wp_bind. eapply wp_mono; [apply stable_call_classifier, H1| |auto].
  intros logits w2 H2. cbn beta.
  apply wp_bind, wp_emit, wp_bind, wp_loss_item, wp_ret.
  apply safe_event; [|exact I]. apply safe_event; [exact H2|reflexivity].
Qed.

Lemma stable_auroc_and_report (header : string) (labels probs : list float) w :
  safe w -> stable (auroc_and_report header labels probs) w.
Proof.
  intros Hs. eapply wp_mono; [apply auroc_and_report_spec| |].
  - intros a w' (_ & _ & Hm & _ & Htr & _). unfold safe, cls_safe in *.
    rewrite Hm, Htr. exact Hs.
  - intros e w' (_ & Hm & _ & Htr). unfold safe, cls_safe in *.
    rewrite Hm, Htr. exact Hs.
Qed.

Lemma stable_checkpoint (save_dir : string) (a best : float) w :
  safe w -> stable (classifier_checkpoint save_dir classifier a best) w.
Proof.
  intros Hs. unfold classifier_checkpoint. destruct (PyFloat.gt a best).
  - apply wp_bind, wp_state_dict; [|intros _; exact Hs].
    intros m Hm. apply wp_bind, wp_torch_save, wp_bind, wp_print, wp_ret.
    apply safe_stdout, safe_event; [apply safe_put_file, Hs|exact I].
  - apply wp_bind, wp_print, wp_ret. exact Hs.
Qed.

Ltac stable_bind lem :=
  apply wp_bind; eapply wp_mono; [lem | cbn beta | intros ? ? ?; assumption].

Lemma stable_epoch (save_dir : string) (trl val : DataLoader) (epochs epoch : nat)
    (st : ClassifierLocals) w :
  safe w -> opt_target (c_optimizer st) = classifier ->
  wp (classifier_epoch save_dir siamese classifier pw trl val epochs epoch st)
     (fun st' w' => safe w' /\ opt_target (c_optimizer st') = classifier)
     (fun _ w' => safe w') w.
Proof.
  intros Hs Ht. unfold classifier_epoch.
  stable_bind ltac:(apply stable_set_training, Hs). intros _ w1 H1.
  stable_bind ltac:(
    apply (wp_foldM (classifier_train_batch siamese classifier pw)
             (fun _ acc w' => safe w' /\ opt_target acc.2 = classifier)
             (fun _ w' => safe w') (dl_batches trl epoch)
             ltac:(intros ? ? ? ? [? ?]; apply stable_train_batch; assumption)
             [] (pass_init, c_optimizer st) w1 (conj H1 Ht))).
  intros [tr optimizer] w2 [H2 Ht2]. cbn [snd] in Ht2.
  apply wp_bind, wp_lift. destruct (float_div_int _ _); [|exact H2].
  apply wp_bind, wp_lift. destruct (int_truediv _ _); [|exact H2].
  stable_bind ltac:(apply stable_auroc_and_report, H2). intros train_auroc w3 H3.
  stable_bind ltac:(apply stable_set_training, H3). intros _ w4 H4.
  stable_bind ltac:(
    apply (wp_foldM (classifier_val_batch siamese classifier pw)
             (fun _ _ w' => safe w') (fun _ w' => safe w') (dl_batches val epoch)
             ltac:(intros ? ? ? ? ?; apply stable_val_batch; assumption)
             [] pass_init w4 H4)).
  intros va w5 H5.
  apply wp_bind, wp_lift. destruct (float_div_int _ _); [|exact H5].
  apply wp_bind, wp_lift. destruct (int_truediv _ _); [|exact H5].
  stable_bind ltac:(apply stable_auroc_and_report, H5). intros val_auroc w6 H6.
  do 4 apply wp_bind, wp_print.
  stable_bind ltac:(apply stable_checkpoint; repeat apply safe_stdout; exact H6).
  intros best' w7 H7. apply wp_ret. split; [exact H7|exact Ht2].
Qed.

Lemma stable_loop (save_dir : string) (trl val : DataLoader) (epochs : nat) n start
    (st : ClassifierLocals) w :
  safe w -> opt_target (c_optimizer st) = classifier ->
  stable (classifier_loop save_dir siamese classifier pw trl val epochs start n st) w.
Proof.
  intros Hs Ht. unfold classifier_loop.
  eapply wp_mono;
    [ apply (wp_for_range _
               (fun _ st' w' => safe w' /\ opt_target (c_optimizer st') = classifier)
               (fun _ w' => safe w') n start)
    | intros st' w' [H _]; exact H | auto ].
  - intros i st1 w1 _ [H1 Ht1]. apply stable_epoch; assumption.
  - split; assumption.
Qed.

Lemma stable_finish (save_dir : string) (plots : bool) (st : ClassifierLocals) w :
  safe w -> stable (classifier_finish save_dir classifier plots st) w.
Proof.
  intros Hs. unfold classifier_finish.
  apply wp_bind, wp_state_dict; [|intros _; exact Hs].
  intros m Hm. apply wp_bind, wp_torch_save, wp_bind, wp_print.
  assert (H1 : safe (add_stdout "Classifier Training complete. Models saved."
                       (add_event (EvSave (os_path_join save_dir classifier_final_name)
                                     (m_params m))
                          (put_file (os_path_join save_dir classifier_final_name)
                             (m_params m) w))))
    by (apply safe_stdout, safe_event; [apply safe_put_file, Hs|exact I]).
  destruct plots; [|apply wp_ret, H1].
  apply wp_bind, wp_emit, wp_bind, wp_emit, wp_emit.
  do 3 (apply safe_event; [|exact I]). exact H1.
Qed.

End Safe.

Lemma wp_final_world {A} (m : M A) (P : World -> Prop) w :
  wp m (fun _ w' => P w') (fun _ w' => P w') w -> P (final_world (m w)).
Proof. unfold wp, final_world. destruct (m w); auto. Qed.

(** The positive-class weight of a run, from the class counts of the
    whole training set. *)
Lemma classifier_train_safe (current_dir : string) (trl val : DataLoader)
    (images : Tensor) (siamese epochs : nat) (plots : bool) w0 m0 :
  w_mods w0 !! siamese = Some m0 ->
  cls_safe siamese (length (w_mods w0))
    (tensor [PrimFloat.div (PyFloat.of_nat (benign_count trl))
                           (PyFloat.of_nat (malignant_count trl))])
    (mkModule (m_arch m0) (m_params m0) false torch_device)
    (w_trace w0 ++ [EvMode siamese false; EvMode (length (w_mods w0)) true])
    (final_world (classifier_train current_dir trl val images siamese epochs plots w0)).
Proof.
  intros Hm0. apply wp_final_world. unfold classifier_train.
  assert (Hv : siamese < length (w_mods w0)) by (eapply lookup_lt_Some, Hm0).
  assert (Hne : siamese <> length (w_mods w0)) by lia.
  apply wp_bind. eapply wp_mono; [apply classifier_setup_spec| |].
  2:{ intros e w' (_ & Hn & _). exfalso. apply Hn. exact Hv. }
  intros [classifier opt] w1 (Hc & Ht & _ & _ & (ms & Hms & Hs1) & _ & Htr1 & _).
  cbn [fst snd] in *. subst classifier. rewrite Hm0 in Hms. injection Hms as <-.
  assert (Hsafe1 : cls_safe siamese (length (w_mods w0))
            (tensor [PrimFloat.div (PyFloat.of_nat (benign_count trl))
                                   (PyFloat.of_nat (malignant_count trl))])
            (mkModule (m_arch m0) (m_params m0) false torch_device)
            (w_trace w0 ++ [EvMode siamese false; EvMode (length (w_mods w0)) true]) w1).
  { split; [exact Hs1|]. exists []. rewrite app_nil_r. split; [exact Htr1|constructor]. }
  apply wp_bind. eapply wp_mono; [apply compute_pos_weight_spec| |].
  2:{ intros e w' (-> & _). exact Hsafe1. }
  intros pw w1' (-> & _ & ->). cbn beta.
  apply wp_bind. eapply wp_mono;
    [apply (stable_loop siamese (length (w_mods w0))
              (tensor [PrimFloat.div (PyFloat.of_nat (benign_count trl))
                                     (PyFloat.of_nat (malignant_count trl))])
              (mkModule (m_arch m0) (m_params m0) false torch_device)
              (w_trace w0 ++ [EvMode siamese false; EvMode (length (w_mods w0)) true])
              Hne eq_refl);
     [exact Hsafe1|exact Ht] | cbn beta | auto].
  intros st w2 H2.
  apply (stable_finish siamese (length (w_mods w0))
           (tensor [PrimFloat.div (PyFloat.of_nat (benign_count trl))
                                  (PyFloat.of_nat (malignant_count trl))])
           (mkModule (m_arch m0) (m_params m0) false torch_device)
           (w_trace w0 ++ [EvMode siamese false; EvMode (length (w_mods w0)) true])).
  exact H2.
Qed.

(** C8. Throughout classifier_train the embedding model passed in is
    frozen: before anything else it is put in eval mode; every call of it
    afterwards is made in eval mode and inside [torch.no_grad()]; the
    optimizer only ever steps the parameters of the classifier, a new
    object; and when the run ends, normally or not, the embedding model
    holds the parameters it was passed in with. *)
Theorem siamese_frozen (current_dir : string) (trl val : DataLoader)
    (images : Tensor) (siamese epochs : nat) (plots : bool) w0 m0 :
  w_mods w0 !! siamese = Some m0 ->
  let classifier := length (w_mods w0) in
  let w' := final_world
              (classifier_train current_dir trl val images siamese epochs plots w0) in
  siamese <> classifier /\
  w_mods w' !! siamese = Some (mkModule (m_arch m0) (m_params m0) false torch_device) /\
  exists seg,
    w_trace w' = w_trace w0 ++ EvMode siamese false :: EvMode classifier true :: seg /\
    Forall (fun e => match e with
                     | EvForward r training grad =>
                         r = siamese -> training = false /\ grad = false
                     | EvMode r training => r = siamese -> training = false
                     | EvOptimStep r => r = classifier
                     | _ => True
                     end) seg.
Proof.
  intros Hm0 classifier w'.
  destruct (classifier_train_safe current_dir trl val images siamese epochs plots
              w0 m0 Hm0) as (Hm & seg & Htr & Hall).
  split; [apply lookup_lt_Some in Hm0; unfold classifier; lia|].
  split; [exact Hm|]. exists seg. split.
  - unfold w'. rewrite Htr, <- app_assoc. reflexivity.
  - eapply Forall_impl; [exact Hall|]. intros [] He; cbn in *; auto.
Qed.

Lemma classifier_train_no_malignant (current_dir : string) (trl val : DataLoader)
    (images : Tensor) (siamese epochs : nat) (plots : bool) w0 m0 :
  w_mods w0 !! siamese = Some m0 ->
  malignant_count trl = 0 ->
  exists w',
    classifier_train current_dir trl val images siamese epochs plots w0
      = Raised ZeroDivisionError w' /\
    w_trace w' = w_trace w0 ++ [EvMode siamese false; EvMode (length (w_mods w0)) true] /\
    w_fs w' = w_fs w0 /\
    w_stdout w' = w_stdout w0 ++ ["Training classifier"].
Proof.
  intros Hm0 Hz. unfold classifier_train, mbind, M_bind, bind.
  pose proof (classifier_setup_spec siamese w0) as Hsetup. unfold wp in Hsetup.
  destruct (classifier_setup siamese w0) as [[classifier opt] w1|e w1].
  - destruct Hsetup as (Hc & _ & _ & _ & _ & Hf & Htr & Hout). cbn [fst] in *.
    subst classifier.
    pose proof (compute_pos_weight_spec trl w1) as Hpw. unfold wp in Hpw.
    destruct (compute_pos_weight trl w1) as [pw w1'|e w1'].
    + destruct Hpw as (_ & Hnz & _). congruence.
    + destruct Hpw as (-> & -> & _). exists w1. auto.
  - destruct Hsetup as (_ & Hn & _). exfalso. apply Hn.
    eapply lookup_lt_Some, Hm0.
Qed.


Lemma compute_pos_weight_defined (trl : DataLoader) w :
  malignant_count trl <> 0 ->
  compute_pos_weight trl w =
    Returned (tensor [PrimFloat.div (PyFloat.of_nat (benign_count trl))
                                    (PyFloat.of_nat (malignant_count trl))]) w.
Proof.
  intros Hnz. pose proof (compute_pos_weight_spec trl w) as Hpw. unfold wp in Hpw.
  destruct (compute_pos_weight trl w) as [pw w'|e w'].
  - destruct Hpw as (-> & _ & ->). reflexivity.
  - destruct Hpw as (_ & _ & Hz). congruence.
Qed.

(** C10. classifier_train needs a malignant sample in the training set:
    with none, the division that gives the positive-class weight raises
    ZeroDivisionError and the run ends there, having only set up the two
    models (no epoch has begun: no batch was read, nothing was saved); with
    at least one, the division is defined and gives the weight. *)
Theorem no_malignant_sample_aborts (current_dir : string) (trl val : DataLoader)
    (images : Tensor) (siamese epochs : nat) (plots : bool) w0 m0 :
  w_mods w0 !! siamese = Some m0 ->
  (malignant_count trl = 0 ->
   exists w',
     classifier_train current_dir trl val images siamese epochs plots w0
       = Raised ZeroDivisionError w' /\
     w_trace w' = w_trace w0 ++ [EvMode siamese false; EvMode (length (w_mods w0)) true] /\
     w_fs w' = w_fs w0 /\
     w_stdout w' = w_stdout w0 ++ ["Training classifier"]) /\
  (malignant_count trl <> 0 ->
   forall w, compute_pos_weight trl w =
     Returned (tensor [PrimFloat.div (PyFloat.of_nat (benign_count trl))
                                     (PyFloat.of_nat (malignant_count trl))]) w).
Proof.
  intros Hm0. split.
  - intros Hz. eapply classifier_train_no_malignant; eassumption.
  - intros Hnz w. apply compute_pos_weight_defined, Hnz.
Qed.


(** ** Mean losses *)

Lemma float_div_int_Ok (a : float) (n : nat) (t : float) :
  float_div_int a n = Ok t -> n <> 0 /\ t = PrimFloat.div a (PyFloat.of_nat n).
Proof.
  destruct (float_div_int_cases a n) as [[_ H]|[Hn H]]; rewrite H; intros E.
  - discriminate E.
  - injection E as <-. auto.
Qed.

(** C4. In both stages, an epoch that runs through has read one value by
    [loss.item()] per batch of its training (validation) pass, whatever
    the size of the batch, and records as its mean training (validation)
    loss the running sum of these values, from 0.0, divided by [len] of the
    loader, its number of batches, which is then not zero.  For two batches
    of loss 0.8 and 0.4 the mean is 0.6 to within 1e-7: so it is for the
    two floats 0.8 and 0.4, and so it is for their float32 neighbours,
    which [loss.item()] gives for a float32 loss tensor. *)
Theorem mean_epoch_loss (current_dir save_dir : string) (trl val : DataLoader)
    (epochs epoch : nat) :
  (forall (model : nat) (plots : bool) st w st' w',
     opt_target (s_optimizer st) = model ->
     siamese_epoch current_dir save_dir model trl val epochs plots epoch st w
       = Returned st' w' ->
     exists ls_tr ls_va,
       items (w_trace w') = items (w_trace w) ++ ls_tr ++ ls_va /\
       length ls_tr = length (dl_batches trl epoch) /\
       length ls_va = length (dl_batches val epoch) /\
       dl_len trl <> 0 /\ dl_len val <> 0 /\
       s_train_losses st' = s_train_losses st
         ++ [PrimFloat.div (running_sum ls_tr) (PyFloat.of_nat (dl_len trl))] /\
       s_val_losses st' = s_val_losses st
         ++ [PrimFloat.div (running_sum ls_va) (PyFloat.of_nat (dl_len val))]) /\
  (forall (siamese classifier : nat) (pw : Tensor) st w st' w',
     opt_target (c_optimizer st) = classifier ->
     classifier_epoch save_dir siamese classifier pw trl val epochs epoch st w
       = Returned st' w' ->
     exists ls_tr ls_va,
       items (w_trace w') = items (w_trace w) ++ ls_tr ++ ls_va /\
       length ls_tr = length (dl_batches trl epoch) /\
       length ls_va = length (dl_batches val epoch) /\
       dl_len trl <> 0 /\ dl_len val <> 0 /\
       c_train_losses st' = c_train_losses st
         ++ [PrimFloat.div (running_sum ls_tr) (PyFloat.of_nat (dl_len trl))] /\
       c_val_losses st' = c_val_losses st
         ++ [PrimFloat.div (running_sum ls_va) (PyFloat.of_nat (dl_len val))]) /\
  (forall ls : list float,
     ls = [0.8; 0.4]%float \/ ls = [0x1.99999ap-1; 0x1.99999ap-2]%float ->
     PrimFloat.ltb
       (PrimFloat.abs
          (PrimFloat.sub (PrimFloat.div (running_sum ls) (PyFloat.of_nat 2)) 0.6%float))
       1e-7%float = true).
Proof.
  split; [|split].
  - intros model plots st w st' w' Ht Hep.
    pose proof (wp_returned _ _ _ _ _ _
                  (siamese_epoch_spec current_dir save_dir model trl val epochs plots
                     epoch st w Ht) Hep) as [Hpost _].
    destruct Hpost as (ls_tr & ls_va & t & v & Hn1 & Hn2 & Hi & Hd1 & Hd2 & Htl & Hvl & _).
    apply float_div_int_Ok in Hd1 as [Hz1 ->], Hd2 as [Hz2 ->].
    exists ls_tr, ls_va. rewrite Htl, Hvl. repeat split; assumption.
  - intros siamese classifier pw st w st' w' Ht Hep.
    pose proof (wp_returned _ _ _ _ _ _
                  (classifier_epoch_spec save_dir siamese classifier pw trl val epochs
                     epoch st w Ht) Hep) as [Hpost _].
    destruct Hpost as (tr & va & ls_tr & ls_va & t & v & acc_t & acc_v & Hpost).
    cbn zeta in Hpost.
    destruct Hpost as (Hn1 & Hn2 & Hi & Hs1 & Hs2 & _ & _ & Hd1 & Hd2 & _ & _ & _ & _
                       & Htl & Hvl & _).
    apply float_div_int_Ok in Hd1 as [Hz1 ->], Hd2 as [Hz2 ->].
    exists ls_tr, ls_va. rewrite Htl, Hvl, Hs1, Hs2. repeat split; assumption.
  - intros ls [->| ->]; vm_compute; reflexivity.
Qed.

(** ** AUROC and the classification report *)

Lemma auroc_value_single_class (labels probs : list float) :
  roc_auc_score labels probs = Err ValueError ->
  auroc_value labels probs = PyFloat.nan /\
  auroc_escape labels probs = None /\
  forall header, report_lines header labels probs = [].
Proof.
  intros H. unfold auroc_value, auroc_escape, report_lines. rewrite H. auto.
Qed.

(** What the loop of classifier_train leaves in its AUROC histories when
    it returns. *)
Lemma classifier_loop_aurocs (save_dir : string) (siamese classifier : nat) (pw : Tensor)
    (trl val : DataLoader) (epochs : nat) (opt : Optimizer) w :
  opt_target opt = classifier ->
  wp (classifier_loop save_dir siamese classifier pw trl val epochs 0 epochs
        (classifier_init opt))
     (fun st w' =>
        length (c_train_aurocs st) = epochs /\ length (c_val_aurocs st) = epochs /\
        forall k, k < epochs ->
          (exists probs',
             c_train_aurocs st !! k
               = Some (auroc_value (epoch_labels (dl_batches trl k)) probs')) /\
          (exists probs',
             c_val_aurocs st !! k
               = Some (auroc_value (epoch_labels (dl_batches val k)) probs')))
     (fun _ _ => True) w.
Proof.
  intros Ht. unfold classifier_loop.
  eapply wp_mono;
    [ apply (wp_for_range _
               (fun i st w' =>
                  opt_target (c_optimizer st) = classifier /\
                  length (c_train_aurocs st) = i /\ length (c_val_aurocs st) = i /\
                  forall k, k < i ->
                    (exists probs', c_train_aurocs st !! k
                       = Some (auroc_value (epoch_labels (dl_batches trl k)) probs')) /\
                    (exists probs', c_val_aurocs st !! k
                       = Some (auroc_value (epoch_labels (dl_batches val k)) probs')))
               (fun _ _ => True) epochs 0)
    | | auto ].
  - intros i st1 w1 Hi (Ht1 & Hlt & Hlv & Hk).
    eapply wp_mono; [apply (classifier_epoch_spec save_dir siamese), Ht1 | | auto].
    intros st2 w2 [Hpost Ht2].
    destruct Hpost as (tr & va & ls_tr & ls_va & t & v & acc_t & acc_v & Hpost).
    cbn zeta in Hpost.
    destruct Hpost as (_&_&_&_&_& Hlab1 & Hlab2 &_&_&_&_&_&_&_&_&_&_& Hta & Hva &_).
    split; [exact Ht2|].
    rewrite Hta, Hva, !length_app, Hlt, Hlv. cbn [length].
    split; [lia|]. split; [lia|].
    intros k Hk'. destruct (decide (k = i)) as [->|Hne].
    + rewrite !list_lookup_middle by congruence.
      rewrite <- Hlab1, <- Hlab2. eauto.
    + destruct (Hk k ltac:(lia)) as [[p1 H1] [p2 H2]].
      rewrite !lookup_app_l by lia. eauto.
  - cbn [classifier_init c_optimizer c_train_aurocs c_val_aurocs length].
    repeat split; try assumption; try reflexivity; lia.
  - intros st w' (_ & Hlt & Hlv & Hk). cbn [Nat.add] in *.
    split; [exact Hlt|]. split; [exact Hlv|].
    exact Hk.
Qed.

(** C6. The [try] around [roc_auc_score] turns its [ValueError] into NaN
    on the spot: nothing is raised, nothing is printed, and whatever
    follows the [try] runs as it would after an AUROC of NaN, from the
    world the [try] was entered in.  So, with an sklearn that raises
    [ValueError] on labels of one class, a loop of classifier_train that
    returns has gone through all its epochs, and every epoch whose training
    (validation) labels are of one class has NaN recorded as its training
    (validation) AUROC. *)
Theorem auroc_failure_recovered (save_dir : string) (siamese classifier : nat)
    (pw : Tensor) (trl val : DataLoader) (epochs : nat) (opt : Optimizer) w :
  (forall header labels probs w0,
     roc_auc_score labels probs = Err ValueError ->
     auroc_and_report header labels probs w0 = Returned PyFloat.nan w0) /\
  (forall (B : Type) (rest : float -> M B) header labels probs w0,
     roc_auc_score labels probs = Err ValueError ->
     (auroc ← auroc_and_report header labels probs; rest auroc) w0
     = rest PyFloat.nan w0) /\
  (opt_target opt = classifier ->
   (forall labels probs, single_class labels = true ->
      roc_auc_score labels probs = Err ValueError) ->
   forall st w',
     classifier_loop save_dir siamese classifier pw trl val epochs 0 epochs
       (classifier_init opt) w = Returned st w' ->
     length (c_train_aurocs st) = epochs /\ length (c_val_aurocs st) = epochs /\
     forall k, k < epochs ->
       (single_class (epoch_labels (dl_batches trl k)) = true ->
        c_train_aurocs st !! k = Some PyFloat.nan) /\
       (single_class (epoch_labels (dl_batches val k)) = true ->
        c_val_aurocs st !! k = Some PyFloat.nan)).
Proof.
  assert (Htry : forall header labels probs w0,
            roc_auc_score labels probs = Err ValueError ->
            auroc_and_report header labels probs w0 = Returned PyFloat.nan w0).
  { intros header labels probs w0 H.
    unfold auroc_and_report, try_except_ValueError, mbind, M_bind, bind.
    rewrite H. reflexivity. }
  split; [exact Htry|]. split.
  - intros B rest header labels probs w0 H.
    unfold mbind, M_bind, bind. rewrite (Htry header labels probs w0 H). reflexivity.
  - intros Ht Hsk st w' Hrun.
    pose proof (wp_returned _ _ _ _ _ _
                  (classifier_loop_aurocs save_dir siamese classifier pw trl val epochs
                     opt w Ht) Hrun) as (Hlt & Hlv & Hk).
    split; [exact Hlt|]. split; [exact Hlv|].
    intros k Hk'. destruct (Hk k Hk') as [[p1 H1] [p2 H2]].
    split; intros Hsc.
    + rewrite H1. f_equal. apply auroc_value_single_class, Hsk, Hsc.
    + rewrite H2. f_equal. apply auroc_value_single_class, Hsk, Hsc.
Qed.

(** C7, as the code has it.  An epoch of classifier_train prints, for
    the training split and then for the validation split, the lines
    [report_lines]: the header and [classification_report(labels, binary,
    zero_division=0)] when [roc_auc_score] succeeded on the split, and
    nothing at all when [roc_auc_score] raised; the five summary lines
    follow. *)
Theorem classification_report_printed (save_dir : string) (siamese classifier : nat)
    (pw : Tensor) (trl val : DataLoader) (epochs epoch : nat) st w st' w' :
  opt_target (c_optimizer st) = classifier ->
  classifier_epoch save_dir siamese classifier pw trl val epochs epoch st w
    = Returned st' w' ->
  (exists probs_tr probs_va summary,
     w_stdout w' = w_stdout w
       ++ report_lines train_report_header (epoch_labels (dl_batches trl epoch)) probs_tr
       ++ report_lines val_report_header (epoch_labels (dl_batches val epoch)) probs_va
       ++ summary /\
     length summary = 5) /\
  (forall header labels probs,
     match roc_auc_score labels probs with
     | Ok _ =>
         match classification_report labels (binarise probs) 0 with
         | Ok report => report_lines header labels probs = [header; report]
         | Err _ => report_lines header labels probs = [header]
         end
     | Err _ => report_lines header labels probs = []
     end).
Proof.
  intros Ht Hep. split.
  - pose proof (wp_returned _ _ _ _ _ _
                  (classifier_epoch_spec save_dir siamese classifier pw trl val epochs
                     epoch st w Ht) Hep) as [Hpost _].
    destruct Hpost as (tr & va & ls_tr & ls_va & t & v & acc_t & acc_v & Hpost).
    cbn zeta in Hpost.
    destruct Hpost as (_&_&_&_&_& Hlab1 & Hlab2 &_&_&_&_&_&_&_&_&_&_&_&_& Hout & _).
    rewrite Hlab1, Hlab2 in Hout.
    eexists _, _, _. split; [exact Hout|reflexivity].
  - intros header labels probs. unfold report_lines.
    destruct (roc_auc_score labels probs); [|reflexivity].
    destruct (classification_report labels (binarise probs) 0); reflexivity.
Qed.

(** * The effect of an epoch, in full *)

(** ** Rules for calls on a known module *)

Lemma wp_call_train r (grad : bool) (x : Tensor) Q E w m :
  w_mods w !! r = Some m -> m_training m = true ->
  Q (forward_train (m_arch m) (m_params m) x).1
    (put_mod r (with_state m (forward_train (m_arch m) (m_params m) x).2 true)
       (add_event (EvForward r true grad) w)) ->
  wp (mod_call r grad x) Q E w.
Proof.
  intros Hm Ht HQ. apply wp_mod_call.
  - intros m' Hm'. rewrite Hm in Hm'. injection Hm' as <-. cbn zeta. rewrite Ht. exact HQ.
  - intros Hn. congruence.
Qed.

Lemma wp_call_eval r (grad : bool) (x : Tensor) Q E w m :
  w_mods w !! r = Some m -> m_training m = false ->
  Q (forward_eval (m_arch m) (m_params m) x) (add_event (EvForward r false grad) w) ->
  wp (mod_call r grad x) Q E w.
Proof.
  intros Hm Ht HQ. apply wp_mod_call.
  - intros m' Hm'. rewrite Hm in Hm'. injection Hm' as <-. cbn zeta. rewrite Ht. exact HQ.
  - intros Hn. congruence.
Qed.

Lemma wp_step_known (opt : Optimizer) (loss : Tensor) Q E w m :
  w_mods w !! opt_target opt = Some m ->
  (let ps := adam_step (opt_lr opt) (opt_weight_decay opt) (opt_state opt)
                       (backward loss) (m_params m) in
   Q (mkOptimizer (opt_target opt) (opt_lr opt) (opt_weight_decay opt) ps.2)
     (add_event (EvOptimStep (opt_target opt))
        (put_mod (opt_target opt) (with_state m ps.1 (m_training m)) w))) ->
  wp (optimizer_step opt loss) Q E w.
Proof.
  intros Hm HQ. apply wp_optimizer_step.
  - intros m' Hm'. rewrite Hm in Hm'. injection Hm' as <-. exact HQ.
  - intros Hn. congruence.
Qed.

Lemma wp_set_training_known r (b : bool) Q E w m :
  w_mods w !! r = Some m ->
  Q tt (add_event (EvMode r b) (put_mod r (with_state m (m_params m) b) w)) ->
  wp (mod_set_training r b) Q E w.
Proof.
  intros Hm HQ. apply wp_mod_set_training.
  - intros m' Hm'. rewrite Hm in Hm'. injection Hm' as <-. exact HQ.
  - intros Hn. congruence.
Qed.

Lemma wp_state_dict_known r Q E w m :
  w_mods w !! r = Some m -> Q (m_params m) w -> wp (state_dict r) Q E w.
Proof.
  intros Hm HQ. apply wp_state_dict.
  - intros m' Hm'. rewrite Hm in Hm'. injection Hm' as <-. exact HQ.
  - intros Hn. congruence.
Qed.

Lemma with_state_id m : with_state m (m_params m) (m_training m) = m.
Proof. destruct m; reflexivity. Qed.

Lemma lookup_put r m (l : list Module_) m0 :
  l !! r = Some m0 -> <[r := m]> l !! r = Some m.
Proof. intros H. apply list_lookup_insert_eq. eapply lookup_lt_Some, H. Qed.

Ltac wsimpl2 :=
  cbn [w_mods w_fs w_stdout w_trace add_stdout add_event put_mod alloc_mod put_file
       fst snd with_state m_arch m_params m_training m_device
       opt_target opt_lr opt_weight_decay opt_state] in *.

Ltac wnorm :=
  unfold add_stdout, add_event, put_mod, alloc_mod, put_file, with_state;
  cbn [w_mods w_fs w_stdout w_trace fst snd m_arch m_params m_training m_device
       opt_target opt_lr opt_weight_decay opt_state].

(** ** The passes of siamese_train *)

Lemma flat_map_snoc {A B} (f : A -> list B) (l : list A) (x : A) :
  flat_map f (l ++ [x]) = flat_map f l ++ f x.
Proof. rewrite flat_map_app. cbn. rewrite app_nil_r. reflexivity. Qed.

Lemma running_sum_snoc (ls : list float) (v : float) :
  running_sum (ls ++ [v]) = PrimFloat.add (running_sum ls) v.
Proof. unfold running_sum. rewrite fold_left_app. reflexivity. Qed.

(** The training pass, from a world where [model] is in train mode: it
    cannot fail, and leaves the world it found but for the parameters of
    [model] and the calls of [siamese_train_events]. *)
Lemma siamese_train_pass_effect (model : nat) (opt : Optimizer) bs w m :
  w_mods w !! model = Some m -> m_training m = true -> opt_target opt = model ->
  wp (foldM (siamese_train_batch model) (0%float, opt) bs)
     (fun acc w' => exists ls p s,
        length ls = length bs /\
        acc = (running_sum ls,
               mkOptimizer model (opt_lr opt) (opt_weight_decay opt) s) /\
        w' = mkWorld (<[model := with_state m p true]> (w_mods w)) (w_fs w) (w_stdout w)
                     (w_trace w ++ siamese_train_events model ls))
     (fun _ _ => False) w.
Proof.
  intros Hm Ht Ho.
  refine (wp_foldM (siamese_train_batch model)
            (fun done acc w' => exists ls p s,
               length ls = length done /\
               acc = (running_sum ls,
                      mkOptimizer model (opt_lr opt) (opt_weight_decay opt) s) /\
               w' = mkWorld (<[model := with_state m p true]> (w_mods w)) (w_fs w)
                            (w_stdout w) (w_trace w ++ siamese_train_events model ls))
            _ bs _ [] (0%float, opt) w _).
  - intros done acc [images labels] w1 (ls & p & s & Hl & -> & ->). cbn beta.
    unfold siamese_train_batch.
    apply wp_bind. eapply wp_call_train; [apply (lookup_put _ _ _ _ Hm)|reflexivity|].
    wsimpl2. apply wp_bind, wp_emit, wp_bind.
    eapply wp_step_known; [wsimpl2; rewrite list_insert_insert_eq; apply (lookup_put _ _ _ _ Hm)|].
    cbn zeta. wsimpl2. apply wp_bind, wp_loss_item, wp_ret. wsimpl2.
    eexists (ls ++ [_]), _, _. split; [rewrite !length_app, Hl; reflexivity|].
    split; [rewrite running_sum_snoc; reflexivity|].
    wnorm. rewrite !list_insert_insert_eq. unfold siamese_train_events.
    rewrite flat_map_snoc, <- !app_assoc. reflexivity.
  - exists [], (m_params m), (opt_state opt). split; [reflexivity|].
    split; [destruct opt; cbn in *; subst; reflexivity|].
    rewrite <- Ht, with_state_id, list_insert_id by exact Hm.
    cbn. rewrite app_nil_r. destruct w; reflexivity.
Qed.

(** The validation pass, from a world where [model] is in eval mode: it
    cannot fail, it changes no module, so no parameter, and it only adds
    the calls of [siamese_val_events]. *)
Lemma siamese_val_pass_effect (model : nat) bs w m :
  w_mods w !! model = Some m -> m_training m = false ->
  wp (foldM (siamese_val_batch model) (0%float, [], []) bs)
     (fun acc w' => exists ls,
        length ls = length bs /\
        acc.1.1 = running_sum ls /\ length acc.1.2 = length bs /\
        acc.2 = batch_labels bs /\
        w' = mkWorld (w_mods w) (w_fs w) (w_stdout w)
                     (w_trace w ++ siamese_val_events model ls))
     (fun _ _ => False) w.
Proof.
  intros Hm Ht.
  refine (wp_foldM (siamese_val_batch model)
            (fun done acc w' => exists ls,
               length ls = length done /\
               acc.1.1 = running_sum ls /\ length acc.1.2 = length done /\
               acc.2 = batch_labels done /\
               w' = mkWorld (w_mods w) (w_fs w) (w_stdout w)
                            (w_trace w ++ siamese_val_events model ls))
            _ bs _ [] (0%float, [], []) w _).
  - intros done [[val_loss embs] labs] [images labels] w1 (ls & Hl & Hs & He & Hb & ->).
    cbn [fst snd] in *. cbn beta. unfold siamese_val_batch.
    apply wp_bind. eapply wp_call_eval; [exact Hm|exact Ht|].
    wsimpl2. apply wp_bind, wp_emit, wp_bind, wp_loss_item, wp_ret. wsimpl2.
    eexists (ls ++ [_]). rewrite !length_app, Hl, He, running_sum_snoc, Hs, Hb.
    repeat split.
    + unfold batch_labels. rewrite map_app, concat_app. cbn. rewrite app_nil_r. reflexivity.
    + wnorm. unfold siamese_val_events. rewrite flat_map_snoc, <- !app_assoc. reflexivity.
  - exists []. cbn. rewrite app_nil_r. repeat split. destruct w; reflexivity.
Qed.

(** ** An epoch of siamese_train *)

Ltac solve_lookup := wnorm; repeat (first [eassumption | eapply lookup_put]).

Ltac list_norm := rewrite <- ?app_assoc; cbn [app].

(** The whole effect of an epoch of [siamese_train] on its locals and on
    the world; when it raises, it has written and printed nothing. *)
Lemma siamese_epoch_effect (current_dir save_dir : string) (model : nat)
    (trl val : DataLoader) (epochs : nat) (plots : bool) (epoch : nat)
    (st : SiameseLocals) w m :
  w_mods w !! model = Some m -> opt_target (s_optimizer st) = model ->
  wp (siamese_epoch current_dir save_dir model trl val epochs plots epoch st)
     (fun st' w' => exists ls_tr ls_va t v p s embs,
        length ls_tr = length (dl_batches trl epoch) /\
        length ls_va = length (dl_batches val epoch) /\
        float_div_int (running_sum ls_tr) (dl_len trl) = Ok t /\
        float_div_int (running_sum ls_va) (dl_len val) = Ok v /\
        let improved := PyFloat.lt v (s_best_loss st) in
        let sched := plateau_step (s_scheduler st) v (opt_lr (s_optimizer st)) in
        let optimizer :=
          mkOptimizer model sched.2 (opt_weight_decay (s_optimizer st)) s in
        st' = mkSiameseLocals optimizer sched.1
                (if improved then v else s_best_loss st)
                (s_train_losses st ++ [t]) (s_val_losses st ++ [v]) /\
        w' = mkWorld
               (<[model := with_state m p false]> (w_mods w))
               (if improved
                then <[os_path_join save_dir siamese_best_name := p]> (w_fs w)
                else w_fs w)
               (w_stdout w ++
                [epoch_line epoch epochs t v; lr_line optimizer;
                 if improved then "Validation loss decreased. Saving model."
                 else "No improvement in validation loss."])
               (w_trace w ++
                siamese_epoch_events current_dir save_dir model plots epoch
                  (batch_labels (dl_batches val epoch)) ls_tr ls_va
                  (if improved then Some p else None) embs))
     (fun e w' => e = ZeroDivisionError /\ (dl_len trl = 0 \/ dl_len val = 0) /\
                  w_fs w' = w_fs w /\ w_stdout w' = w_stdout w) w.
Proof.
  intros Hm Ho. unfold siamese_epoch, mod_train, mod_eval.
  apply wp_bind. eapply wp_set_training_known; [exact Hm|].
  apply wp_bind. eapply wp_mono;
    [eapply (siamese_train_pass_effect model (s_optimizer st)); [solve_lookup|reflexivity|exact Ho]
    | | intros ? ? []].
  intros [epoch_loss optimizer] w2 (ls_tr & p1 & s & Hl1 & Hacc & ->).
  injection Hacc as -> ->. cbn beta iota.
  apply wp_bind, wp_lift.
  destruct (float_div_int (running_sum ls_tr) (dl_len trl)) as [t|e] eqn:Ht.
  2:{ unfold float_div_int in Ht. destruct (dl_len trl); [|discriminate].
      injection Ht as <-. wnorm. auto. }
  apply wp_bind. eapply wp_set_training_known; [solve_lookup|].
  apply wp_bind. eapply wp_mono;
    [eapply siamese_val_pass_effect; [solve_lookup|reflexivity] | | intros ? ? []].
  intros [[val_loss embs] labs] w3 (ls_va & Hl2 & Hs & He & Hlab & ->).
  cbn [fst snd] in Hs, He, Hlab. subst val_loss labs. cbn beta iota.
  apply wp_bind, wp_lift.
  destruct (float_div_int (running_sum ls_va) (dl_len val)) as [v|e] eqn:Hv.
  2:{ unfold float_div_int in Hv. destruct (dl_len val); [|discriminate].
      injection Hv as <-. wnorm. auto. }
  apply wp_bind, wp_print. wsimpl2.
  destruct (plateau_step (s_scheduler st) v (opt_lr (s_optimizer st))) as [sc lr'] eqn:Hps.
  apply wp_bind, wp_print, wp_bind. unfold siamese_checkpoint.
  destruct (PyFloat.lt v (s_best_loss st)) eqn:Hlt.
  - apply wp_bind. eapply wp_state_dict_known; [solve_lookup|].
    apply wp_bind, wp_torch_save, wp_bind, wp_print, wp_ret.
    destruct plots.
    + apply wp_bind, wp_emit, wp_ret.
      exists ls_tr, ls_va, t, v. do 3 eexists.
      do 4 (split; [first [eassumption | reflexivity]|]). cbn zeta.
      rewrite Hps, Hlt. cbn [fst snd]. split; [reflexivity|].
      wnorm. unfold siamese_epoch_events. rewrite !list_insert_insert_eq.
      list_norm. reflexivity.
    + apply wp_bind, wp_ret, wp_ret.
      exists ls_tr, ls_va, t, v. eexists _, _, (cat embs).
      do 4 (split; [first [eassumption | reflexivity]|]). cbn zeta.
      rewrite Hps, Hlt. cbn [fst snd]. split; [reflexivity|].
      wnorm. unfold siamese_epoch_events. rewrite !list_insert_insert_eq.
      list_norm. rewrite ?app_nil_r. reflexivity.
  - apply wp_bind, wp_print, wp_ret.
    destruct plots.
    + apply wp_bind, wp_emit, wp_ret.
      exists ls_tr, ls_va, t, v. do 3 eexists.
      do 4 (split; [first [eassumption | reflexivity]|]). cbn zeta.
      rewrite Hps, Hlt. cbn [fst snd]. split; [reflexivity|].
      wnorm. unfold siamese_epoch_events. rewrite !list_insert_insert_eq.
      list_norm. reflexivity.
    + apply wp_bind, wp_ret, wp_ret.
      exists ls_tr, ls_va, t, v. eexists _, _, (cat embs).
      do 4 (split; [first [eassumption | reflexivity]|]). cbn zeta.
      rewrite Hps, Hlt. cbn [fst snd]. split; [reflexivity|].
      wnorm. unfold siamese_epoch_events. rewrite !list_insert_insert_eq.
      list_norm. rewrite ?app_nil_r. reflexivity.
Qed.

(** ** The epoch loop of siamese_train *)

Lemma plot_calls_app (a b : list Event) : plot_calls (a ++ b) = plot_calls a ++ plot_calls b.
Proof.
  induction a as [|e a IH]; [reflexivity|]. destruct e; cbn; rewrite IH; reflexivity.
Qed.

Lemma optim_steps_app (a b : list Event) :
  optim_steps (a ++ b) = optim_steps a ++ optim_steps b.
Proof.
  induction a as [|e a IH]; [reflexivity|]. destruct e; cbn; rewrite IH; reflexivity.
Qed.

Lemma siamese_train_events_plots (model : nat) ls :
  plot_calls (siamese_train_events model ls) = [].
Proof. induction ls as [|v ls IH]; [reflexivity|exact IH]. Qed.

Lemma siamese_val_events_plots (model : nat) ls :
  plot_calls (siamese_val_events model ls) = [].
Proof. induction ls as [|v ls IH]; [reflexivity|exact IH]. Qed.

Lemma siamese_train_events_steps (model : nat) ls :
  optim_steps (siamese_train_events model ls) = replicate (length ls) model.
Proof. induction ls as [|v ls IH]; [reflexivity|]. cbn. rewrite <- IH. reflexivity. Qed.

Lemma siamese_val_events_steps (model : nat) ls :
  optim_steps (siamese_val_events model ls) = [].
Proof. induction ls as [|v ls IH]; [reflexivity|exact IH]. Qed.

Lemma siamese_train_events_saves (model : nat) ls :
  saves (siamese_train_events model ls) = [].
Proof. induction ls as [|v ls IH]; [reflexivity|exact IH]. Qed.

Lemma siamese_val_events_saves (model : nat) ls :
  saves (siamese_val_events model ls) = [].
Proof. induction ls as [|v ls IH]; [reflexivity|exact IH]. Qed.

Lemma embedding_plots_snoc (current_dir : string) (val : DataLoader) es :
  forall epoch e,
  embedding_plots current_dir val epoch (es ++ [e]) =
  embedding_plots current_dir val epoch es ++
  [VisualiseEmbedding e (batch_labels (dl_batches val (epoch + length es)))
     (epoch + length es + 1) current_dir].
Proof.
  induction es as [|x es IH]; intros epoch e; cbn.
  - rewrite Nat.add_0_r. reflexivity.
  - rewrite IH. replace (S epoch + length es) with (epoch + S (length es)) by lia.
    reflexivity.
Qed.

Lemma batches_of_S (l : DataLoader) start n :
  batches_of l start (S n) = batches_of l start n + length (dl_batches l (start + n)).
Proof.
  unfold batches_of. rewrite seq_S, map_app, list_sum_app. cbn. lia.
Qed.

Lemma siamese_epoch_events_plots (current_dir save_dir : string) (model : nat)
    (plots : bool) (epoch : nat) labels ls_tr ls_va saved embs :
  plot_calls (siamese_epoch_events current_dir save_dir model plots epoch labels
                ls_tr ls_va saved embs) =
  if plots then [VisualiseEmbedding embs labels (epoch + 1) current_dir] else [].
Proof.
  unfold siamese_epoch_events.
  rewrite !plot_calls_app, siamese_train_events_plots, siamese_val_events_plots.
  destruct saved, plots; reflexivity.
Qed.

Lemma siamese_epoch_events_steps (current_dir save_dir : string) (model : nat)
    (plots : bool) (epoch : nat) labels ls_tr ls_va saved embs :
  optim_steps (siamese_epoch_events current_dir save_dir model plots epoch labels
                 ls_tr ls_va saved embs) = replicate (length ls_tr) model.
Proof.
  unfold siamese_epoch_events.
  rewrite !optim_steps_app, siamese_train_events_steps, siamese_val_events_steps.
  destruct saved, plots; cbn; rewrite app_nil_r; reflexivity.
Qed.

Lemma schedule_snoc (sched : SchedState) (lr : float) vs v :
  schedule sched lr (vs ++ [v]) =
  plateau_step (schedule sched lr vs).1 v (schedule sched lr vs).2.
Proof. unfold schedule. rewrite fold_left_app. reflexivity. Qed.

(** The loop over loaders of non-zero length, or over no epoch at all,
    cannot fail, and leaves [siamese_loop_post]. *)
Lemma siamese_loop_effect (current_dir save_dir : string) (model : nat)
    (trl val : DataLoader) (epochs : nat) (plots : bool) (start n : nat)
    (st : SiameseLocals) w m :
  w_mods w !! model = Some m -> opt_target (s_optimizer st) = model ->
  n = 0 \/ (dl_len trl <> 0 /\ dl_len val <> 0) ->
  wp (siamese_loop current_dir save_dir model trl val epochs plots start n st)
     (siamese_loop_post current_dir save_dir model trl val plots start n m st w)
     (fun _ _ => False) w.
Proof.
  intros Hm Ho Hlen. unfold siamese_loop.
  eapply wp_mono;
    [apply (wp_for_range _
              (fun i st' w' =>
                 siamese_loop_post current_dir save_dir model trl val plots start
                   (i - start) m st w st' w') (fun _ _ => False)) | | auto].
  - intros i st1 w1 Hi (tl & vl & body & es & m' & Htl & Hvl & Hbody & Hes & Ht & Hv &
                        Hsch & Htg & Hwd & Hmods & Harch & Hdev & Htr & Hfs & Hout &
                        Hpl & Hst).
    destruct Hlen as [->|[Hn1 Hn2]]; [lia|].
    assert (Hm1 : w_mods w1 !! model = Some m')
      by (rewrite Hmods; apply (lookup_put _ _ _ _ Hm)).
    eapply wp_mono;
      [apply (siamese_epoch_effect current_dir save_dir model trl val epochs plots i
                st1 w1 m' Hm1 Htg) | | ].
    2:{ intros e w' (_ & [H|H] & _); contradiction. }
    intros st2 w2 (ls_tr & ls_va & t & v & p & s & embs & Hl1 & Hl2 & Hdt & Hdv & Hpost).
    cbn zeta in Hpost. destruct Hpost as [-> ->].
    replace (S i - start) with (S (i - start)) by lia.
    exists (tl ++ [t]), (vl ++ [v]),
      (body ++ [epoch_line i epochs t v;
                lr_line (mkOptimizer model
                           (plateau_step (s_scheduler st1) v (opt_lr (s_optimizer st1))).2
                           (opt_weight_decay (s_optimizer st1)) s);
                if PyFloat.lt v (s_best_loss st1)
                then "Validation loss decreased. Saving model."
                else "No improvement in validation loss."]),
      (es ++ [embs]), (with_state m' p false).
    cbn [s_train_losses s_val_losses s_scheduler s_optimizer s_best_loss
         opt_target opt_lr opt_weight_decay w_mods w_fs w_stdout w_trace].
    rewrite !length_app, Htl, Hvl, Hbody, Hes, Ht, Hv, <- !app_assoc.
    do 4 (split; [cbn; lia|]). do 2 (split; [reflexivity|]).
    split; [rewrite schedule_snoc, <- Hsch; cbn [fst snd];
            destruct (plateau_step _ _ _); reflexivity|].
    split; [reflexivity|]. split; [exact Hwd|].
    split; [rewrite Hmods, list_insert_insert_eq; reflexivity|].
    split; [exact Harch|]. split; [exact Hdev|]. split; [reflexivity|].
    split.
    { intros path Hp. destruct (PyFloat.lt v (s_best_loss st1)).
      - rewrite lookup_insert_ne by congruence. apply Hfs, Hp.
      - apply Hfs, Hp. }
    split; [rewrite Hout, <- app_assoc; reflexivity|].
    split.
    { rewrite plot_calls_app, Hpl, siamese_epoch_events_plots, <- app_assoc.
      destruct plots; [|reflexivity].
      rewrite embedding_plots_snoc, Hes. replace (start + (i - start)) with i by lia.
      reflexivity. }
    rewrite optim_steps_app, Hst, siamese_epoch_events_steps, <- app_assoc.
    rewrite batches_of_S, replicate_add, Hl1.
    replace (start + (i - start)) with i by lia. reflexivity.
  - replace (start - start) with 0 by lia.
    exists [], [], [], [], m. cbn. rewrite !app_nil_r.
    repeat split; auto.
    + rewrite list_insert_id by exact Hm. reflexivity.
    + destruct plots; cbn; rewrite app_nil_r; reflexivity.
  - intros st' w'. replace (start + n - start) with n by lia. auto.
Qed.

(** The same of any loop that returns. *)
Lemma siamese_loop_effect_any (current_dir save_dir : string) (model : nat)
    (trl val : DataLoader) (epochs : nat) (plots : bool) (start n : nat)
    (st : SiameseLocals) w m :
  w_mods w !! model = Some m -> opt_target (s_optimizer st) = model ->
  wp (siamese_loop current_dir save_dir model trl val epochs plots start n st)
     (siamese_loop_post current_dir save_dir model trl val plots start n m st w)
     (fun _ _ => True) w.
Proof.
  intros Hm Ho.
  assert (Hcases : (n = 0 \/ (dl_len trl <> 0 /\ dl_len val <> 0)) \/
                   (n <> 0 /\ (dl_len trl = 0 \/ dl_len val = 0))).
  { destruct n; [auto|]. destruct (dl_len trl); [right; auto|].
    destruct (dl_len val); [right; auto|]. left. right. split; discriminate. }
  destruct Hcases as [Hlen|[Hne Hz]].
  - eapply wp_mono; [apply (siamese_loop_effect _ _ _ _ _ _ _ _ _ _ _ _ Hm Ho Hlen)|auto|auto].
  - unfold siamese_loop. destruct n as [|n]; [congruence|]. cbn [for_range].
    apply wp_bind. eapply wp_mono; [apply (siamese_epoch_effect _ _ _ _ _ _ _ _ _ _ _ Hm Ho)| |auto].
    intros st' w' (ls_tr & ls_va & t & v & p & s & embs & _ & _ & Ht & Hv & _).
    exfalso. destruct Hz as [Hz|Hz]; rewrite Hz in *; discriminate.
Qed.

(** ** siamese_train as a whole *)

Lemma wp_mod_to_known r (d : Device) Q E w m :
  w_mods w !! r = Some m ->
  Q tt (put_mod r (mkModule (m_arch m) (m_params m) (m_training m) d) w) ->
  wp (mod_to r d) Q E w.
Proof.
  intros Hm HQ. apply wp_mod_to.
  - intros m' Hm'. rewrite Hm in Hm'. injection Hm' as <-. exact HQ.
  - intros Hn. congruence.
Qed.

Lemma lookup_new (l : list Module_) m : (l ++ [m]) !! length l = Some m.
Proof. apply list_lookup_middle. reflexivity. Qed.

Lemma insert_new (l : list Module_) m m' : <[length l := m']> (l ++ [m]) = l ++ [m'].
Proof.
  replace (length l) with (length l + 0) by lia. rewrite insert_app_r. reflexivity.
Qed.

Lemma siamese_train_effect (current_dir : string) (trl val : DataLoader)
    (images : Tensor) (epochs : nat) (lr : float) (plots : bool) w :
  epochs = 0 \/ (dl_len trl <> 0 /\ dl_len val <> 0) ->
  wp (siamese_train current_dir trl val images epochs lr plots)
     (fun _ w' => siamese_train_post current_dir trl val epochs plots w w')
     (fun _ _ => False) w.
Proof.
  intros Hlen. unfold siamese_train, siamese_setup. cbn zeta.
  apply wp_bind, wp_bind, wp_print, wp_bind, wp_new_module, wp_bind.
  eapply wp_mod_to_known; [wsimpl2; apply lookup_new|].
  apply wp_ret. wsimpl2.
  set (model := length (w_mods w)).
  set (M0 := mkModule SiameseNN (init_params SiameseNN) true torch_device).
  set (w1 := put_mod model M0 _).
  assert (Hm1 : w_mods w1 !! model = Some M0).
  { subst w1. wsimpl2. eapply lookup_put, lookup_new. }
  apply wp_bind. eapply wp_mono;
    [apply (siamese_loop_effect current_dir (os_path_join current_dir "models") model
              trl val epochs plots 0 epochs (siamese_init model lr) w1 M0 Hm1 eq_refl Hlen)
    | | intros ? ? []].
  intros st w2 (tl & vl & body & es & m' & Htl & Hvl & Hbody & Hes & Ht & Hv &
                Hsch & Htg & Hwd & Hmods & Harch & Hdev & Htr & Hfs & Hout & Hpl & Hst).
  cbn beta. unfold siamese_finish.
  assert (Hm2 : w_mods w2 !! model = Some m')
    by (rewrite Hmods; apply (lookup_put _ _ _ _ Hm1)).
  assert (Hw2 : w_mods w2 = w_mods w ++ [m']).
  { rewrite Hmods. subst w1. wsimpl2. unfold model.
    rewrite list_insert_insert_eq, insert_new. reflexivity. }
  apply wp_bind. eapply wp_state_dict_known; [exact Hm2|].
  apply wp_bind, wp_torch_save, wp_bind, wp_print.
  assert (Hplots :
    plot_calls (w_trace w2) =
    plot_calls (w_trace w) ++ (if plots then embedding_plots current_dir val 0 es else [])).
  { rewrite Hpl. subst w1. reflexivity. }
  assert (Hsteps :
    optim_steps (w_trace w2) =
    optim_steps (w_trace w) ++ replicate (batches_of trl 0 epochs) model).
  { rewrite Hst. subst w1. reflexivity. }
  assert (Hfs' : forall path, path <> os_path_join (os_path_join current_dir "models")
                                        siamese_best_name ->
                              w_fs w2 !! path = w_fs w !! path).
  { intros path Hp. rewrite (Hfs path Hp). subst w1. reflexivity. }
  assert (Hout' : w_stdout w2 = (w_stdout w ++ ["Training Siamese Network"]) ++ body).
  { rewrite Hout. subst w1. reflexivity. }
  assert (Hm' : m' = mkModule SiameseNN (m_params m')
                       match epochs with 0 => true | S _ => false end torch_device).
  { destruct m' as [a p b d]. cbn in Harch, Hdev, Htr |- *. subst a d.
    rewrite Htr. destruct epochs; reflexivity. }
  assert (Hhist : length (s_train_losses st) = epochs /\ length (s_val_losses st) = epochs).
  { rewrite Ht, Hv. cbn. auto. }
  destruct Hhist as [Hh1 Hh2].
  destruct plots.
  - apply wp_emit. unfold siamese_train_post. cbn zeta.
    exists (m_params m'), (s_train_losses st), (s_val_losses st), body, es.
    do 4 (split; [assumption|]). wsimpl2.
    split; [rewrite Hw2, Hm' at 1; reflexivity|].
    split; [apply lookup_insert_eq|].
    split; [intros path H1 H2; rewrite lookup_insert_ne by congruence; apply Hfs', H1|].
    split; [rewrite Hout', <- !app_assoc; reflexivity|].
    split; [rewrite !plot_calls_app, Hplots, <- !app_assoc; reflexivity|].
    rewrite !optim_steps_app, Hsteps. cbn. rewrite !app_nil_r. reflexivity.
  - apply wp_ret. unfold siamese_train_post. cbn zeta.
    exists (m_params m'), (s_train_losses st), (s_val_losses st), body, es.
    do 4 (split; [assumption|]). wsimpl2.
    split; [rewrite Hw2, Hm' at 1; reflexivity|].
    split; [apply lookup_insert_eq|].
    split; [intros path H1 H2; rewrite lookup_insert_ne by congruence; apply Hfs', H1|].
    split; [rewrite Hout', <- !app_assoc; reflexivity|].
    split; [rewrite !plot_calls_app, Hplots; cbn; rewrite !app_nil_r; reflexivity|].
    rewrite !optim_steps_app, Hsteps. cbn. rewrite !app_nil_r. reflexivity.
Qed.

(** ** The passes of classifier_train *)

Lemma filter_length_bound {A} (f : A -> bool) (l : list A) :
  length (List.filter f l) <= length l.
Proof.
  induction l as [|x l IH]; [reflexivity|]. cbn. destruct (f x); cbn; lia.
Qed.

(** No more predictions are counted as correct than there are labels. *)
Lemma count_equal_le (preds labels : list float) :
  count_equal preds labels <= length labels.
Proof.
  unfold count_equal. etransitivity; [apply filter_length_bound|].
  rewrite length_combine. lia.
Qed.

Lemma correct_count_snoc (pbs : list (list float)) (bs : list (Tensor * list Z)) pb b :
  length pbs = length bs ->
  correct_count (pbs ++ [pb]) (bs ++ [b])
  = correct_count pbs bs + count_equal (threshold pb) (map PyFloat.of_Z b.2).
Proof.
  intros Hl. unfold correct_count. rewrite zip_with_app by exact Hl.
  rewrite list_sum_app. cbn. lia.
Qed.

Lemma counted_init : counted pass_init [].
Proof. split; [reflexivity|]. exists []. auto. Qed.

Lemma counted_accumulate (acc : PassAcc) (done : list (Tensor * list Z)) (v : float)
    (output images : Tensor) (labels : list Z) :
  counted acc done ->
  counted (accumulate acc v output (map PyFloat.of_Z labels)) (done ++ [(images, labels)]).
Proof.
  intros [Hle (pbs & Hl & Hp & Hc)]. unfold accumulate. split.
  - cbn [a_correct a_total]. apply Nat.add_le_mono; [exact Hle|apply count_equal_le].
  - exists (pbs ++ [numpy (sigmoid output)]). cbn [a_correct a_probs].
    split; [rewrite !length_app, Hl; reflexivity|].
    split; [rewrite concat_app, Hp; cbn; rewrite app_nil_r; reflexivity|].
    rewrite correct_count_snoc by exact Hl. rewrite Hc. reflexivity.
Qed.

Ltac solve_lookup2 :=
  wnorm;
  repeat first [ eassumption
               | rewrite list_lookup_insert_ne by congruence
               | eapply lookup_put ].

Lemma world_eq w mods fs out tr :
  w_mods w = mods -> w_fs w = fs -> w_stdout w = out -> w_trace w = tr ->
  w = mkWorld mods fs out tr.
Proof. destruct w. cbn. intros -> -> -> ->. reflexivity. Qed.

(** The training pass of [classifier_train], from a world where [siamese]
    is in eval mode and [classifier] in train mode: it changes nothing but
    the parameters of [classifier]. *)
Lemma classifier_train_pass_effect (siamese classifier : nat) (pw : Tensor)
    (opt : Optimizer) bs w ms mc :
  siamese <> classifier ->
  w_mods w !! siamese = Some ms -> m_training ms = false ->
  w_mods w !! classifier = Some mc -> m_training mc = true ->
  opt_target opt = classifier ->
  wp (foldM (classifier_train_batch siamese classifier pw) (pass_init, opt) bs)
     (fun acc w' => exists ls p s,
        length ls = length bs /\
        a_loss acc.1 = running_sum ls /\ a_labels acc.1 = epoch_labels bs /\
        a_total acc.1 = length (a_labels acc.1) /\ counted acc.1 bs /\
        acc.2 = mkOptimizer classifier (opt_lr opt) (opt_weight_decay opt) s /\
        w' = mkWorld (<[classifier := with_state mc p true]> (w_mods w)) (w_fs w)
                     (w_stdout w)
                     (w_trace w ++ classifier_train_events siamese classifier pw ls))
     (fun _ _ => False) w.
Proof.
  intros Hne Hs Hst Hc Hct Ho.
  refine (wp_foldM (classifier_train_batch siamese classifier pw)
            (fun done acc w' => exists ls p s,
               length ls = length done /\
               a_loss acc.1 = running_sum ls /\ a_labels acc.1 = epoch_labels done /\
               a_total acc.1 = length (a_labels acc.1) /\
               counted acc.1 done /\
               acc.2 = mkOptimizer classifier (opt_lr opt) (opt_weight_decay opt) s /\
               w' = mkWorld (<[classifier := with_state mc p true]> (w_mods w)) (w_fs w)
                            (w_stdout w)
                            (w_trace w ++
                             classifier_train_events siamese classifier pw ls))
            _ bs _ [] (pass_init, opt) w _).
  - intros done [acc o] [images labels] w1
           (ls & p & s & Hl & Hloss & Hlab & Htot & Hcor & Hopt & ->).
    cbn [fst snd] in Hloss, Hlab, Htot, Hcor, Hopt. subst o. cbn beta.
    unfold classifier_train_batch.
    apply wp_bind. eapply wp_call_eval; [solve_lookup2|exact Hst|].
    apply wp_bind. eapply wp_call_train; [solve_lookup2|reflexivity|].
    apply wp_bind, wp_emit, wp_bind.
    eapply wp_step_known; [solve_lookup2|].
    cbn zeta. apply wp_bind, wp_loss_item, wp_ret.
    eexists (ls ++ [_]), _, _. cbn [fst snd].
    split; [rewrite !length_app, Hl; reflexivity|].
    split; [unfold accumulate; cbn [a_loss]; rewrite running_sum_snoc, Hloss; reflexivity|].
    split; [unfold accumulate; cbn [a_labels]; rewrite epoch_labels_snoc, Hlab;
            reflexivity|].
    split; [unfold accumulate; cbn [a_total a_labels]; rewrite length_app, Htot;
            reflexivity|].
    split; [apply counted_accumulate; exact Hcor|].
    split; [reflexivity|].
    wnorm. rewrite !list_insert_insert_eq. unfold classifier_train_events.
    rewrite flat_map_snoc, <- !app_assoc. reflexivity.
  - exists [], (m_params mc), (opt_state opt). cbn [fst snd].
    do 4 (split; [reflexivity|]). split; [apply counted_init|].
    split; [destruct opt; cbn in *; subst; reflexivity|].
    rewrite <- Hct, with_state_id, list_insert_id by exact Hc.
    cbn. rewrite app_nil_r. destruct w; reflexivity.
Qed.

(** The validation pass, from a world where both modules are in eval
    mode: it changes no module, file or output. *)
Lemma classifier_val_pass_effect (siamese classifier : nat) (pw : Tensor) bs w ms mc :
  w_mods w !! siamese = Some ms -> m_training ms = false ->
  w_mods w !! classifier = Some mc -> m_training mc = false ->
  wp (foldM (classifier_val_batch siamese classifier pw) pass_init bs)
     (fun acc w' => exists ls,
        length ls = length bs /\
        a_loss acc = running_sum ls /\ a_labels acc = epoch_labels bs /\
        a_total acc = length (a_labels acc) /\ counted acc bs /\
        w' = mkWorld (w_mods w) (w_fs w) (w_stdout w)
                     (w_trace w ++ classifier_val_events siamese classifier pw ls))
     (fun _ _ => False) w.
Proof.
  intros Hs Hst Hc Hct.
  refine (wp_foldM (classifier_val_batch siamese classifier pw)
            (fun done acc w' => exists ls,
               length ls = length done /\
               a_loss acc = running_sum ls /\ a_labels acc = epoch_labels done /\
               a_total acc = length (a_labels acc) /\ counted acc done /\
               w' = mkWorld (w_mods w) (w_fs w) (w_stdout w)
                            (w_trace w ++ classifier_val_events siamese classifier pw ls))
            _ bs _ [] pass_init w _).
  - intros done acc [images labels] w1 (ls & Hl & Hloss & Hlab & Htot & Hcor & ->).
    cbn beta. unfold classifier_val_batch.
    apply wp_bind. eapply wp_call_eval; [exact Hs|exact Hst|].
    apply wp_bind. eapply wp_call_eval; [exact Hc|exact Hct|].
    apply wp_bind, wp_emit, wp_bind, wp_loss_item, wp_ret.
    eexists (ls ++ [_]).
    split; [rewrite !length_app, Hl; reflexivity|].
    split; [unfold accumulate; cbn [a_loss]; rewrite running_sum_snoc, Hloss; reflexivity|].
    split; [unfold accumulate; cbn [a_labels]; rewrite epoch_labels_snoc, Hlab;
            reflexivity|].
    split; [unfold accumulate; cbn [a_total a_labels]; rewrite length_app, Htot;
            reflexivity|].
    split; [apply counted_accumulate; exact Hcor|].
    wnorm. unfold classifier_val_events.
    rewrite flat_map_snoc, <- !app_assoc. reflexivity.
  - exists []. do 4 (split; [reflexivity|]). split; [apply counted_init|].
    cbn. rewrite app_nil_r. destruct w; reflexivity.
Qed.

(** ** An epoch of classifier_train *)

Lemma float_div_int_Err (a : float) (n : nat) e :
  float_div_int a n = Err e -> e = ZeroDivisionError /\ n = 0.
Proof. destruct n; cbn; [|discriminate]. intros H. injection H as <-. auto. Qed.

(** [except ValueError] lets no [ValueError] out of the [try]. *)
Lemma auroc_escape_not_ValueError (labels probs : list float) e :
  auroc_escape labels probs = Some e -> e <> ValueError.
Proof.
  unfold auroc_escape.
  destruct (roc_auc_score labels probs) as [a|[]];
    [destruct (classification_report labels (binarise probs) 0) as [r|[]]| | |];
    intros H; try discriminate H; injection H as <-; discriminate.
Qed.

(** The whole effect of an epoch of [classifier_train]; when the epoch is
    left by an exception, no file has been written. *)
Lemma classifier_epoch_effect (save_dir : string) (siamese classifier : nat)
    (pw : Tensor) (trl val : DataLoader) (epochs epoch : nat)
    (st : ClassifierLocals) w ms mc :
  siamese <> classifier ->
  w_mods w !! siamese = Some ms -> m_training ms = false ->
  w_mods w !! classifier = Some mc ->
  opt_target (c_optimizer st) = classifier ->
  wp (classifier_epoch save_dir siamese classifier pw trl val epochs epoch st)
     (fun st' w' => exists (tr va : PassAcc) ls_tr ls_va t v acc_t acc_v p s,
        length ls_tr = length (dl_batches trl epoch) /\
        length ls_va = length (dl_batches val epoch) /\
        a_loss tr = running_sum ls_tr /\ a_loss va = running_sum ls_va /\
        a_labels tr = epoch_labels (dl_batches trl epoch) /\
        a_labels va = epoch_labels (dl_batches val epoch) /\
        a_total tr = length (a_labels tr) /\ a_total va = length (a_labels va) /\
        counted tr (dl_batches trl epoch) /\ counted va (dl_batches val epoch) /\
        float_div_int (a_loss tr) (dl_len trl) = Ok t /\
        float_div_int (a_loss va) (dl_len val) = Ok v /\
        int_truediv (a_correct tr) (a_total tr) = Ok acc_t /\
        int_truediv (a_correct va) (a_total va) = Ok acc_v /\
        let train_auroc := auroc_value (a_labels tr) (a_probs tr) in
        let val_auroc := auroc_value (a_labels va) (a_probs va) in
        let improved := PyFloat.gt val_auroc (c_best_auroc st) in
        let optimizer :=
          mkOptimizer classifier (opt_lr (c_optimizer st))
                      (opt_weight_decay (c_optimizer st)) s in
        st' = mkClassifierLocals optimizer
                (if improved then val_auroc else c_best_auroc st)
                (c_train_losses st ++ [t]) (c_val_losses st ++ [v])
                (c_train_accuracies st ++ [acc_t]) (c_val_accuracies st ++ [acc_v])
                (c_train_aurocs st ++ [train_auroc]) (c_val_aurocs st ++ [val_auroc]) /\
        w' = mkWorld
               (<[classifier := with_state mc p false]> (w_mods w))
               (if improved
                then <[os_path_join save_dir classifier_best_name := p]> (w_fs w)
                else w_fs w)
               (w_stdout w ++
                report_lines train_report_header (a_labels tr) (a_probs tr) ++
                report_lines val_report_header (a_labels va) (a_probs va) ++
                [epoch_line epoch epochs t v; accuracy_line acc_t acc_v;
                 auroc_line train_auroc val_auroc; lr_line optimizer;
                 if improved then auroc_improved else auroc_not_improved])
               (w_trace w ++
                classifier_epoch_events save_dir siamese classifier pw ls_tr ls_va
                  (if improved then Some p else None)))
     (fun e w' => e <> ValueError /\ w_fs w' = w_fs w /\
                  plot_calls (w_trace w') = plot_calls (w_trace w)) w.
Proof.
  intros Hne Hs Hst Hc Ho. unfold classifier_epoch, mod_train, mod_eval.
  apply wp_bind. eapply wp_set_training_known; [exact Hc|].
  apply wp_bind. eapply wp_mono;
    [eapply (classifier_train_pass_effect siamese classifier pw (c_optimizer st));
       [exact Hne|solve_lookup2|exact Hst|solve_lookup2|reflexivity|exact Ho]
    | | intros ? ? []].
  intros [tr optimizer] w2 (ls_tr & p1 & s & Hl1 & Hloss1 & Hlab1 & Htot1 & Hcor1 & Hopt & ->).
  cbn [fst snd] in Hloss1, Hlab1, Htot1, Hcor1, Hopt. subst optimizer. cbn beta iota.
  assert (Hplt : forall ls, plot_calls (classifier_train_events siamese classifier pw ls) = []).
  { induction ls as [|x ls IH]; [reflexivity|exact IH]. }
  assert (Hplv : forall ls, plot_calls (classifier_val_events siamese classifier pw ls) = []).
  { induction ls as [|x ls IH]; [reflexivity|exact IH]. }
  apply wp_bind, wp_lift.
  destruct (float_div_int (a_loss tr) (dl_len trl)) as [t|e] eqn:Ht.
  2:{ apply float_div_int_Err in Ht as [-> _]. wnorm.
      split; [discriminate|]. split; [reflexivity|].
      rewrite !plot_calls_app, Hplt. cbn. rewrite !app_nil_r. reflexivity. }
  apply wp_bind, wp_lift.
  destruct (int_truediv (a_correct tr) (a_total tr)) as [acc_t|e] eqn:Hat.
  2:{ apply float_div_int_Err in Hat as [-> _]. wnorm.
      split; [discriminate|]. split; [reflexivity|].
      rewrite !plot_calls_app, Hplt. cbn. rewrite !app_nil_r. reflexivity. }
  apply wp_bind. eapply wp_mono; [apply auroc_and_report_spec| |].
  2:{ intros e w3 (Hesc & _ & Hfs & Htr). wsimpl2.
      split; [eapply auroc_escape_not_ValueError, Hesc|]. split; [exact Hfs|].
      rewrite Htr, !plot_calls_app, Hplt. cbn. rewrite !app_nil_r. reflexivity. }
  intros a w3 (Hesc1 & -> & Hmods3 & Hfs3 & Htr3 & Hout3). wsimpl2.
  rewrite (world_eq w3 _ _ _ _ Hmods3 Hfs3 Hout3 Htr3). clear Hmods3 Hfs3 Hout3 Htr3 w3.
  apply wp_bind. eapply wp_set_training_known; [solve_lookup2|].
  apply wp_bind. eapply wp_mono;
    [eapply (classifier_val_pass_effect siamese classifier pw);
       [solve_lookup2|exact Hst|solve_lookup2|reflexivity]
    | | intros ? ? []].
  intros va w4 (ls_va & Hl2 & Hloss2 & Hlab2 & Htot2 & Hcor2 & ->). cbn beta.
  apply wp_bind, wp_lift.
  destruct (float_div_int (a_loss va) (dl_len val)) as [v|e] eqn:Hv.
  2:{ apply float_div_int_Err in Hv as [-> _]. wnorm.
      split; [discriminate|]. split; [reflexivity|].
      rewrite !plot_calls_app, Hplt, Hplv. cbn. rewrite !app_nil_r. reflexivity. }
  apply wp_bind, wp_lift.
  destruct (int_truediv (a_correct va) (a_total va)) as [acc_v|e] eqn:Hav.
  2:{ apply float_div_int_Err in Hav as [-> _]. wnorm.
      split; [discriminate|]. split; [reflexivity|].
      rewrite !plot_calls_app, Hplt, Hplv. cbn. rewrite !app_nil_r. reflexivity. }
  apply wp_bind. eapply wp_mono; [apply auroc_and_report_spec| |].
  2:{ intros e w5 (Hesc & _ & Hfs & Htr). wsimpl2.
      split; [eapply auroc_escape_not_ValueError, Hesc|]. split; [exact Hfs|].
      rewrite Htr, !plot_calls_app, Hplt, Hplv. cbn. rewrite !app_nil_r. reflexivity. }
  intros a w5 (Hesc2 & -> & Hmods5 & Hfs5 & Htr5 & Hout5). wsimpl2.
  rewrite (world_eq w5 _ _ _ _ Hmods5 Hfs5 Hout5 Htr5). clear Hmods5 Hfs5 Hout5 Htr5 w5.
  apply wp_bind, wp_print, wp_bind, wp_print, wp_bind, wp_print, wp_bind, wp_print, wp_bind.
  unfold classifier_checkpoint.
  destruct (PyFloat.gt (auroc_value (a_labels va) (a_probs va)) (c_best_auroc st)) eqn:Hgt.
  - apply wp_bind. eapply wp_state_dict_known; [solve_lookup2|].
    apply wp_bind, wp_torch_save, wp_bind, wp_print, wp_ret, wp_ret.
    exists tr, va, ls_tr, ls_va, t, v, acc_t, acc_v. do 2 eexists.
    do 14 (split; [first [eassumption | reflexivity]|]). cbn zeta.
    rewrite Hgt. split; [reflexivity|].
    wnorm. unfold classifier_epoch_events. rewrite !list_insert_insert_eq.
    list_norm. reflexivity.
  - apply wp_bind, wp_print, wp_ret, wp_ret.
    exists tr, va, ls_tr, ls_va, t, v, acc_t, acc_v. do 2 eexists.
    do 14 (split; [first [eassumption | reflexivity]|]). cbn zeta.
    rewrite Hgt. split; [reflexivity|].
    wnorm. unfold classifier_epoch_events. rewrite !list_insert_insert_eq.
    list_norm. rewrite ?app_nil_r. reflexivity.
Qed.

(** ** The epoch loop of classifier_train *)

Lemma classifier_train_events_plots (siamese classifier : nat) (pw : Tensor) ls :
  plot_calls (classifier_train_events siamese classifier pw ls) = [].
Proof. induction ls as [|v ls IH]; [reflexivity|exact IH]. Qed.

Lemma classifier_val_events_plots (siamese classifier : nat) (pw : Tensor) ls :
  plot_calls (classifier_val_events siamese classifier pw ls) = [].
Proof. induction ls as [|v ls IH]; [reflexivity|exact IH]. Qed.

Lemma classifier_train_events_steps (siamese classifier : nat) (pw : Tensor) ls :
  optim_steps (classifier_train_events siamese classifier pw ls)
  = replicate (length ls) classifier.
Proof. induction ls as [|v ls IH]; [reflexivity|]. cbn. rewrite <- IH. reflexivity. Qed.

Lemma classifier_val_events_steps (siamese classifier : nat) (pw : Tensor) ls :
  optim_steps (classifier_val_events siamese classifier pw ls) = [].
Proof. induction ls as [|v ls IH]; [reflexivity|exact IH]. Qed.

Lemma classifier_epoch_events_plots (save_dir : string) (siamese classifier : nat)
    (pw : Tensor) ls_tr ls_va saved :
  plot_calls (classifier_epoch_events save_dir siamese classifier pw ls_tr ls_va saved)
  = [].
Proof.
  unfold classifier_epoch_events.
  rewrite !plot_calls_app, classifier_train_events_plots, classifier_val_events_plots.
  destruct saved; reflexivity.
Qed.

Lemma classifier_epoch_events_steps (save_dir : string) (siamese classifier : nat)
    (pw : Tensor) ls_tr ls_va saved :
  optim_steps (classifier_epoch_events save_dir siamese classifier pw ls_tr ls_va saved)
  = replicate (length ls_tr) classifier.
Proof.
  unfold classifier_epoch_events.
  rewrite !optim_steps_app, classifier_train_events_steps, classifier_val_events_steps.
  destruct saved; cbn; rewrite app_nil_r; reflexivity.
Qed.

Lemma classifier_loop_effect (save_dir : string) (siamese classifier : nat)
    (pw : Tensor) (trl val : DataLoader) (epochs start n : nat)
    (st : ClassifierLocals) w ms mc :
  siamese <> classifier ->
  w_mods w !! siamese = Some ms -> m_training ms = false ->
  w_mods w !! classifier = Some mc ->
  opt_target (c_optimizer st) = classifier ->
  wp (classifier_loop save_dir siamese classifier pw trl val epochs start n st)
     (classifier_loop_post save_dir classifier trl start n mc st w)
     (classifier_loop_exn save_dir w) w.
Proof.
  intros Hne Hs Hst Hc Ho. unfold classifier_loop.
  eapply wp_mono;
    [apply (wp_for_range _
              (fun i st' w' =>
                 classifier_loop_post save_dir classifier trl start (i - start) mc
                   st w st' w') (classifier_loop_exn save_dir w)) | | auto].
  - intros i st1 w1 Hi (m' & chunks & s1 & Hopt & H1 & H2 & H3 & H4 & H5 & H6 & Hmods &
                        Harch & Hdev & Htr & Hfs & Hch & Hall & Hout & Hpl & Hsteps).
    assert (Hc1 : w_mods w1 !! classifier = Some m')
      by (rewrite Hmods; apply (lookup_put _ _ _ _ Hc)).
    assert (Hs1 : w_mods w1 !! siamese = Some ms)
      by (rewrite Hmods, list_lookup_insert_ne by congruence; exact Hs).
    assert (Ho1 : opt_target (c_optimizer st1) = classifier) by (rewrite Hopt; reflexivity).
    eapply wp_mono;
      [apply (classifier_epoch_effect save_dir siamese classifier pw trl val epochs i
                st1 w1 ms m' Hne Hs1 Hst Hc1 Ho1) | | ].
    2:{ intros e w' (He & Hfs' & Hpl'). split; [exact He|]. split.
        - intros path Hp. rewrite Hfs'. apply Hfs, Hp.
        - rewrite Hpl'. exact Hpl. }
    intros st2 w2 (tr & va & ls_tr & ls_va & t & v & acc_t & acc_v & p & s & Hl1 & Hl2 &
                   _ & _ & _ & _ & _ & _ & _ & _ & _ & _ & _ & _ & Hpost).
    cbn zeta in Hpost. destruct Hpost as [-> ->].
    replace (S i - start) with (S (i - start)) by lia.
    exists (with_state m' p false),
      (chunks ++
       [report_lines train_report_header (a_labels tr) (a_probs tr) ++
        report_lines val_report_header (a_labels va) (a_probs va) ++
        [epoch_line i epochs t v; accuracy_line acc_t acc_v;
         auroc_line (auroc_value (a_labels tr) (a_probs tr))
                    (auroc_value (a_labels va) (a_probs va));
         lr_line (mkOptimizer classifier (opt_lr (c_optimizer st1))
                    (opt_weight_decay (c_optimizer st1)) s);
         if PyFloat.gt (auroc_value (a_labels va) (a_probs va)) (c_best_auroc st1)
         then auroc_improved else auroc_not_improved]]), s.
    cbn [c_optimizer c_best_auroc c_train_losses c_val_losses c_train_accuracies
         c_val_accuracies c_train_aurocs c_val_aurocs
         w_mods w_fs w_stdout w_trace].
    rewrite Hopt. cbn [opt_lr opt_weight_decay].
    split; [reflexivity|].
    rewrite !length_app, H1, H2, H3, H4, H5, H6, Hch.
    do 6 (split; [cbn; lia|]).
    split; [rewrite Hmods, list_insert_insert_eq; reflexivity|].
    split; [exact Harch|]. split; [exact Hdev|]. split; [reflexivity|].
    split.
    { intros path Hp. destruct (PyFloat.gt _ (c_best_auroc st1)).
      - rewrite lookup_insert_ne by congruence. apply Hfs, Hp.
      - apply Hfs, Hp. }
    split; [cbn; lia|].
    split.
    { apply Forall_app. split; [exact Hall|]. constructor; [|constructor].
      exists (report_lines train_report_header (a_labels tr) (a_probs tr) ++
              report_lines val_report_header (a_labels va) (a_probs va) ++
              [epoch_line i epochs t v; accuracy_line acc_t acc_v;
               auroc_line (auroc_value (a_labels tr) (a_probs tr))
                          (auroc_value (a_labels va) (a_probs va))]),
        (if PyFloat.gt (auroc_value (a_labels va) (a_probs va)) (c_best_auroc st1)
         then auroc_improved else auroc_not_improved).
      split.
      - rewrite <- !app_assoc. cbn [app]. unfold lr_line. cbn [opt_lr]. reflexivity.
      - destruct (PyFloat.gt _ (c_best_auroc st1)); auto. }
    split; [rewrite Hout, concat_app, <- !app_assoc; cbn [concat];
            rewrite app_nil_r; reflexivity|].
    split; [rewrite plot_calls_app, Hpl, classifier_epoch_events_plots, app_nil_r;
            reflexivity|].
    rewrite optim_steps_app, Hsteps, classifier_epoch_events_steps, <- app_assoc.
    rewrite batches_of_S, replicate_add, Hl1.
    replace (start + (i - start)) with i by lia. reflexivity.
  - replace (start - start) with 0 by lia.
    exists mc, [], (opt_state (c_optimizer st)). cbn. rewrite !app_nil_r, !Nat.add_0_r.
    split; [destruct (c_optimizer st); cbn in *; subst; reflexivity|].
    repeat split; auto.
    rewrite list_insert_id by exact Hc. reflexivity.
  - intros st' w'. replace (start + n - start) with n by lia. auto.
Qed.

(** ** classifier_train as a whole *)

(** What precedes the loop leaves the embedding model on the device and in
    eval mode, and a new classifier on the device and in train mode. *)
Lemma classifier_setup_effect (siamese : nat) w ms :
  w_mods w !! siamese = Some ms ->
  wp (classifier_setup siamese)
     (fun co w' =>
        co = (length (w_mods w),
              mkOptimizer (length (w_mods w)) 1e-4%float 1e-5%float adam_init) /\
        w' = mkWorld
               (<[siamese := mkModule (m_arch ms) (m_params ms) false torch_device]>
                  (w_mods w) ++
                [mkModule Classifier (init_params Classifier) true torch_device])
               (w_fs w) (w_stdout w ++ ["Training classifier"])
               (w_trace w ++ [EvMode siamese false; EvMode (length (w_mods w)) true]))
     (fun _ _ => False) w.
Proof.
  intros Hs. unfold classifier_setup, mod_eval, mod_train.
  apply wp_bind, wp_print, wp_bind.
  eapply wp_mod_to_known; [exact Hs|].
  apply wp_bind. eapply wp_set_training_known; [solve_lookup|].
  apply wp_bind, wp_new_module, wp_bind.
  eapply wp_mod_to_known; [wnorm; apply lookup_new|].
  apply wp_bind.
  eapply wp_set_training_known; [wnorm; eapply lookup_put, lookup_new|].
  apply wp_ret. wnorm. rewrite !list_insert_insert_eq, insert_new, !length_insert.
  rewrite <- !app_assoc. split; reflexivity.
Qed.

Lemma classifier_train_effect (current_dir : string) (trl val : DataLoader)
    (images : Tensor) (siamese epochs : nat) (plots : bool) w ms :
  w_mods w !! siamese = Some ms ->
  wp (classifier_train current_dir trl val images siamese epochs plots)
     (fun _ w' => classifier_train_post current_dir trl siamese epochs plots ms w w')
     (classifier_train_exn current_dir w) w.
Proof.
  intros Hs. unfold classifier_train. cbn zeta.
  assert (Hlt : siamese < length (w_mods w)) by (eapply lookup_lt_Some, Hs).
  apply wp_bind. eapply wp_mono;
    [apply (classifier_setup_effect siamese w ms Hs) | | intros ? ? []].
  intros [c0 o0] w1 [Hco Hw1]. injection Hco as -> ->. cbn beta iota.
  set (classifier := length (w_mods w)) in *.
  set (ms' := mkModule (m_arch ms) (m_params ms) false torch_device) in *.
  set (L := <[siamese := ms']> (w_mods w)) in *.
  assert (HL : length L = classifier) by apply length_insert.
  set (mc := mkModule Classifier (init_params Classifier) true torch_device) in *.
  assert (Hm1 : w_mods w1 = L ++ [mc]) by (rewrite Hw1; reflexivity).
  assert (Hf1 : w_fs w1 = w_fs w) by (rewrite Hw1; reflexivity).
  assert (Ho1 : w_stdout w1 = w_stdout w ++ ["Training classifier"])
    by (rewrite Hw1; reflexivity).
  assert (Hp1 : plot_calls (w_trace w1) = plot_calls (w_trace w)).
  { rewrite Hw1. cbn [w_trace]. rewrite plot_calls_app. cbn. apply app_nil_r. }
  assert (Ht1 : optim_steps (w_trace w1) = optim_steps (w_trace w)).
  { rewrite Hw1. cbn [w_trace]. rewrite optim_steps_app. cbn. apply app_nil_r. }
  clear Hw1.
  apply wp_bind. eapply wp_mono; [apply compute_pos_weight_spec| |].
  2:{ intros e w' (-> & -> & _). split; [discriminate|].
      split; [intros; rewrite Hf1; reflexivity|exact Hp1]. }
  intros pw w' (-> & _ & _).
  assert (Hs1 : w_mods w1 !! siamese = Some ms').
  { rewrite Hm1, lookup_app_l by (rewrite HL; exact Hlt).
    apply (lookup_put _ _ _ _ Hs). }
  assert (Hc1 : w_mods w1 !! classifier = Some mc).
  { rewrite Hm1, <- HL. apply lookup_new. }
  assert (Hne : siamese <> classifier) by lia.
  apply wp_bind. eapply wp_mono;
    [apply (classifier_loop_effect (os_path_join current_dir "models") siamese classifier
              pw trl val epochs 0 epochs
              (classifier_init (mkOptimizer classifier 1e-4%float 1e-5%float adam_init))
              w1 ms' mc Hne Hs1 eq_refl Hc1 eq_refl) | |].
  2:{ intros e w' (He & Hfs & Hpl). split; [exact He|]. split.
      - intros path Hp. rewrite (Hfs path Hp), Hf1. reflexivity.
      - rewrite Hpl. exact Hp1. }
  intros st w2 (m' & chunks & s1 & Hopt & H1 & H2 & H3 & H4 & H5 & H6 & Hmods &
                Harch & Hdev & Htr & Hfs & Hch & Hall & Hout & Hpl & Hsteps).
  cbn beta. unfold classifier_finish.
  assert (Hw2 : w_mods w2 = L ++ [m']).
  { rewrite Hmods, Hm1, <- HL. apply insert_new. }
  assert (Hc2 : w_mods w2 !! classifier = Some m')
    by (rewrite Hw2, <- HL; apply lookup_new).
  assert (Hm' : m' = mkModule Classifier (m_params m')
                       match epochs with 0 => true | S _ => false end torch_device).
  { destruct m' as [a p b d]. cbn in Harch, Hdev, Htr |- *. subst a d.
    rewrite Htr. destruct epochs; reflexivity. }
  assert (Hplots : plot_calls (w_trace w2) = plot_calls (w_trace w))
    by (rewrite Hpl; exact Hp1).
  assert (Hst2 : optim_steps (w_trace w2) =
                 optim_steps (w_trace w) ++ replicate (batches_of trl 0 epochs) classifier)
    by (rewrite Hsteps, Ht1; reflexivity).
  assert (Hfs' : forall path, path <> os_path_join (os_path_join current_dir "models")
                                        classifier_best_name ->
                              w_fs w2 !! path = w_fs w !! path).
  { intros path Hp. rewrite (Hfs path Hp), Hf1. reflexivity. }
  assert (Hout' : w_stdout w2 = (w_stdout w ++ ["Training classifier"]) ++ concat chunks)
    by (rewrite Hout, Ho1; reflexivity).
  cbn [classifier_init c_train_losses c_val_losses c_train_accuracies c_val_accuracies
       c_train_aurocs c_val_aurocs c_optimizer length Nat.add] in H1, H2, H3, H4, H5, H6, Hall.
  apply wp_bind. eapply wp_state_dict_known; [exact Hc2|].
  apply wp_bind, wp_torch_save, wp_bind, wp_print.
  destruct plots.
  - apply wp_bind, wp_emit, wp_bind, wp_emit, wp_emit.
    unfold classifier_train_post. cbn zeta.
    exists (m_params m'), chunks, (c_train_losses st), (c_val_losses st),
      (c_train_accuracies st), (c_val_accuracies st), (c_train_aurocs st),
      (c_val_aurocs st).
    do 6 (split; [assumption|]). wsimpl2.
    split; [rewrite Hw2, Hm' at 1; reflexivity|].
    split; [apply lookup_insert_eq|].
    split; [intros path Hq1 Hq2; rewrite lookup_insert_ne by congruence; apply Hfs', Hq1|].
    split; [exact Hch|]. split; [exact Hall|].
    split; [rewrite Hout', <- !app_assoc; reflexivity|].
    split; [rewrite !plot_calls_app, Hplots, <- !app_assoc; reflexivity|].
    rewrite !optim_steps_app, Hst2. cbn. rewrite !app_nil_r. reflexivity.
  - apply wp_ret.
    unfold classifier_train_post. cbn zeta.
    exists (m_params m'), chunks, (c_train_losses st), (c_val_losses st),
      (c_train_accuracies st), (c_val_accuracies st), (c_train_aurocs st),
      (c_val_aurocs st).
    do 6 (split; [assumption|]). wsimpl2.
    split; [rewrite Hw2, Hm' at 1; reflexivity|].
    split; [apply lookup_insert_eq|].
    split; [intros path Hq1 Hq2; rewrite lookup_insert_ne by congruence; apply Hfs', Hq1|].
    split; [exact Hch|]. split; [exact Hall|].
    split; [rewrite Hout', <- !app_assoc; reflexivity|].
    split; [rewrite !plot_calls_app, Hplots; cbn; rewrite !app_nil_r; reflexivity|].
    rewrite !optim_steps_app, Hst2. cbn. rewrite !app_nil_r. reflexivity.
Qed.

(** ** All outcomes of the two functions *)

Lemma siamese_train_total (current_dir : string) (trl val : DataLoader)
    (images : Tensor) (epochs : nat) (lr : float) (plots : bool) w :
  wp (siamese_train current_dir trl val images epochs lr plots)
     (fun _ w' => (epochs = 0 \/ (dl_len trl <> 0 /\ dl_len val <> 0)) /\
                  siamese_train_post current_dir trl val epochs plots w w')
     (siamese_train_exn trl val epochs w) w.
Proof.
  assert (Hcases : (epochs = 0 \/ (dl_len trl <> 0 /\ dl_len val <> 0)) \/
                   (epochs <> 0 /\ (dl_len trl = 0 \/ dl_len val = 0))).
  { destruct epochs; [auto|]. destruct (dl_len trl); [right; auto|].
    destruct (dl_len val); [right; auto|]. left. right. split; discriminate. }
  destruct Hcases as [Hlen|[Hne Hz]].
  - eapply wp_mono; [apply (siamese_train_effect _ _ _ _ _ _ _ _ Hlen)| |intros ? ? []].
    intros ? w' Hpost. split; assumption.
  - unfold siamese_train, siamese_setup. cbn zeta.
    apply wp_bind, wp_bind, wp_print, wp_bind, wp_new_module, wp_bind.
    eapply wp_mod_to_known; [wsimpl2; apply lookup_new|].
    apply wp_ret. wsimpl2. apply wp_bind. unfold siamese_loop.
    destruct epochs as [|n]; [congruence|]. cbn [for_range].
    apply wp_bind. eapply wp_mono;
      [eapply siamese_epoch_effect; [solve_lookup; apply lookup_new|reflexivity] | |].
    + intros st' w' (ls_tr & ls_va & t & v & p & s & embs & _ & _ & Ht & Hv & _).
      exfalso. destruct Hz as [Hz|Hz]; rewrite Hz in *; discriminate.
    + intros e w' (-> & _ & Hfs & Hout). unfold siamese_train_exn.
      rewrite Hfs, Hout. wnorm. auto.
Qed.

Lemma classifier_train_total (current_dir : string) (trl val : DataLoader)
    (images : Tensor) (siamese epochs : nat) (plots : bool) w :
  wp (classifier_train current_dir trl val images siamese epochs plots)
     (fun _ w' => exists ms, w_mods w !! siamese = Some ms /\
                  classifier_train_post current_dir trl siamese epochs plots ms w w')
     (classifier_train_exn current_dir w) w.
Proof.
  destruct (w_mods w !! siamese) as [ms|] eqn:Hs.
  - eapply wp_mono; [apply (classifier_train_effect _ _ _ _ _ _ _ _ ms Hs)| |auto].
    intros ? w' Hpost. exists ms. auto.
  - unfold classifier_train. cbn zeta.
    apply wp_bind. eapply wp_mono; [apply classifier_setup_spec| |].
    + intros co w' (_ & _ & Hv & _). apply lookup_ge_None in Hs.
      unfold valid in Hv. lia.
    + intros e w' (-> & _ & Hfs & Htr & _). split; [discriminate|].
      split; [intros; rewrite Hfs; reflexivity|]. rewrite Htr. reflexivity.
Qed.

(** ** Checkpoint paths do not collide *)

Lemma append_inv_head (a x y : string) : a +:+ x = a +:+ y -> x = y.
Proof.
  induction a as [|c a IH]; [auto|]. rewrite !append_cons. intros H.
  injection H as H. auto.
Qed.

Lemma os_path_join_inj (a b1 b2 : string) :
  String.prefix "/" b1 = false -> String.prefix "/" b2 = false ->
  os_path_join a b1 = os_path_join a b2 -> b1 = b2.
Proof.
  unfold os_path_join. intros -> ->.
  destruct (String.eqb a "" || ends_with_slash a)%bool; intros H.
  - eapply append_inv_head, H.
  - apply append_inv_head in H. rewrite !append_cons in H. injection H as H. exact H.
Qed.

(** * Further properties of siamese_train *)

(** X1. Asked for at least one epoch over a loader whose [len] is zero,
    siamese_train does not return: its first epoch raises
    ZeroDivisionError where it divides the summed losses by [len] of that
    loader.  By then it has written no file and printed only its opening
    line. *)
Theorem siamese_train_empty_loader (current_dir : string) (trl val : DataLoader)
    (images : Tensor) (epochs : nat) (lr : float) (plots : bool) w :
  epochs <> 0 -> dl_len trl = 0 \/ dl_len val = 0 ->
  wp (siamese_train current_dir trl val images epochs lr plots)
     (fun _ _ => False)
     (fun e w' => e = ZeroDivisionError /\ w_fs w' = w_fs w /\
                  w_stdout w' = w_stdout w ++ ["Training Siamese Network"]) w.
Proof.
  intros Hne Hz.
  eapply wp_mono; [apply siamese_train_total| |].
  - intros ? w' [[H|[H1 H2]] _]; [contradiction|]. destruct Hz; contradiction.
  - intros e w' (He & _ & _ & Hfs & Hout). auto.
Qed.


(** X3. With plots off, the only files siamese_train itself writes are
    its two checkpoints: whatever its outcome, every other path holds what
    it held before the call. *)
Theorem siamese_train_files (current_dir : string) (trl val : DataLoader)
    (images : Tensor) (epochs : nat) (lr : float) w :
  let save_dir := os_path_join current_dir "models" in
  let others_kept (w' : World) :=
    forall path,
      path <> os_path_join save_dir siamese_best_name ->
      path <> os_path_join save_dir siamese_final_name ->
      w_fs w' !! path = w_fs w !! path in
  wp (siamese_train current_dir trl val images epochs lr false)
     (fun _ w' => others_kept w') (fun _ w' => others_kept w') w.
Proof.
  intros save_dir others_kept. eapply wp_mono; [apply siamese_train_total| |].
  - intros ? w' [_ (p & tl & vl & body & es & _ & _ & _ & _ & _ & _ & Hfs & _)].
    exact Hfs.
  - intros e w' (_ & _ & _ & Hfs & _) path _ _. rewrite Hfs. reflexivity.
Qed.




(** X7. When the epoch loop of siamese_train returns, the learning rate
    is what the plateau scheduler (mode min, factor 0.1, patience 3,
    threshold 0.01) makes of [lr] when it is stepped once per epoch with
    that epoch's mean validation loss, in order; the weight decay is still
    1e-5 and the optimizer is still on the model. *)
Theorem siamese_learning_rate_schedule (current_dir save_dir : string) (model : nat)
    (trl val : DataLoader) (epochs : nat) (plots : bool) (lr : float) w m :
  w_mods w !! model = Some m ->
  wp (siamese_loop current_dir save_dir model trl val epochs plots 0 epochs
        (siamese_init model lr))
     (fun st' _ =>
        length (s_val_losses st') = epochs /\
        (s_scheduler st', opt_lr (s_optimizer st')) =
          fold_left (fun sl v => plateau_step sl.1 v sl.2) (s_val_losses st')
                    (plateau_init 0.1%float 3 0.01%float, lr) /\
        opt_weight_decay (s_optimizer st') = 1e-5%float /\
        opt_target (s_optimizer st') = model)
     (fun _ _ => True) w.
Proof.
  intros Hm.
  eapply wp_mono;
    [apply (siamese_loop_effect_any current_dir save_dir model trl val epochs plots 0 epochs
              (siamese_init model lr) w m Hm eq_refl) | | auto].
  intros st' w' (tl & vl & body & es & m' & _ & Hvl & _ & _ & _ & Hv & Hsch & Htg & Hwd & _).
  cbn [siamese_init s_val_losses s_scheduler s_optimizer opt_lr opt_weight_decay app]
    in Hv, Hsch, Hwd.
  rewrite Hv. auto.
Qed.


(** X9. The validation pass of siamese_train, run on a model in eval
    mode, cannot fail and changes nothing: no module object, so no
    parameter, no file, no output; it steps no optimizer and writes no
    checkpoint.  It collects one embedding per batch and the labels of the
    batches in order. *)
Theorem siamese_validation_pass_pure (model : nat) (bs : list (Tensor * list Z)) w m :
  w_mods w !! model = Some m -> m_training m = false ->
  wp (foldM (siamese_val_batch model) (0%float, [], []) bs)
     (fun acc w' =>
        w_mods w' = w_mods w /\ w_fs w' = w_fs w /\ w_stdout w' = w_stdout w /\
        optim_steps (w_trace w') = optim_steps (w_trace w) /\
        saves (w_trace w') = saves (w_trace w) /\
        length acc.1.2 = length bs /\ acc.2 = concat (map snd bs))
     (fun _ _ => False) w.
Proof.
  intros Hm Ht.
  eapply wp_mono; [apply (siamese_val_pass_effect model bs w m Hm Ht)| |auto].
  intros acc w' (ls & _ & _ & He & Hl & ->). cbn [w_mods w_fs w_stdout w_trace].
  rewrite optim_steps_app, saves_app, siamese_val_events_steps, siamese_val_events_saves,
    !app_nil_r.
  auto 10.
Qed.

(** * Further properties of classifier_train *)

(** X10. The calls of an epoch of classifier_train that returns come in
    this order: [classifier.train()]; per training batch a forward call of
    the embedding model in eval mode inside [no_grad], a forward call of
    the classifier in train mode, the weighted criterion,
    [optimizer.step()], [loss.item()]; [classifier.eval()]; per validation
    batch the two forward calls in eval mode inside [no_grad], the
    criterion, [loss.item()]; then the checkpoint, if one is written.  The
    classifier ends the epoch in eval mode, a checkpoint written in the
    epoch holds the parameters it ends the epoch with, and the embedding
    model is the object it was. *)
Theorem classifier_epoch_call_sequence (save_dir : string) (siamese classifier : nat)
    (pw : Tensor) (trl val : DataLoader) (epochs epoch : nat)
    (st : ClassifierLocals) w ms mc :
  siamese <> classifier ->
  w_mods w !! siamese = Some ms -> m_training ms = false ->
  w_mods w !! classifier = Some mc ->
  opt_target (c_optimizer st) = classifier ->
  wp (classifier_epoch save_dir siamese classifier pw trl val epochs epoch st)
     (fun _ w' => exists ls_tr ls_va saved m',
        length ls_tr = length (dl_batches trl epoch) /\
        length ls_va = length (dl_batches val epoch) /\
        w_trace w' =
          w_trace w ++
          [EvMode classifier true] ++
          classifier_train_events siamese classifier pw ls_tr ++
          [EvMode classifier false] ++
          classifier_val_events siamese classifier pw ls_va ++
          match saved with
          | Some p => [EvSave (os_path_join save_dir classifier_best_name) p]
          | None => []
          end /\
        w_mods w' !! classifier = Some m' /\ m_training m' = false /\
        (saved = None \/ saved = Some (m_params m')) /\
        w_mods w' !! siamese = Some ms)
     (fun _ _ => True) w.
Proof.
  intros Hne Hs Hst Hc Ho.
  eapply wp_mono;
    [apply (classifier_epoch_effect _ _ _ _ _ _ _ _ _ _ _ _ Hne Hs Hst Hc Ho)| |auto].
  intros st' w' (tr & va & ls_tr & ls_va & t & v & acc_t & acc_v & p & s & Hl1 & Hl2 &
                 _ & _ & _ & _ & _ & _ & _ & _ & _ & _ & _ & _ & Hpost).
  cbn zeta in Hpost. destruct Hpost as [_ ->].
  exists ls_tr, ls_va,
    (if PyFloat.gt (auroc_value (a_labels va) (a_probs va)) (c_best_auroc st)
     then Some p else None),
    (with_state mc p false).
  cbn [w_trace w_mods]. do 3 (split; [first [assumption|reflexivity]|]).
  split; [apply (lookup_put _ _ _ _ Hc)|]. split; [reflexivity|].
  split; [destruct (PyFloat.gt _ (c_best_auroc st)); auto|].
  rewrite list_lookup_insert_ne by congruence. exact Hs.
Qed.

(** X11. The accuracy an epoch of classifier_train that returns records
    for a split is [correct / total].  [total] is the number of labels in
    that epoch's batches of the split, and is not zero.  [correct] is, summed
    over the batches, the number of probabilities of the batch that, cut
    at 0.5, equal their label; it is at most [total].  The probabilities
    are those the epoch's AUROC of the split is computed from, batch after
    batch. *)
Theorem classifier_accuracy_counts (save_dir : string) (siamese classifier : nat)
    (pw : Tensor) (trl val : DataLoader) (epochs epoch : nat)
    (st : ClassifierLocals) w ms mc :
  siamese <> classifier ->
  w_mods w !! siamese = Some ms -> m_training ms = false ->
  w_mods w !! classifier = Some mc ->
  opt_target (c_optimizer st) = classifier ->
  wp (classifier_epoch save_dir siamese classifier pw trl val epochs epoch st)
     (fun st' _ => exists probs_train probs_val : list (list float),
        let count (probs : list (list float)) (bs : list (Tensor * list Z)) :=
          list_sum (zip_with (fun pb (b : Tensor * list Z) =>
                                count_equal (threshold pb) (map PyFloat.of_Z b.2))
                             probs bs) in
        let correct_train := count probs_train (dl_batches trl epoch) in
        let correct_val := count probs_val (dl_batches val epoch) in
        let total_train := length (epoch_labels (dl_batches trl epoch)) in
        let total_val := length (epoch_labels (dl_batches val epoch)) in
        length probs_train = length (dl_batches trl epoch) /\
        length probs_val = length (dl_batches val epoch) /\
        correct_train <= total_train /\ correct_val <= total_val /\
        total_train <> 0 /\ total_val <> 0 /\
        c_train_accuracies st' =
          c_train_accuracies st ++
          [PrimFloat.div (PyFloat.of_nat correct_train) (PyFloat.of_nat total_train)] /\
        c_val_accuracies st' =
          c_val_accuracies st ++
          [PrimFloat.div (PyFloat.of_nat correct_val) (PyFloat.of_nat total_val)] /\
        c_train_aurocs st' =
          c_train_aurocs st ++
          [auroc_value (epoch_labels (dl_batches trl epoch)) (concat probs_train)] /\
        c_val_aurocs st' =
          c_val_aurocs st ++
          [auroc_value (epoch_labels (dl_batches val epoch)) (concat probs_val)])
     (fun _ _ => True) w.
Proof.
  intros Hne Hs Hst Hc Ho.
  eapply wp_mono;
    [apply (classifier_epoch_effect _ _ _ _ _ _ _ _ _ _ _ _ Hne Hs Hst Hc Ho)| |auto].
  intros st' w' (tr & va & ls_tr & ls_va & t & v & acc_t & acc_v & p & s & _ & _ &
                 _ & _ & Hlab1 & Hlab2 & Htot1 & Htot2 & Hc1 & Hc2 & _ & _ &
                 Ha1 & Ha2 & Hpost).
  cbn zeta in Hpost. destruct Hpost as [-> _].
  destruct Hc1 as [Hle1 (pbs1 & Hpl1 & Hpp1 & Hcc1)].
  destruct Hc2 as [Hle2 (pbs2 & Hpl2 & Hpp2 & Hcc2)].
  exists pbs1, pbs2. cbn zeta.
  cbn [c_train_accuracies c_val_accuracies c_train_aurocs c_val_aurocs].
  fold (correct_count pbs1 (dl_batches trl epoch)).
  fold (correct_count pbs2 (dl_batches val epoch)).
  rewrite <- Hcc1, <- Hcc2, <- Hpp1, <- Hpp2, <- Hlab1, <- Hlab2, <- Htot1, <- Htot2.
  destruct (int_truediv_cases (a_correct tr) (a_total tr)) as [[_ H1]|[Hn1 H1]];
    rewrite H1 in Ha1; [discriminate|]. injection Ha1 as <-.
  destruct (int_truediv_cases (a_correct va) (a_total va)) as [[_ H2]|[Hn2 H2]];
    rewrite H2 in Ha2; [discriminate|]. injection Ha2 as <-.
  auto 12.
Qed.

(** X12. With plots off, a classifier_train that returns has printed the
    opening line, one block of lines per epoch and the closing line.  Every
    block ends with the learning-rate line followed by the checkpoint
    decision, and the learning rate it shows is the 1e-4 the optimizer was
    created with: no scheduler ever changes it. *)
Theorem classifier_train_output (current_dir : string) (trl val : DataLoader)
    (images : Tensor) (siamese epochs : nat) w :
  wp (classifier_train current_dir trl val images siamese epochs false)
     (fun _ w' => exists blocks,
        length blocks = epochs /\
        Forall (fun block => exists pre decision,
                  block = pre ++ ["Learning rate for param group 0: "
                                  +:+ str_float 1e-4%float; decision] /\
                  (decision = "Validation Auroc improved. Saving model." \/
                   decision = "No improvement in validation Auroc.")) blocks /\
        w_stdout w' = w_stdout w ++ ["Training classifier"] ++ concat blocks ++
                      ["Classifier Training complete. Models saved."])
     (fun _ _ => True) w.
Proof.
  eapply wp_mono; [apply classifier_train_total| |auto].
  intros ? w' (ms & _ & p & chunks & tl & vl & ta & va & tu & vu & _ & _ & _ & _ & _ & _ &
               _ & _ & _ & Hch & Hall & Hout & _).
  exists chunks. split; [exact Hch|]. split; [exact Hall|exact Hout].
Qed.

(** X13. The [plots] flag alone decides the calls of utils, and
    classifier_train makes them only once the run is over.  Without the
    flag it makes none; with it, exactly [plot_loss], [plot_accuracy] and
    [plot_auc], in this order, each on two histories holding one entry per
    epoch.  A run that raises has plotted nothing. *)
Theorem classifier_train_plots (current_dir : string) (trl val : DataLoader)
    (images : Tensor) (siamese epochs : nat) (plots : bool) w :
  wp (classifier_train current_dir trl val images siamese epochs plots)
     (fun _ w' => exists tl vl ta va tu vu,
        length tl = epochs /\ length vl = epochs /\ length ta = epochs /\
        length va = epochs /\ length tu = epochs /\ length vu = epochs /\
        plot_calls (w_trace w') =
          plot_calls (w_trace w) ++
          (if plots then [PlotLoss tl vl; PlotAccuracy ta va; PlotAuc tu vu] else []))
     (fun _ w' => plot_calls (w_trace w') = plot_calls (w_trace w)) w.
Proof.
  eapply wp_mono; [apply classifier_train_total| |].
  - intros ? w' (ms & _ & p & chunks & tl & vl & ta & va & tu & vu & H1 & H2 & H3 & H4 &
                 H5 & H6 & _ & _ & _ & _ & _ & _ & Hpl & _).
    exists tl, vl, ta, va, tu, vu. auto 10.
  - intros e w' (_ & _ & Hpl). exact Hpl.
Qed.

(** X14. With plots off, the only files classifier_train itself writes
    are its two checkpoints: whatever its outcome, every other path holds
    what it held before the call. *)
Theorem classifier_train_files (current_dir : string) (trl val : DataLoader)
    (images : Tensor) (siamese epochs : nat) w :
  let save_dir := os_path_join current_dir "models" in
  let others_kept (w' : World) :=
    forall path,
      path <> os_path_join save_dir classifier_best_name ->
      path <> os_path_join save_dir classifier_final_name ->
      w_fs w' !! path = w_fs w !! path in
  wp (classifier_train current_dir trl val images siamese epochs false)
     (fun _ w' => others_kept w') (fun _ w' => others_kept w') w.
Proof.
  intros save_dir others_kept. eapply wp_mono; [apply classifier_train_total| |].
  - intros ? w' (ms & _ & p & chunks & tl & vl & ta & va & tu & vu & _ & _ & _ & _ & _ & _ &
                 _ & _ & Hfs & _).
    exact Hfs.
  - intros e w' (_ & Hfs & _) path Hp _. apply Hfs, Hp.
Qed.

(** X15. Stage B never overwrites Stage A: run with the same base
    directory, classifier_train leaves the two checkpoint files of
    siamese_train as they are, whatever its outcome. *)
Theorem classifier_train_keeps_siamese_checkpoints (current_dir : string)
    (trl val : DataLoader) (images : Tensor) (siamese epochs : nat) (plots : bool) w :
  let save_dir := os_path_join current_dir "models" in
  let kept (w' : World) :=
    w_fs w' !! os_path_join save_dir siamese_best_name
      = w_fs w !! os_path_join save_dir siamese_best_name /\
    w_fs w' !! os_path_join save_dir siamese_final_name
      = w_fs w !! os_path_join save_dir siamese_final_name in
  wp (classifier_train current_dir trl val images siamese epochs plots)
     (fun _ w' => kept w') (fun _ w' => kept w') w.
Proof.
  intros save_dir kept.
  assert (Hd : forall a b, String.prefix "/" a = false -> String.prefix "/" b = false ->
                           a <> b -> os_path_join save_dir a <> os_path_join save_dir b).
  { intros a b Ha Hb Hab H. apply Hab. eapply os_path_join_inj; eassumption. }
  eapply wp_mono; [apply classifier_train_total| |].
  - intros ? w' (ms & _ & p & chunks & tl & vl & ta & va & tu & vu & _ & _ & _ & _ & _ & _ &
                 _ & _ & Hfs & _).
    split; apply Hfs; apply Hd; first [reflexivity | discriminate].
  - intros e w' (_ & Hfs & _).
    split; apply Hfs; apply Hd; first [reflexivity | discriminate].
Qed.

(** X17. A classifier_train that returns has created one module object,
    its Classifier on the selected device, left in eval mode as soon as one
    epoch has run.  Of the module objects that existed it has touched the
    embedding model only, which it has moved to the device and put in eval
    mode, with its parameters as they were.  The final checkpoint file
    holds exactly the parameters the classifier ends with. *)
Theorem classifier_train_modules (current_dir : string) (trl val : DataLoader)
    (images : Tensor) (siamese epochs : nat) (plots : bool) w :
  wp (classifier_train current_dir trl val images siamese epochs plots)
     (fun _ w' => exists ms p,
        w_mods w !! siamese = Some ms /\
        w_mods w' =
          <[siamese := mkModule (m_arch ms) (m_params ms) false torch_device]> (w_mods w)
          ++ [mkModule Classifier p match epochs with 0 => true | S _ => false end
                       torch_device] /\
        w_fs w' !! os_path_join (os_path_join current_dir "models") classifier_final_name
          = Some p)
     (fun _ _ => True) w.
Proof.
  eapply wp_mono; [apply classifier_train_total| |auto].
  intros ? w' (ms & Hs & p & chunks & tl & vl & ta & va & tu & vu & _ & _ & _ & _ & _ & _ &
               Hmods & Hfin & _).
  exists ms, p. auto.
Qed.

(** X18. A validation pass of classifier_train that returns, run with
    both models in eval mode, has changed nothing: no module object, so no
    parameter, no file, no output; it has stepped no optimizer and written
    no checkpoint.  It has counted one label per sample, and no more
    correct predictions than labels. *)
Theorem classifier_validation_pass_pure (siamese classifier : nat) (pw : Tensor)
    (bs : list (Tensor * list Z)) w ms mc :
  w_mods w !! siamese = Some ms -> m_training ms = false ->
  w_mods w !! classifier = Some mc -> m_training mc = false ->
  wp (foldM (classifier_val_batch siamese classifier pw) pass_init bs)
     (fun acc w' =>
        w_mods w' = w_mods w /\ w_fs w' = w_fs w /\ w_stdout w' = w_stdout w /\
        optim_steps (w_trace w') = optim_steps (w_trace w) /\
        saves (w_trace w') = saves (w_trace w) /\
        a_labels acc = epoch_labels bs /\
        a_total acc = length (epoch_labels bs) /\ a_correct acc <= a_total acc)
     (fun _ _ => True) w.
Proof.
  intros Hs Hst Hc Hct.
  eapply wp_mono;
    [apply (classifier_val_pass_effect siamese classifier pw bs w ms mc Hs Hst Hc Hct)| |auto].
  intros acc w' (ls & _ & _ & Hlab & Htot & [Hcor _] & ->).
  cbn [w_mods w_fs w_stdout w_trace].
  assert (Hsv : saves (classifier_val_events siamese classifier pw ls) = []).
  { clear. induction ls as [|x ls IH]; [reflexivity|exact IH]. }
  rewrite optim_steps_app, saves_app, classifier_val_events_steps, Hsv, !app_nil_r.
  rewrite <- Hlab. auto 10.
Qed.

(** X19. classifier_train steps the optimizer once per training batch,
    always on the classifier it created, and never during validation:
    over a run that returns the steps number the batches the training
    loader yielded. *)
Theorem classifier_train_optimizer_steps (current_dir : string) (trl val : DataLoader)
    (images : Tensor) (siamese epochs : nat) (plots : bool) w :
  wp (classifier_train current_dir trl val images siamese epochs plots)
     (fun _ w' =>
        optim_steps (w_trace w') =
        optim_steps (w_trace w) ++
        replicate (list_sum (map (fun i => length (dl_batches trl i)) (seq 0 epochs)))
                  (length (w_mods w)))
     (fun _ _ => True) w.
Proof.
  eapply wp_mono; [apply classifier_train_total| |auto].
  intros ? w' (ms & _ & p & chunks & tl & vl & ta & va & tu & vu & _ & _ & _ & _ & _ & _ &
               _ & _ & _ & _ & _ & _ & _ & Hst).
  exact Hst.
Qed.

(** A run that returns, by [returned], gives what [wp] promises of it. *)
Lemma wp_returns {A} (m : M A) Q E w :
  returned (m w) = true -> wp m Q E w -> exists a w', m w = Returned a w' /\ Q a w'.
Proof.
  unfold wp, returned. destruct (m w) as [a w'|e w']; [|discriminate].
  intros _ H. exists a, w'. auto.
Qed.

(** A run that cannot return raises what [wp] promises of it. *)
Lemma wp_raises {A} (m : M A) E w :
  wp m (fun _ _ => False) E w -> exists e w', m w = Raised e w' /\ E e w'.
Proof.
  unfold wp. destruct (m w) as [a w'|e w']; [contradiction|].
  intros H. exists e, w'. auto.
Qed.

End Proofs.

(** * The concrete run *)

Example stub_siamese_three_epochs :
  map fst (saves (w_trace (stub_siamese_world 3)))
    = ["out/models/siamese_resnet18_best.pth"; "out/models/siamese_resnet18_best.pth"]
  /\ s_val_losses (stub_siamese_locals 3) = [0.5; 0.6; 0.45]%float
  /\ s_best_loss (stub_siamese_locals 3) = 0.45%float.
Proof. vm_compute. repeat split. Qed.

Example stub_classifier_three_epochs :
  c_val_aurocs (stub_cls_locals 3) = [PyFloat.nan; 1; 1]%float
  /\ c_val_accuracies (stub_cls_locals 3) = [1; 1; 1]%float
  /\ c_best_auroc (stub_cls_locals 3) = 1%float
  /\ map fst (saves (w_trace (stub_cls_state 3))) = ["out/models/classifier_best.pth"].
Proof. vm_compute. repeat split. Qed.

(** ** Stage A on the concrete run *)

(** The second epoch (validation loss 0.6 against a record of 0.5) saves
    nothing and keeps the record. *)
Lemma siamese_best_checkpoint_policy_witness :
  @siamese_loop stub "out" (os_path_join "out" "models") 0 stub_train_loader
    stub_val_loader 3 false 0 1 (@siamese_init stub 0 1e-4%float)
    (final_world (@siamese_setup stub stub_world))
    = Returned (stub_siamese_locals 1) (stub_siamese_world 1) /\
  @siamese_epoch stub "out" (os_path_join "out" "models") 0 stub_train_loader
    stub_val_loader 3 false 1 (stub_siamese_locals 1) (stub_siamese_world 1)
    = Returned (stub_siamese_locals 2) (stub_siamese_world 2) /\
  s_best_loss (stub_siamese_locals 2) = s_best_loss (stub_siamese_locals 1) /\
  saves (w_trace (stub_siamese_world 2)) = saves (w_trace (stub_siamese_world 1)).
Proof.
  assert (H1 : @siamese_loop stub "out" (os_path_join "out" "models") 0
                 stub_train_loader stub_val_loader 3 false 0 1
                 (@siamese_init stub 0 1e-4%float)
                 (final_world (@siamese_setup stub stub_world))
               = Returned (stub_siamese_locals 1) (stub_siamese_world 1))
    by (vm_compute; reflexivity).
  assert (H2 : @siamese_epoch stub "out" (os_path_join "out" "models") 0
                 stub_train_loader stub_val_loader 3 false 1
                 (stub_siamese_locals 1) (stub_siamese_world 1)
               = Returned (stub_siamese_locals 2) (stub_siamese_world 2))
    by (vm_compute; reflexivity).
  split; [exact H1|]. split; [exact H2|].
  destruct (@siamese_best_checkpoint_policy stub "out" stub_train_loader
              stub_val_loader 3 false 1e-4%float 0 1
              (final_world (@siamese_setup stub stub_world))
              (stub_siamese_locals 1) (stub_siamese_world 1)
              (stub_siamese_locals 2) (stub_siamese_world 2) H1 H2)
    as (_ & _ & v & Hv & _ & Hc).
  assert (Ev : v = 0.6%float).
  { vm_compute in Hv. injection Hv as <-. reflexivity. }
  subst v.
  replace (PyFloat.lt 0.6%float (s_best_loss (stub_siamese_locals 1))) with false in Hc
    by (vm_compute; reflexivity).
  destruct Hc as (Hb & Hs & _). split; [exact Hb|exact Hs].
Defined.

(** The whole of siamese_train on the concrete run returns and leaves the
    final checkpoint. *)
Lemma final_checkpoints_unconditional_witness :
  exists w3,
    @siamese_train stub "out" stub_train_loader stub_val_loader [] 3 1e-4%float false
      stub_world = Returned tt w3 /\
    exists p, w_fs w3 !! os_path_join (os_path_join "out" "models") siamese_final_name = Some p.
Proof.
  destruct (proj1 (@final_checkpoints_unconditional stub "out" stub_train_loader
                     stub_val_loader [] 3 false)
              1e-4%float stub_world 0 (final_world (@siamese_setup stub stub_world))
              (stub_siamese_locals 3) (stub_siamese_world 3)
              ltac:(vm_compute; reflexivity) ltac:(vm_compute; reflexivity))
    as (w3 & m & Hrun & _ & _ & Hfile & _).
  exists w3. split; [exact Hrun|]. exists (m_params m). exact Hfile.
Defined.

(** The first epoch of the concrete run, whose two training batches have
    losses 0.8 and 0.4. *)
Lemma mean_epoch_loss_witness :
  exists ls_tr ls_va,
    items (w_trace (stub_siamese_world 1))
      = items (w_trace (stub_siamese_world 0)) ++ ls_tr ++ ls_va /\
    length ls_tr = 2 /\
    s_train_losses (stub_siamese_locals 1)
      = s_train_losses (stub_siamese_locals 0)
        ++ [PrimFloat.div (running_sum ls_tr) (PyFloat.of_nat 2)] /\
    PrimFloat.ltb
      (PrimFloat.abs
         (PrimFloat.sub
            (PrimFloat.div (running_sum [0.8; 0.4]%float) (PyFloat.of_nat 2)) 0.6%float))
      1e-7%float = true.
Proof.
  destruct (proj1 (@mean_epoch_loss stub "out" (os_path_join "out" "models") stub_train_loader
                     stub_val_loader 3 0)
              0 false (stub_siamese_locals 0) (stub_siamese_world 0)
              (stub_siamese_locals 1) (stub_siamese_world 1)
              eq_refl ltac:(vm_compute; reflexivity))
    as (ls_tr & ls_va & Hi & Hl & _ & _ & _ & Ht & _).
  exists ls_tr, ls_va. split; [exact Hi|]. split; [exact Hl|]. split; [exact Ht|].
  exact (proj2 (proj2 (@mean_epoch_loss stub "out" (os_path_join "out" "models")
                         stub_train_loader stub_val_loader 3 0))
           [0.8; 0.4]%float (or_introl eq_refl)).
Defined.

(** ** Stage B on the concrete run *)

(** The second epoch, after a first epoch whose validation AUROC is NaN:
    its AUROC 1.0 is above the record 0.0 and the checkpoint is written. *)
Lemma classifier_best_checkpoint_policy_witness :
  @classifier_loop stub (os_path_join "out" "models") 0 1 [1.5%float] stub_cls_train
    stub_cls_val 3 0 1 (@classifier_init stub stub_cls_optimizer) stub_cls_world_1
    = Returned (stub_cls_locals 1) (stub_cls_state 1) /\
  @classifier_epoch stub (os_path_join "out" "models") 0 1 [1.5%float] stub_cls_train
    stub_cls_val 3 1 (stub_cls_locals 1) (stub_cls_state 1)
    = Returned (stub_cls_locals 2) (stub_cls_state 2) /\
  c_best_auroc (stub_cls_locals 2) = 1%float.
Proof.
  assert (H1 : @classifier_loop stub (os_path_join "out" "models") 0 1 [1.5%float]
                 stub_cls_train stub_cls_val 3 0 1
                 (@classifier_init stub stub_cls_optimizer) stub_cls_world_1
               = Returned (stub_cls_locals 1) (stub_cls_state 1))
    by (vm_compute; reflexivity).
  assert (H2 : @classifier_epoch stub (os_path_join "out" "models") 0 1 [1.5%float]
                 stub_cls_train stub_cls_val 3 1 (stub_cls_locals 1) (stub_cls_state 1)
               = Returned (stub_cls_locals 2) (stub_cls_state 2))
    by (vm_compute; reflexivity).
  split; [exact H1|]. split; [exact H2|].
  destruct (@classifier_best_checkpoint_policy stub "out" stub_cls_train stub_cls_val
              3 [1.5%float] stub_cls_optimizer 0 1 1 stub_cls_world_1
              (stub_cls_locals 1) (stub_cls_state 1)
              (stub_cls_locals 2) (stub_cls_state 2) eq_refl H1 H2)
    as (_ & _ & a & Ha & _ & Hc).
  assert (Ea : a = 1%float).
  { vm_compute in Ha. injection Ha as <-. reflexivity. }
  subst a.
  replace (PyFloat.gt 1%float (c_best_auroc (stub_cls_locals 1))) with true in Hc
    by (vm_compute; reflexivity).
  destruct Hc as (Hb & _). exact Hb.
Defined.

(** C2 as stated fails: in the second epoch the previous epoch's
    validation AUROC is NaN, so the epoch's AUROC 1.0 is not greater than
    every previous AUROC, and yet the best checkpoint is written. *)
Lemma classifier_best_checkpoint_policy_counterexample :
  exists st' w' a,
    @classifier_epoch stub (os_path_join "out" "models") 0 1 [1.5%float] stub_cls_train stub_cls_val 3 1
      (stub_cls_locals 1) (stub_cls_state 1) = Returned st' w' /\
    c_val_aurocs (stub_cls_locals 1) = [PyFloat.nan] /\
    c_val_aurocs st' = c_val_aurocs (stub_cls_locals 1) ++ [a] /\
    ~ (saves (w_trace w') <> saves (w_trace (stub_cls_state 1)) <->
       forall u, In u (c_val_aurocs (stub_cls_locals 1)) -> PyFloat.gt a u = true).
Proof.
  exists (stub_cls_locals 2), (stub_cls_state 2), 1%float.
  split; [vm_compute; reflexivity|]. split; [vm_compute; reflexivity|].
  split; [vm_compute; reflexivity|].
  intros [H _].
  assert (Hs : saves (w_trace (stub_cls_state 2)) <> saves (w_trace (stub_cls_state 1)))
    by (vm_compute; discriminate).
  specialize (H Hs PyFloat.nan ltac:(vm_compute; left; reflexivity)).
  vm_compute in H. discriminate H.
Qed.

(** The first epoch of the concrete run has a NaN validation AUROC. *)
Lemma nan_auroc_never_best_witness :
  PyFloat.is_nan PyFloat.nan = true /\
  c_best_auroc (stub_cls_locals 1) = c_best_auroc (@classifier_init stub stub_cls_optimizer) /\
  saves (w_trace (stub_cls_state 1)) = saves (w_trace stub_cls_world_1).
Proof.
  split; [reflexivity|].
  destruct (@nan_auroc_never_best stub (os_path_join "out" "models") stub_cls_train stub_cls_val 3
              [1.5%float] 0 1 0 (@classifier_init stub stub_cls_optimizer)
              stub_cls_world_1 (stub_cls_locals 1) (stub_cls_state 1) PyFloat.nan
              eq_refl ltac:(vm_compute; reflexivity) ltac:(vm_compute; reflexivity)
              eq_refl)
    as (_ & Hb & Hs & _).
  split; [exact Hb|exact Hs].
Defined.


Lemma stub_auroc_escape (labels probs : list float) :
  @auroc_escape stub labels probs = None.
Proof.
  unfold auroc_escape. cbn [roc_auc_score classification_report stub].
  unfold stub_auroc. destruct (single_class labels); reflexivity.
Qed.

(** The loop of the concrete run goes through its three epochs although
    the first has validation labels of one class. *)
Lemma auroc_failure_recovered_witness :
  single_class (epoch_labels (dl_batches stub_cls_val 0)) = true /\
  @classifier_loop stub (os_path_join "out" "models") 0 1 [1.5%float] stub_cls_train
    stub_cls_val 3 0 3 (@classifier_init stub stub_cls_optimizer) stub_cls_world_1
  = Returned (stub_cls_locals 3) (stub_cls_state 3) /\
  c_val_aurocs (stub_cls_locals 3) !! 0 = Some PyFloat.nan.
Proof.
  assert (Hsc : single_class (epoch_labels (dl_batches stub_cls_val 0)) = true)
    by (vm_compute; reflexivity).
  assert (Hrun :
    @classifier_loop stub (os_path_join "out" "models") 0 1 [1.5%float] stub_cls_train
      stub_cls_val 3 0 3 (@classifier_init stub stub_cls_optimizer) stub_cls_world_1
    = Returned (stub_cls_locals 3) (stub_cls_state 3))
    by (vm_compute; reflexivity).
  assert (Hsk : forall labels probs, single_class labels = true ->
                  @roc_auc_score stub labels probs = Err ValueError).
  { intros labels probs H. cbn [roc_auc_score stub]. unfold stub_auroc.
    rewrite H. reflexivity. }
  split; [exact Hsc|]. split; [exact Hrun|].
  pose proof (proj2 (proj2 (@auroc_failure_recovered stub (os_path_join "out" "models") 0 1
                              [1.5%float] stub_cls_train stub_cls_val 3
                              stub_cls_optimizer stub_cls_world_1))) as H.
  specialize (H eq_refl Hsk (stub_cls_locals 3) (stub_cls_state 3) Hrun).
  destruct H as (_ & _ & Hk).
  exact (proj2 (Hk 0 ltac:(lia)) Hsc).
Defined.

(** The first epoch of the concrete run prints the training report and,
    its validation labels being of one class, no validation report. *)
Lemma classification_report_printed_witness :
  exists probs_tr probs_va summary,
    w_stdout (stub_cls_state 1) = w_stdout stub_cls_world_1
      ++ @report_lines stub train_report_header
           (epoch_labels (dl_batches stub_cls_train 0)) probs_tr
      ++ @report_lines stub val_report_header
           (epoch_labels (dl_batches stub_cls_val 0)) probs_va
      ++ summary /\
    length summary = 5.
Proof.
  exact (proj1 (@classification_report_printed stub (os_path_join "out" "models") 0 1 [1.5%float]
                  stub_cls_train stub_cls_val 3 0
                  (@classifier_init stub stub_cls_optimizer) stub_cls_world_1
                  (stub_cls_locals 1) (stub_cls_state 1)
                  eq_refl ltac:(vm_compute; reflexivity))).
Defined.

(** C7 as stated fails: the first epoch prints the training report but
    no validation report, because the validation labels are of one class
    and the report sits in the same [try] as [roc_auc_score]. *)
Lemma classification_report_printed_counterexample :
  stub_cls_run 1 = Returned (stub_cls_locals 1) (stub_cls_state 1) /\
  existsb (String.eqb train_report_header) (w_stdout (stub_cls_state 1)) = true /\
  existsb (String.eqb val_report_header) (w_stdout (stub_cls_state 1)) = false /\
  ~ In val_report_header (w_stdout (stub_cls_state 1)).
Proof.
  split; [vm_compute; reflexivity|]. split; [vm_compute; reflexivity|].
  split; [vm_compute; reflexivity|].
  intros Hin.
  assert (E : existsb (String.eqb val_report_header) (w_stdout (stub_cls_state 1)) = true).
  { apply existsb_exists. exists val_report_header. split; [exact Hin|].
    apply String.eqb_refl. }
  vm_compute in E. discriminate E.
Qed.

(** The embedding model of the concrete run keeps its parameters. *)
Lemma siamese_frozen_witness :
  w_mods stub_cls_world !! 0 = Some stub_siamese_module /\
  w_mods (final_world (@classifier_train stub "out" stub_cls_train stub_cls_val [] 0 3
                         false stub_cls_world)) !! 0
  = Some (@mkModule stub SiameseNN 7 false Cpu).
Proof.
  split; [reflexivity|].
  exact (proj1 (proj2 (@siamese_frozen stub "out" stub_cls_train stub_cls_val [] 0 3 false
                         stub_cls_world stub_siamese_module eq_refl))).
Defined.

(** A training set of two benign samples: the run stops at the division. *)
Lemma no_malignant_sample_aborts_witness :
  malignant_count stub_no_malignant = 0 /\
  exists w',
    @classifier_train stub "out" stub_no_malignant stub_cls_val [] 0 3 false stub_cls_world
      = Raised ZeroDivisionError w' /\
    w_fs w' = w_fs stub_cls_world.
Proof.
  split; [reflexivity|].
  destruct (proj1 (@no_malignant_sample_aborts stub "out" stub_no_malignant stub_cls_val
                     [] 0 3 false stub_cls_world stub_siamese_module eq_refl) eq_refl)
    as (w' & Hrun & _ & Hf & _).
  exists w'. split; [exact Hrun|exact Hf].
Defined.

(** ** The further properties on the stand-in *)

(** The concrete runs return. *)
Lemma stub_model_loop_returns :
  returned (@siamese_loop stub "out" (os_path_join "out" "models") 0 stub_train_loader
             stub_val_loader 3 false 0 3 (@siamese_init stub 0 1e-4%float)
             stub_model_world) = true.
Proof. vm_compute. reflexivity. Qed.


Lemma stub_model_validation_returns :
  returned (foldM (@siamese_val_batch stub 0) (0%float, [], [])
             (dl_batches stub_val_loader 0) stub_model_eval_world) = true.
Proof. vm_compute. reflexivity. Qed.

Lemma stub_pair_epoch_returns :
  returned (@classifier_epoch stub (os_path_join "out" "models") 0 1 [1.5%float]
             stub_cls_train stub_cls_val 3 1 (@classifier_init stub stub_cls_optimizer)
             stub_pair_world) = true.
Proof. vm_compute. reflexivity. Qed.

Lemma stub_pair_validation_returns :
  returned (foldM (@classifier_val_batch stub 0 1 [1.5%float]) pass_init
             (dl_batches stub_cls_val 1) stub_pair_eval_world) = true.
Proof. vm_compute. reflexivity. Qed.

Lemma siamese_train_empty_loader_witness :
  1 <> 0 /\ (dl_len stub_empty_loader = 0 \/ dl_len stub_val_loader = 0) /\
  exists w',
    @siamese_train stub "out" stub_empty_loader stub_val_loader [] 1 1e-4%float false
      stub_world = Raised ZeroDivisionError w' /\
    w_fs w' = w_fs stub_world.
Proof.
  assert (H1 : 1 <> 0) by discriminate.
  assert (H2 : dl_len stub_empty_loader = 0 \/ dl_len stub_val_loader = 0)
    by (left; reflexivity).
  split; [exact H1|]. split; [exact H2|].
  destruct (wp_raises _ _ _
              (@siamese_train_empty_loader stub "out" stub_empty_loader stub_val_loader []
                 1 1e-4%float false stub_world H1 H2))
    as (e & w' & Hrun & He & Hfs & _).
  exists w'. rewrite <- He. split; [exact Hrun|exact Hfs].
Defined.

Lemma siamese_learning_rate_schedule_witness :
  w_mods stub_model_world !! 0 = Some (@mkModule stub SiameseNN 0 true Cpu) /\
  exists st' w',
    @siamese_loop stub "out" (os_path_join "out" "models") 0 stub_train_loader
      stub_val_loader 3 false 0 3 (@siamese_init stub 0 1e-4%float) stub_model_world
    = Returned st' w' /\
    length (s_val_losses st') = 3 /\ opt_lr (s_optimizer st') = 1e-4%float /\
    opt_weight_decay (s_optimizer st') = 1e-5%float.
Proof.
  assert (H1 : w_mods stub_model_world !! 0 = Some (@mkModule stub SiameseNN 0 true Cpu))
    by reflexivity.
  split; [exact H1|].
  pose proof (@siamese_learning_rate_schedule stub "out" (os_path_join "out" "models") 0
                stub_train_loader stub_val_loader 3 false 1e-4%float stub_model_world
                (@mkModule stub SiameseNN 0 true Cpu) H1) as H.
  destruct (wp_returns _ _ _ _ stub_model_loop_returns H) as (a & w' & Hrun & HQ). clear H.
  destruct HQ as (Hl & Hs & Hwd & _).
  exists a, w'. split; [exact Hrun|]. split; [exact Hl|]. split; [|exact Hwd].
  apply (f_equal snd) in Hs. cbn [snd] in Hs. rewrite Hs.
  clear. induction (s_val_losses a) as [|v l IH]; [reflexivity|exact IH].
Defined.


Lemma siamese_validation_pass_pure_witness :
  w_mods stub_model_eval_world !! 0 = Some (@mkModule stub SiameseNN 0 false Cpu) /\
  m_training (@mkModule stub SiameseNN 0 false Cpu) = false /\
  exists acc w',
    foldM (@siamese_val_batch stub 0) (0%float, [], []) (dl_batches stub_val_loader 0)
      stub_model_eval_world = Returned acc w' /\
    w_mods w' = w_mods stub_model_eval_world /\ acc.2 = [0%Z].
Proof.
  assert (H1 : w_mods stub_model_eval_world !! 0
               = Some (@mkModule stub SiameseNN 0 false Cpu)) by reflexivity.
  split; [exact H1|]. split; [reflexivity|].
  pose proof (@siamese_validation_pass_pure stub 0 (dl_batches stub_val_loader 0)
                stub_model_eval_world (@mkModule stub SiameseNN 0 false Cpu) H1 eq_refl)
    as H.
  destruct (wp_returns _ _ _ _ stub_model_validation_returns H) as (a & w' & Hrun & HQ). clear H.
  destruct HQ as (Hm & _ & _ & _ & _ & _ & Hl).
  exists a, w'. split; [exact Hrun|]. split; [exact Hm|exact Hl].
Defined.

Lemma classifier_epoch_call_sequence_witness :
  0 <> 1 /\
  w_mods stub_pair_world !! 0 = Some (@mkModule stub SiameseNN 7 false Cpu) /\
  w_mods stub_pair_world !! 1 = Some (@mkModule stub Classifier 0 true Cpu) /\
  opt_target (c_optimizer (@classifier_init stub stub_cls_optimizer)) = 1 /\
  exists st' w',
    @classifier_epoch stub (os_path_join "out" "models") 0 1 [1.5%float] stub_cls_train
      stub_cls_val 3 1 (@classifier_init stub stub_cls_optimizer) stub_pair_world
    = Returned st' w' /\
    w_mods w' !! 0 = Some (@mkModule stub SiameseNN 7 false Cpu) /\
    exists m', w_mods w' !! 1 = Some m' /\ m_training m' = false.
Proof.
  assert (H0 : 0 <> 1) by discriminate.
  assert (H1 : w_mods stub_pair_world !! 0 = Some (@mkModule stub SiameseNN 7 false Cpu))
    by reflexivity.
  assert (H2 : w_mods stub_pair_world !! 1 = Some (@mkModule stub Classifier 0 true Cpu))
    by reflexivity.
  assert (H3 : opt_target (c_optimizer (@classifier_init stub stub_cls_optimizer)) = 1)
    by reflexivity.
  split; [exact H0|]. split; [exact H1|]. split; [exact H2|]. split; [exact H3|].
  pose proof (@classifier_epoch_call_sequence stub (os_path_join "out" "models") 0 1
                [1.5%float] stub_cls_train stub_cls_val 3 1
                (@classifier_init stub stub_cls_optimizer) stub_pair_world
                (@mkModule stub SiameseNN 7 false Cpu) (@mkModule stub Classifier 0 true Cpu)
                H0 H1 eq_refl H2 H3) as H.
  destruct (wp_returns _ _ _ _ stub_pair_epoch_returns H) as (a & w' & Hrun & HQ). clear H.
  destruct HQ as (ls_tr & ls_va & saved & m' & _ & _ & _ & Hm & Ht & _ & Hs).
  exists a, w'. split; [exact Hrun|]. split; [exact Hs|]. exists m'. split; assumption.
Defined.

Lemma classifier_accuracy_counts_witness :
  0 <> 1 /\
  w_mods stub_pair_world !! 0 = Some (@mkModule stub SiameseNN 7 false Cpu) /\
  w_mods stub_pair_world !! 1 = Some (@mkModule stub Classifier 0 true Cpu) /\
  opt_target (c_optimizer (@classifier_init stub stub_cls_optimizer)) = 1 /\
  exists st' w',
    @classifier_epoch stub (os_path_join "out" "models") 0 1 [1.5%float] stub_cls_train
      stub_cls_val 3 1 (@classifier_init stub stub_cls_optimizer) stub_pair_world
    = Returned st' w' /\
    length (c_train_accuracies st') = 1 /\ length (c_val_accuracies st') = 1.
Proof.
  assert (H0 : 0 <> 1) by discriminate.
  assert (H1 : w_mods stub_pair_world !! 0 = Some (@mkModule stub SiameseNN 7 false Cpu))
    by reflexivity.
  assert (H2 : w_mods stub_pair_world !! 1 = Some (@mkModule stub Classifier 0 true Cpu))
    by reflexivity.
  assert (H3 : opt_target (c_optimizer (@classifier_init stub stub_cls_optimizer)) = 1)
    by reflexivity.
  split; [exact H0|]. split; [exact H1|]. split; [exact H2|]. split; [exact H3|].
  pose proof (@classifier_accuracy_counts stub (os_path_join "out" "models") 0 1
                [1.5%float] stub_cls_train stub_cls_val 3 1
                (@classifier_init stub stub_cls_optimizer) stub_pair_world
                (@mkModule stub SiameseNN 7 false Cpu) (@mkModule stub Classifier 0 true Cpu)
                H0 H1 eq_refl H2 H3) as H.
  destruct (wp_returns _ _ _ _ stub_pair_epoch_returns H) as (a & w' & Hrun & HQ). clear H.
  destruct HQ as (pt & pv & H). cbn zeta in H.
  destruct H as (_ & _ & _ & _ & _ & _ & Ha & Hb & _).
  exists a, w'. split; [exact Hrun|]. rewrite Ha, Hb. split; reflexivity.
Defined.

Lemma classifier_validation_pass_pure_witness :
  w_mods stub_pair_eval_world !! 0 = Some (@mkModule stub SiameseNN 7 false Cpu) /\
  w_mods stub_pair_eval_world !! 1 = Some (@mkModule stub Classifier 0 false Cpu) /\
  exists acc w',
    foldM (@classifier_val_batch stub 0 1 [1.5%float]) pass_init
      (dl_batches stub_cls_val 1) stub_pair_eval_world = Returned acc w' /\
    w_mods w' = w_mods stub_pair_eval_world /\ a_total acc = 4.
Proof.
  assert (H1 : w_mods stub_pair_eval_world !! 0
               = Some (@mkModule stub SiameseNN 7 false Cpu)) by reflexivity.
  assert (H2 : w_mods stub_pair_eval_world !! 1
               = Some (@mkModule stub Classifier 0 false Cpu)) by reflexivity.
  split; [exact H1|]. split; [exact H2|].
  pose proof (@classifier_validation_pass_pure stub 0 1 [1.5%float]
                (dl_batches stub_cls_val 1) stub_pair_eval_world
                (@mkModule stub SiameseNN 7 false Cpu) (@mkModule stub Classifier 0 false Cpu)
                H1 eq_refl H2 eq_refl) as H.
  destruct (wp_returns _ _ _ _ stub_pair_validation_returns H) as (a & w' & Hrun & HQ). clear H.
  destruct HQ as (Hm & _ & _ & _ & _ & _ & Ht & _).
  exists a, w'. split; [exact Hrun|]. split; [exact Hm|exact Ht].
Defined.
